(** * restfulwrapper: a shallow embedding of the endpoint-binding engine

    The Go package [restfulwrapper] derives, from a handler function and a
    metadata struct annotated with [api:"..."] tags, how a request is bound
    to the struct and how the handler's results are rendered.  This file
    embeds the value parser ([parsestringvalue.go]), the directive registry
    ([register.go], [init-register.go]), the signature analyser and the
    struct walker ([ParseRestfulFunction], [handleField]), and the
    dispatcher ([CreateFunctionWithError], [restfulFunctionWrapper]), and
    proves the properties the specification states about them. *)

From Stdlib Require Import ZArith Lia List String Ascii Bool.
From stdpp Require Import base option gmap strings.

Import ListNotations.
#[local] Set Warnings "-register-all".
#[local] Open Scope string_scope.
#[local] Open Scope Z_scope.

(* ===================================================================== *)
(** * Results, errors of the standard library *)
(* ===================================================================== *)

(** A Go call that returns [(T, error)]. *)
Inductive result (E A : Type) : Type :=
| Ok (a : A)
| Err (e : E).
Arguments Ok {E A} a.
Arguments Err {E A} e.

Definition isOk {E A} (r : result E A) : bool :=
  match r with Ok _ => true | Err _ => false end.

(** [strconv.ErrSyntax] and [strconv.ErrRange]. *)
Inductive NumErrKind : Type := ErrSyntax | ErrRange.

(** [strconv.NumError]. *)
Record NumError : Type := mkNumError {
  Func : string;
  Num : string;
  NumErr : NumErrKind
}.

Definition syntaxError (fn str : string) : NumError := mkNumError fn str ErrSyntax.
Definition rangeError (fn str : string) : NumError := mkNumError fn str ErrRange.

(* ===================================================================== *)
(** * strconv at base 10, as the value parser calls it *)
(* ===================================================================== *)

(** Package [strconv] belongs to Go's standard library, not to the
    repository.  The value parser calls [ParseBool], [ParseInt] and
    [ParseUint]; they are modelled here after their implementation, with the
    overflow checks of [ParseUint] on a wrapping 64-bit accumulator.  The
    formatting functions give the canonical text of a value. *)

Module strconv.

Definition maxUint64 : Z := 2 ^ 64 - 1.

(** The value of a decimal digit byte, [None] for any other byte.  With
    base 10 the letters that [ParseUint] maps to digits 10..35 all fail
    the test [d >= byte(base)], so they are rejected like the rest. *)
Definition digitValue (c : ascii) : option Z :=
  let n := Z.of_nat (nat_of_ascii c) in
  if (48 <=? n) && (n <=? 57) then Some (n - 48) else None.

(** The loop of [ParseUint]: [n] is a uint64, its arithmetic wraps. *)
Fixpoint parseUintLoop (fn s0 : string) (maxVal : Z) (n : Z) (s : string)
  : result NumError Z :=
  match s with
  | EmptyString => Ok n
  | String c rest =>
      match digitValue c with
      | None => Err (syntaxError fn s0)
      | Some d =>
          let cutoff := maxUint64 / 10 + 1 in
          if cutoff <=? n then Err (rangeError fn s0)
          else
            let n10 := (n * 10) mod 2 ^ 64 in
            let n1 := (n10 + d) mod 2 ^ 64 in
            if (n1 <? n10) || (maxVal <? n1) then Err (rangeError fn s0)
            else parseUintLoop fn s0 maxVal n1 rest
      end
  end.

(** [ParseUint(s, 10, bitSize)] for [0 < bitSize <= 64]. *)
Definition ParseUint (s : string) (bitSize : Z) : result NumError Z :=
  match s with
  | EmptyString => Err (syntaxError "ParseUint" s)
  | _ => parseUintLoop "ParseUint" s (2 ^ bitSize - 1) 0 s
  end.

(** [ParseInt(s, 10, bitSize)]: an optional sign, then [ParseUint] on the
    rest; a syntax error is relabelled with [ParseInt] and the whole input,
    the magnitude is checked against [1 << (bitSize-1)]. *)
Definition ParseInt (s0 : string) (bitSize : Z) : result NumError Z :=
  match s0 with
  | EmptyString => Err (syntaxError "ParseInt" s0)
  | String c rest =>
      let neg := Ascii.eqb c "-" in
      let s := if Ascii.eqb c "+" || neg then rest else s0 in
      let cutoff := 2 ^ (bitSize - 1) in
      let check (un : Z) :=
        if negb neg && (cutoff <=? un) then Err (rangeError "ParseInt" s0)
        else if neg && (cutoff <? un) then Err (rangeError "ParseInt" s0)
        else Ok (if neg then - un else un) in
      match ParseUint s bitSize with
      | Err e =>
          match NumErr e with
          | ErrRange => check (2 ^ bitSize - 1)
          | ErrSyntax => Err (syntaxError "ParseInt" s0)
          end
      | Ok un => check un
      end
  end.

(** [ParseBool]. *)
Definition ParseBool (str : string) : result NumError bool :=
  if (String.eqb str "1" || String.eqb str "t" || String.eqb str "T"
      || String.eqb str "TRUE" || String.eqb str "true" || String.eqb str "True")%bool
  then Ok true
  else if (String.eqb str "0" || String.eqb str "f" || String.eqb str "F"
      || String.eqb str "FALSE" || String.eqb str "false" || String.eqb str "False")%bool
  then Ok false
  else Err (syntaxError "ParseBool" str).


Definition digitChar (d : Z) : ascii := ascii_of_nat (Z.to_nat (48 + d)).

(** The loop of [formatBits] at base 10: digits are produced from the
    right; [fuel] bounds the number of digits (20 suffice for a uint64). *)
Fixpoint formatDigits (fuel : nat) (u : Z) (acc : string) : string :=
  match fuel with
  | O => acc
  | S fuel' =>
      if 10 <=? u
      then formatDigits fuel' (u / 10) (String (digitChar (u mod 10)) acc)
      else String (digitChar u) acc
  end.

(** [FormatUint(u, 10)]. *)
Definition FormatUint (u : Z) : string := formatDigits 20 u EmptyString.

(** [FormatInt(i, 10)]. *)
Definition FormatInt (i : Z) : string :=
  if i <? 0 then String "-" (FormatUint (- i)) else FormatUint i.

End strconv.


(* ===================================================================== *)
(** * Types and values as reflection shows them *)
(* ===================================================================== *)

(** [reflect.Kind]. *)
Inductive Kind : Type :=
| KInvalid | KBool
| KInt | KInt8 | KInt16 | KInt32 | KInt64
| KUint | KUint8 | KUint16 | KUint32 | KUint64
| KFloat32 | KFloat64
| KString | KPointer | KSlice | KStruct | KFunc | KInterface | KMap.

(** [Kind.String()]. *)
Definition kindString (k : Kind) : string :=
  match k with
  | KInvalid => "invalid" | KBool => "bool"
  | KInt => "int" | KInt8 => "int8" | KInt16 => "int16"
  | KInt32 => "int32" | KInt64 => "int64"
  | KUint => "uint" | KUint8 => "uint8" | KUint16 => "uint16"
  | KUint32 => "uint32" | KUint64 => "uint64"
  | KFloat32 => "float32" | KFloat64 => "float64"
  | KString => "string" | KPointer => "ptr" | KSlice => "slice"
  | KStruct => "struct" | KFunc => "func" | KInterface => "interface"
  | KMap => "map"
  end.

(** The data of a Go value.  Integers are mathematical integers in the range
    of their type, a float is its IEEE bit pattern, a struct lists the data
    of its fields in declaration order. *)
Inductive GoValue : Type :=
| VBool (b : bool)
| VInt (i : Z)
| VUint (u : Z)
| VFloat (bits : Z)
| VString (s : string)
| VNil
| VPtr (v : GoValue)
| VSlice (l : list GoValue)
| VStruct (fs : list GoValue)
| VOpaque (what : string).

(** What is written to a [restful.Response]. *)
Inductive Entity : Type :=
| EntNil
| EntValue (v : GoValue)
| EntErrorOutput (type message : string)
| EntParameterErrorOutput (type message parameter : string).

Inductive RespOp : Type :=
| WriteHeaderAndEntity (status : Z) (entity : Entity)
| SetHeader (key value : string)
| WriteBytes (bytes : string).

(** The response sink: the operations performed on it, oldest first. *)
Definition Response : Type := list RespOp.

(** [APIResponseError]: [httpError] is [Some code] for the
    [*httperror.Error] that [httperror.ErrorFromStatus(code)] returns and
    [None] for a nil error. *)
Record APIResponseError : Type := mkAPIResponseError {
  message : string;
  httpError : option Z
}.

(** The error values the package meets.  [EOther] is any other error: its
    [%T] name, its [Error()] text, its [WriteError] method when it implements
    [ErrorWriter], and what [Unwrap()] returns. *)
Inductive GoError : Type :=
| ENum (e : NumError)
| EAPIResponse (e : APIResponseError)
| EAPIBody (bodyError : GoError) (apiResponseError : APIResponseError)
| EAPIHeaderParameter (parameter : string) (parameterError : GoError)
    (apiResponseError : APIResponseError)
| EAPIPathParameter (parameter : string) (parameterError : GoError)
    (apiResponseError : APIResponseError)
| EAPIQueryParameter (parameter : string) (parameterError : GoError)
    (apiResponseError : APIResponseError)
| EOther (typeName text : string) (writeError : option (Response -> Response))
    (unwrap : option GoError).

(** [errors.New(text)] and [fmt.Errorf(text)] without [%w]. *)
Definition errorf (text : string) : GoError :=
  EOther "*errors.errorString" text None None.

(** [fmt.Errorf("...%w", ..., inner)], [text] being the formatted message. *)
Definition errorfW (text : string) (inner : GoError) : GoError :=
  EOther "*fmt.wrapError" text None (Some inner).

(** A method set, as far as the package asks: whether the type satisfies
    [context.Context], whether it satisfies [error], and, when a pointer to
    the type implements [ParameterParser], its [ParseString]: the new value
    of the pointee or the error returned. *)
Record Methods : Type := mkMethods {
  isContext : bool;
  isError : bool;
  parameterParser : option (string -> result GoError GoValue)
}.

Definition noMethods : Methods := mkMethods false false None.

(** [reflect.Type] and [reflect.StructField]: the answers of the reflection
    calls the package makes. *)
Inductive GoType : Type :=
| mkType (typeString : string) (typeKind : Kind) (typeMethods : Methods)
    (typeElem : option GoType) (typeFields : list StructField)
    (typeIn typeOut : list GoType)
with StructField : Type :=
| mkStructField (fieldName : string) (fieldAnonymous : bool)
    (fieldTag : list (string * string)) (fieldType : GoType).

Definition typeString (t : GoType) : string :=
  match t with mkType s _ _ _ _ _ _ => s end.
Definition typeKind (t : GoType) : Kind :=
  match t with mkType _ k _ _ _ _ _ => k end.
Definition typeMethods (t : GoType) : Methods :=
  match t with mkType _ _ m _ _ _ _ => m end.
Definition typeElem (t : GoType) : option GoType :=
  match t with mkType _ _ _ e _ _ _ => e end.
Definition typeFields (t : GoType) : list StructField :=
  match t with mkType _ _ _ _ fs _ _ => fs end.
Definition typeIn (t : GoType) : list GoType :=
  match t with mkType _ _ _ _ _ i _ => i end.
Definition typeOut (t : GoType) : list GoType :=
  match t with mkType _ _ _ _ _ _ o => o end.

Definition fieldName (f : StructField) : string :=
  match f with mkStructField n _ _ _ => n end.
Definition fieldAnonymous (f : StructField) : bool :=
  match f with mkStructField _ a _ _ => a end.
Definition fieldTag (f : StructField) : list (string * string) :=
  match f with mkStructField _ _ t _ => t end.
Definition fieldType (f : StructField) : GoType :=
  match f with mkStructField _ _ _ t => t end.

(** [StructTag.Lookup] and [StructTag.Get]. *)
Fixpoint tagLookup (tag : list (string * string)) (key : string) : option string :=
  match tag with
  | [] => None
  | (k, v) :: rest => if String.eqb k key then Some v else tagLookup rest key
  end.

Definition tagGet (tag : list (string * string)) (key : string) : string :=
  match tagLookup tag key with Some v => v | None => EmptyString end.

(** Predeclared types and the usual constructions. *)
Definition basicType (k : Kind) : GoType :=
  mkType (kindString k) k noMethods None [] [] [].
Definition pointerTo (t : GoType) : GoType :=
  mkType (String "*" (typeString t)) KPointer noMethods (Some t) [] [] [].
Definition sliceOf (t : GoType) : GoType :=
  mkType ("[]" ++ typeString t) KSlice noMethods (Some t) [] [] [].
Definition structType (name : string) (fields : list StructField) : GoType :=
  mkType name KStruct noMethods None fields [] [].
Definition funcType (ins outs : list GoType) : GoType :=
  mkType "func" KFunc noMethods None [] ins outs.
Definition contextType : GoType :=
  mkType "context.Context" KInterface (mkMethods true false None) None [] [] [].
Definition errorType : GoType :=
  mkType "error" KInterface (mkMethods false true None) None [] [] [].

(** The services of the Go standard library that are taken as given:
    [strconv.ParseFloat] (on IEEE bit patterns), [strconv.Quote], and the
    width of [int] and [uint]. *)
Record Platform : Type := mkPlatform {
  ParseFloat : string -> Z -> result NumError Z;
  Quote : string -> string;
  IntSize : Z
}.

(* ===================================================================== *)
(** * Helpers of package strings *)
(* ===================================================================== *)

(** [strings.Split(s, sep)] for a one-byte separator. *)
Fixpoint Split (sep : ascii) (s : string) : list string :=
  match s with
  | EmptyString => [EmptyString]
  | String c rest =>
      if Ascii.eqb c sep then EmptyString :: Split sep rest
      else match Split sep rest with
           | h :: t => String c h :: t
           | [] => [String c EmptyString]
           end
  end.

(** [strings.SplitN(s, sep, 2)] for a one-byte separator: the text before
    the first separator and, when there is one, the text after it. *)
Fixpoint SplitN2 (sep : ascii) (s : string) : string * option string :=
  match s with
  | EmptyString => (EmptyString, None)
  | String c rest =>
      if Ascii.eqb c sep then (EmptyString, Some rest)
      else let (h, t) := SplitN2 sep rest in (String c h, t)
  end.

(** The white space [strings.TrimSpace] removes, among single bytes. *)
Definition isSpace (c : ascii) : bool :=
  let n := nat_of_ascii c in
  (Nat.eqb n 9 || Nat.eqb n 10 || Nat.eqb n 11 || Nat.eqb n 12
   || Nat.eqb n 13 || Nat.eqb n 32)%bool.

Fixpoint trimLeftSpace (s : string) : string :=
  match s with
  | EmptyString => EmptyString
  | String c rest => if isSpace c then trimLeftSpace rest else s
  end.

Fixpoint trimRightSpace (s : string) : string :=
  match s with
  | EmptyString => EmptyString
  | String c rest =>
      match trimRightSpace rest with
      | EmptyString => if isSpace c then EmptyString else String c EmptyString
      | r => String c r
      end
  end.

(** [strings.TrimSpace]. *)
Definition TrimSpace (s : string) : string := trimRightSpace (trimLeftSpace s).

(** [slices.Contains] on strings. *)
Definition containsString (l : list string) (s : string) : bool :=
  existsb (String.eqb s) l.

(* ===================================================================== *)
(** * Requests, reflected values, outcomes *)
(* ===================================================================== *)

(** What a binder can ask of a [restful.Request]. *)
Record Request : Type := mkRequest {
  reqMethod : string;
  reqURLPath : string;
  reqPathParameter : string -> string;
  reqQueryParameters : string -> list string;
  reqHeaderParameter : string -> string;
  reqParseForm : result GoError GoValue;
  reqReadForm : result GoError GoValue;
  reqReadAll : result GoError string;
  reqReadEntity : GoType -> result GoError GoValue
}.

(** A [reflect.Value] for a field of the metadata struct.  [valueValid] is
    false for the zero Value, [valueExported] is false when the value was
    reached through an unexported field (it then cannot be set, and
    [Interface()] panics on it). *)
Record Value : Type := mkValue {
  valueValid : bool;
  valueType : GoType;
  valueData : GoValue;
  valueExported : bool
}.

Definition zeroReflectValue : Value :=
  mkValue false (basicType KInvalid) VNil false.

Definition valueKind (v : Value) : Kind :=
  if valueValid v then typeKind (valueType v) else KInvalid.

(** [v.CanSet()]: the metadata struct is addressable, so this is whether the
    field is exported. *)
Definition CanSet (v : Value) : bool := valueValid v && valueExported v.

(** The zero value of a type: [reflect.New(t).Elem()]. *)
Fixpoint zeroValue (t : GoType) : GoValue :=
  match t with
  | mkType _ k _ _ fields _ _ =>
      match k with
      | KBool => VBool false
      | KInt | KInt8 | KInt16 | KInt32 | KInt64 => VInt 0
      | KUint | KUint8 | KUint16 | KUint32 | KUint64 => VUint 0
      | KFloat32 | KFloat64 => VFloat 0
      | KString => VString EmptyString
      | KStruct =>
          VStruct ((fix zeros (l : list StructField) : list GoValue :=
                      match l with
                      | [] => []
                      | mkStructField _ _ _ ft :: rest => zeroValue ft :: zeros rest
                      end) fields)
      | _ => VNil
      end
  end.

(** [Type.Elem()] where the package calls it on a pointer or slice type. *)
Definition elemType (t : GoType) : GoType :=
  match typeElem t with Some e => e | None => basicType KInvalid end.

(** A computation that may return an error or panic. *)
Inductive outcome (A : Type) : Type :=
| Done (a : A)
| Fail (e : GoError)
| Panic (why : string).
Arguments Done {A} a.
Arguments Fail {A} e.
Arguments Panic {A} why.

(** What a handler returns in one result slot: a nil interface, a plain
    value, a value that implements [Writer] (with its [Write] method), or a
    non-nil error. *)
Inductive Ret : Type :=
| RNil
| RValue (v : GoValue)
| RWriter (v : GoValue) (Write : Response -> Response)
| RError (e : GoError).

(** A function value: its type and what calling it returns. *)
Record FuncValue : Type := mkFuncValue {
  fnType : GoType;
  fnCall : list GoValue -> list Ret
}.

(* ===================================================================== *)
(** * Route information (info.go) *)
(* ===================================================================== *)

Record RestfulFunctionPathParameter : Type := mkPathParameter {
  ppFieldName : string;
  ppName : string;
  ppDescription : string
}.

Record RestfulFunctionQueryParameter : Type := mkQueryParameter {
  qpFieldName : string;
  qpName : string;
  qpDescription : string;
  qpAllowMultiple : bool
}.

Record RestfulFunctionHeaderParameter : Type := mkHeaderParameter {
  hpFieldName : string;
  hpName : string;
  hpDescription : string;
  hpAllowMultiple : bool
}.

(** The fields of [*info] that binder closures read again at request time
    through the pointer they captured. *)
Record InfoAtRequest : Type := mkInfoAtRequest {
  arDoc : string;
  arNotes : string;
  arConsumes : list string
}.

(** [InputFieldFunction]: [v] is the field, [metadataValue] the struct being
    filled.  The result is the data [v] holds afterwards. *)
Definition InputFieldFunction : Type :=
  InfoAtRequest -> Value -> Request -> GoValue -> outcome GoValue.

Record InputField : Type := mkInputField {
  Name : string;
  Function : InputFieldFunction
}.

(** [RestfulFunctionInfo], without the [Do] functions and [LocalMap], which
    nothing in the package writes after [ParseRestfulFunction] creates them. *)
Record RestfulFunctionInfo : Type := mkInfo {
  FunctionValue : FuncValue;
  InContextPosition : Z;
  InMetadataPosition : Z;
  InMetadataType : option GoType;
  OutErrorPosition : Z;
  OutResponsePosition : Z;
  HTTPMethod : string;
  HTTPPath : string;
  Doc : string;
  Notes : string;
  PathParameters : list RestfulFunctionPathParameter;
  QueryParameters : list RestfulFunctionQueryParameter;
  HeaderParameters : list RestfulFunctionHeaderParameter;
  BodyExample : option (GoType * GoValue);
  ResponseExample : option (GoType * GoValue);
  Consumes : list string;
  Produces : list string;
  InputFields : list InputField
}.

Definition atRequest (info : RestfulFunctionInfo) : InfoAtRequest :=
  mkInfoAtRequest (Doc info) (Notes info) (Consumes info).

(** Field updates, one per assignment the factories make. *)
Definition setHTTPMethod (x : string) (i : RestfulFunctionInfo) :=
  mkInfo (FunctionValue i) (InContextPosition i) (InMetadataPosition i)
    (InMetadataType i) (OutErrorPosition i) (OutResponsePosition i)
    x (HTTPPath i) (Doc i) (Notes i) (PathParameters i) (QueryParameters i)
    (HeaderParameters i) (BodyExample i) (ResponseExample i) (Consumes i)
    (Produces i) (InputFields i).
Definition setHTTPPath (x : string) (i : RestfulFunctionInfo) :=
  mkInfo (FunctionValue i) (InContextPosition i) (InMetadataPosition i)
    (InMetadataType i) (OutErrorPosition i) (OutResponsePosition i)
    (HTTPMethod i) x (Doc i) (Notes i) (PathParameters i) (QueryParameters i)
    (HeaderParameters i) (BodyExample i) (ResponseExample i) (Consumes i)
    (Produces i) (InputFields i).
Definition setDoc (x : string) (i : RestfulFunctionInfo) :=
  mkInfo (FunctionValue i) (InContextPosition i) (InMetadataPosition i)
    (InMetadataType i) (OutErrorPosition i) (OutResponsePosition i)
    (HTTPMethod i) (HTTPPath i) x (Notes i) (PathParameters i) (QueryParameters i)
    (HeaderParameters i) (BodyExample i) (ResponseExample i) (Consumes i)
    (Produces i) (InputFields i).
Definition setNotes (x : string) (i : RestfulFunctionInfo) :=
  mkInfo (FunctionValue i) (InContextPosition i) (InMetadataPosition i)
    (InMetadataType i) (OutErrorPosition i) (OutResponsePosition i)
    (HTTPMethod i) (HTTPPath i) (Doc i) x (PathParameters i) (QueryParameters i)
    (HeaderParameters i) (BodyExample i) (ResponseExample i) (Consumes i)
    (Produces i) (InputFields i).
Definition setPathParameters (x : list RestfulFunctionPathParameter)
    (i : RestfulFunctionInfo) :=
  mkInfo (FunctionValue i) (InContextPosition i) (InMetadataPosition i)
    (InMetadataType i) (OutErrorPosition i) (OutResponsePosition i)
    (HTTPMethod i) (HTTPPath i) (Doc i) (Notes i) x (QueryParameters i)
    (HeaderParameters i) (BodyExample i) (ResponseExample i) (Consumes i)
    (Produces i) (InputFields i).
Definition setQueryParameters (x : list RestfulFunctionQueryParameter)
    (i : RestfulFunctionInfo) :=
  mkInfo (FunctionValue i) (InContextPosition i) (InMetadataPosition i)
    (InMetadataType i) (OutErrorPosition i) (OutResponsePosition i)
    (HTTPMethod i) (HTTPPath i) (Doc i) (Notes i) (PathParameters i) x
    (HeaderParameters i) (BodyExample i) (ResponseExample i) (Consumes i)
    (Produces i) (InputFields i).
Definition setHeaderParameters (x : list RestfulFunctionHeaderParameter)
    (i : RestfulFunctionInfo) :=
  mkInfo (FunctionValue i) (InContextPosition i) (InMetadataPosition i)
    (InMetadataType i) (OutErrorPosition i) (OutResponsePosition i)
    (HTTPMethod i) (HTTPPath i) (Doc i) (Notes i) (PathParameters i)
    (QueryParameters i) x (BodyExample i) (ResponseExample i) (Consumes i)
    (Produces i) (InputFields i).
Definition setBodyExample (x : option (GoType * GoValue)) (i : RestfulFunctionInfo) :=
  mkInfo (FunctionValue i) (InContextPosition i) (InMetadataPosition i)
    (InMetadataType i) (OutErrorPosition i) (OutResponsePosition i)
    (HTTPMethod i) (HTTPPath i) (Doc i) (Notes i) (PathParameters i)
    (QueryParameters i) (HeaderParameters i) x (ResponseExample i) (Consumes i)
    (Produces i) (InputFields i).
Definition setResponseExample (x : option (GoType * GoValue)) (i : RestfulFunctionInfo) :=
  mkInfo (FunctionValue i) (InContextPosition i) (InMetadataPosition i)
    (InMetadataType i) (OutErrorPosition i) (OutResponsePosition i)
    (HTTPMethod i) (HTTPPath i) (Doc i) (Notes i) (PathParameters i)
    (QueryParameters i) (HeaderParameters i) (BodyExample i) x (Consumes i)
    (Produces i) (InputFields i).
Definition setConsumes (x : list string) (i : RestfulFunctionInfo) :=
  mkInfo (FunctionValue i) (InContextPosition i) (InMetadataPosition i)
    (InMetadataType i) (OutErrorPosition i) (OutResponsePosition i)
    (HTTPMethod i) (HTTPPath i) (Doc i) (Notes i) (PathParameters i)
    (QueryParameters i) (HeaderParameters i) (BodyExample i) (ResponseExample i) x
    (Produces i) (InputFields i).
Definition setProduces (x : list string) (i : RestfulFunctionInfo) :=
  mkInfo (FunctionValue i) (InContextPosition i) (InMetadataPosition i)
    (InMetadataType i) (OutErrorPosition i) (OutResponsePosition i)
    (HTTPMethod i) (HTTPPath i) (Doc i) (Notes i) (PathParameters i)
    (QueryParameters i) (HeaderParameters i) (BodyExample i) (ResponseExample i)
    (Consumes i) x (InputFields i).
Definition setInputFields (x : list InputField) (i : RestfulFunctionInfo) :=
  mkInfo (FunctionValue i) (InContextPosition i) (InMetadataPosition i)
    (InMetadataType i) (OutErrorPosition i) (OutResponsePosition i)
    (HTTPMethod i) (HTTPPath i) (Doc i) (Notes i) (PathParameters i)
    (QueryParameters i) (HeaderParameters i) (BodyExample i) (ResponseExample i)
    (Consumes i) (Produces i) x.
Definition setInPositions (ctx meta : Z) (mt : option GoType) (i : RestfulFunctionInfo) :=
  mkInfo (FunctionValue i) ctx meta mt (OutErrorPosition i) (OutResponsePosition i)
    (HTTPMethod i) (HTTPPath i) (Doc i) (Notes i) (PathParameters i)
    (QueryParameters i) (HeaderParameters i) (BodyExample i) (ResponseExample i)
    (Consumes i) (Produces i) (InputFields i).
Definition setOutPositions (err resp : Z) (i : RestfulFunctionInfo) :=
  mkInfo (FunctionValue i) (InContextPosition i) (InMetadataPosition i)
    (InMetadataType i) err resp
    (HTTPMethod i) (HTTPPath i) (Doc i) (Notes i) (PathParameters i)
    (QueryParameters i) (HeaderParameters i) (BodyExample i) (ResponseExample i)
    (Consumes i) (Produces i) (InputFields i).

(* ===================================================================== *)
(** * The directive registry (register.go) *)
(* ===================================================================== *)

(** [RegisterFunction].  A factory works on [*info]: it returns the info as
    it left it together with its two results. *)
Definition RegisterFunction : Type :=
  string -> StructField -> RestfulFunctionInfo ->
  RestfulFunctionInfo * result GoError (option InputFieldFunction).

(** [registeredFunctionMap]: a Go map from tag key to factory; a factory may
    be the nil function value, [None]. *)
Abbreviation Registry := (gmap string (option RegisterFunction)).

(** [Register(apiTagKey, f)] on the registry: the registry afterwards and
    how the call ends.  It panics when the key is present, and then leaves
    the map as it was; else it stores [f]. *)
Definition Register (apiTagKey : string) (f : option RegisterFunction)
    (registeredFunctionMap : Registry) : Registry * outcome unit :=
  match registeredFunctionMap !! apiTagKey with
  | Some _ =>
      (registeredFunctionMap, Panic ("tag already registered: " ++ apiTagKey))
  | None => (<[apiTagKey := f]> registeredFunctionMap, Done tt)
  end.

Section Engine.

Variable P : Platform.

(* ===================================================================== *)
(** * Errors of the package *)
(* ===================================================================== *)

(** [Error()] of a [NumError]. *)
Definition numErrorText (e : NumError) : string :=
  "strconv." ++ Func e ++ ": parsing " ++ Quote P (Num e) ++ ": "
  ++ match NumErr e with
     | ErrSyntax => "invalid syntax"
     | ErrRange => "value out of range"
     end.

(** The [Error()] method. *)
Fixpoint errorText (e : GoError) : string :=
  match e with
  | ENum ne => numErrorText ne
  | EAPIResponse ar => message ar
  | EAPIBody be _ => errorText be
  | EAPIHeaderParameter _ pe _ => errorText pe
  | EAPIPathParameter _ pe _ => errorText pe
  | EAPIQueryParameter _ pe _ => errorText pe
  | EOther _ text _ _ => text
  end.

(** [fmt.Sprintf("%T", err)]. *)
Definition errorTypeName (e : GoError) : string :=
  match e with
  | ENum _ => "*strconv.NumError"
  | EAPIResponse _ => "*restfulwrapper.APIResponseError"
  | EAPIBody _ _ => "*restfulwrapper.APIBodyError"
  | EAPIHeaderParameter _ _ _ => "*restfulwrapper.APIHeaderParameterError"
  | EAPIPathParameter _ _ _ => "*restfulwrapper.APIPathParameterError"
  | EAPIQueryParameter _ _ _ => "*restfulwrapper.APIQueryParameterError"
  | EOther name _ _ _ => name
  end.

Definition StatusOK : Z := 200.
Definition StatusBadRequest : Z := 400.
Definition StatusInternalServerError : Z := 500.

(** [Code()] of an [APIResponseError]. *)
Definition Code (e : APIResponseError) : Z :=
  match httpError e with
  | Some code => code
  | None => StatusInternalServerError
  end.

Definition NewAPIBodyError (bodyError : GoError) : GoError :=
  EAPIBody bodyError
    (mkAPIResponseError (errorText bodyError) (Some StatusBadRequest)).

Definition NewAPIHeaderParameterError (parameter : string) (parameterError : GoError)
  : GoError :=
  EAPIHeaderParameter parameter parameterError
    (mkAPIResponseError (errorText parameterError) (Some StatusBadRequest)).

Definition NewAPIPathParameterError (parameter : string) (parameterError : GoError)
  : GoError :=
  EAPIPathParameter parameter parameterError
    (mkAPIResponseError (errorText parameterError) (Some StatusBadRequest)).

Definition NewAPIQueryParameterError (parameter : string) (parameterError : GoError)
  : GoError :=
  EAPIQueryParameter parameter parameterError
    (mkAPIResponseError (errorText parameterError) (Some StatusBadRequest)).

(** The [WriteError] methods of the package's own errors. *)
Definition WriteError (e : GoError) (resp : Response) : Response :=
  match e with
  | EAPIResponse ar =>
      (resp ++ [WriteHeaderAndEntity (Code ar)
                  (EntErrorOutput (errorTypeName e) (message ar))])%list
  | EAPIBody _ ar =>
      (resp ++ [WriteHeaderAndEntity (Code ar)
                  (EntErrorOutput (errorTypeName e) (errorText e))])%list
  | EAPIHeaderParameter p _ ar
  | EAPIPathParameter p _ ar
  | EAPIQueryParameter p _ ar =>
      (resp ++ [WriteHeaderAndEntity (Code ar)
                  (EntParameterErrorOutput (errorTypeName e) (message ar) p)])%list
  | EOther _ _ (Some w) _ => w resp
  | _ => resp
  end.

(** [errors.As(err, &errorWriter)] for an [ErrorWriter] target: the first
    error of the chain that implements [ErrorWriter].  The package's errors
    implement it themselves; a [*NumError] unwraps to a plain sentinel. *)
Fixpoint asErrorWriter (e : GoError) : option GoError :=
  match e with
  | ENum _ => None
  | EOther _ _ (Some _) _ => Some e
  | EOther _ _ None (Some inner) => asErrorWriter inner
  | EOther _ _ None None => None
  | _ => Some e
  end.

(* ===================================================================== *)
(** * The value parser (parsestringvalue.go) *)
(* ===================================================================== *)

(** [Type.Bits()] for the sized kinds. *)
Definition kindBits (k : Kind) : Z :=
  match k with
  | KInt | KUint => IntSize P
  | KInt8 | KUint8 => 8
  | KInt16 | KUint16 => 16
  | KInt32 | KUint32 | KFloat32 => 32
  | KInt64 | KUint64 | KFloat64 => 64
  | _ => 0
  end.

(** The dynamic kind of an [any]: [reflect.ValueOf(target).Kind()]. *)
Definition anyKind (target : option (GoType * GoValue)) : Kind :=
  match target with
  | None => KInvalid
  | Some (t, _) => typeKind t
  end.

(** [parseStringToSingleValue(stringValue, target)].  [target] is an [any]:
    [None] is the nil interface, otherwise the dynamic type and data.  The
    result is the error returned, or the data the pointee holds afterwards. *)
Definition parseStringToSingleValue (stringValue : string)
    (target : option (GoType * GoValue)) : result GoError GoValue :=
  match target with
  | Some (t, VPtr _) =>
      match typeKind t, typeElem t with
      | KPointer, Some elem =>
          match parameterParser (typeMethods elem) with
          | Some ParseString =>
              match ParseString stringValue with
              | Err err =>
                  Err (errorfW ("could not parse string value: " ++ errorText err) err)
              | Ok v => Ok v
              end
          | None =>
              match typeKind elem with
              | KBool =>
                  match strconv.ParseBool stringValue with
                  | Err err => Err (ENum err)
                  | Ok v => Ok (VBool v)
                  end
              | KFloat32 | KFloat64 =>
                  match ParseFloat P stringValue (kindBits (typeKind elem)) with
                  | Err err => Err (ENum err)
                  | Ok v => Ok (VFloat v)
                  end
              | KInt | KInt8 | KInt16 | KInt32 | KInt64 =>
                  match strconv.ParseInt stringValue (kindBits (typeKind elem)) with
                  | Err err => Err (ENum err)
                  | Ok v => Ok (VInt v)
                  end
              | KString => Ok (VString stringValue)
              | KUint | KUint8 | KUint16 | KUint32 | KUint64 =>
                  match strconv.ParseUint stringValue (kindBits (typeKind elem)) with
                  | Err err => Err (ENum err)
                  | Ok v => Ok (VUint v)
                  end
              | k =>
                  Err (errorf ("could not parse to single value: unhandled kind: "
                               ++ kindString k))
              end
          end
      | k, _ => Err (errorf ("invalid target: needed pointer, got " ++ kindString k))
      end
  | _ => Err (errorf ("invalid target: needed pointer, got "
                      ++ kindString (anyKind target)))
  end.

(* ===================================================================== *)
(** * What a text denotes, independently of the parser *)
(* ===================================================================== *)

(** The number a string of decimal digits denotes, continuing from [n];
    [None] when some byte is not a digit. *)
Fixpoint digitsValue (n : Z) (s : string) : option Z :=
  match s with
  | EmptyString => Some n
  | String c rest =>
      match strconv.digitValue c with
      | None => None
      | Some d => digitsValue (n * 10 + d) rest
      end
  end.

(** Unsigned decimal text: one or more digits. *)
Definition uintText (s : string) : option Z :=
  match s with
  | EmptyString => None
  | _ => digitsValue 0 s
  end.

(** Signed decimal text: an optional sign, then one or more digits. *)
Definition intText (s : string) : option Z :=
  match s with
  | EmptyString => None
  | String c rest =>
      if Ascii.eqb c "+" then uintText rest
      else if Ascii.eqb c "-" then option_map Z.opp (uintText rest)
      else uintText s
  end.

(** The canonical tokens of a boolean and the other accepted spellings. *)
Definition boolText (s : string) : option bool :=
  if existsb (String.eqb s) ["1"; "t"; "T"; "TRUE"; "true"; "True"] then Some true
  else if existsb (String.eqb s) ["0"; "f"; "F"; "FALSE"; "false"; "False"] then Some false
  else None.

(** The scalar kinds the parser handles itself, floats apart. *)
Definition isSignedKind (k : Kind) : bool :=
  match k with KInt | KInt8 | KInt16 | KInt32 | KInt64 => true | _ => false end.
Definition isUnsignedKind (k : Kind) : bool :=
  match k with KUint | KUint8 | KUint16 | KUint32 | KUint64 => true | _ => false end.
Definition isFloatKind (k : Kind) : bool :=
  match k with KFloat32 | KFloat64 => true | _ => false end.

(** The values of a kind: the range of a fixed-width integer. *)
Definition inRange (k : Kind) (v : GoValue) : bool :=
  match v with
  | VBool _ => match k with KBool => true | _ => false end
  | VString _ => match k with KString => true | _ => false end
  | VInt i =>
      isSignedKind k && (- 2 ^ (kindBits k - 1) <=? i) && (i <? 2 ^ (kindBits k - 1))
  | VUint u => isUnsignedKind k && (0 <=? u) && (u <? 2 ^ kindBits k)
  | _ => false
  end.


(** The value a text denotes at a kind, [None] when the text is malformed
    for the kind or denotes a number outside its range. *)
Definition denotes (k : Kind) (s : string) : option GoValue :=
  let check v := if inRange k v then Some v else None in
  if isSignedKind k then
    match intText s with Some i => check (VInt i) | None => None end
  else if isUnsignedKind k then
    match uintText s with Some u => check (VUint u) | None => None end
  else
    match k with
    | KBool => option_map VBool (boolText s)
    | KString => Some (VString s)
    | _ => None
    end.

(** A pointer target for the parser: a non-nil pointer to a variable of
    type [t] currently holding [old]. *)
Definition pointerTarget (t : GoType) (old : GoValue) : option (GoType * GoValue) :=
  Some (pointerTo t, VPtr old).

(* ===================================================================== *)
(** * Reflection steps of the binders *)
(* ===================================================================== *)

(** [v.Addr().Interface()]: a pointer to the field as an [any].  It panics
    on the zero Value and on a value reached through an unexported field. *)
Definition addrInterface (v : Value) : outcome (option (GoType * GoValue)) :=
  if negb (valueValid v) then Panic "reflect: call of reflect.Value.Addr on zero Value"
  else if negb (valueExported v) then
    Panic "reflect.Value.Interface: cannot return value obtained from unexported field or method"
  else Done (Some (pointerTo (valueType v), VPtr (valueData v))).

(** [v.Set(x)] for an [x] of type [t] and data [d]: the data [v] holds
    afterwards.  It panics when [v] cannot be set or [x] is of another type. *)
Definition setValue (v : Value) (t : string) (d : GoValue) : outcome GoValue :=
  if negb (CanSet v) then
    Panic "reflect: reflect.Value.Set using unaddressable or unexported value"
  else if String.eqb (typeString (valueType v)) t then Done d
  else Panic "reflect.Set: value is not assignable to the type of the field".

(** [if v.CanSet() { v.SetString(s) }]. *)
Definition setStringIfCanSet (v : Value) (s : string) : outcome GoValue :=
  if CanSet v then
    match valueKind v with
    | KString => Done (VString s)
    | _ => Panic "reflect: call of reflect.Value.SetString on non-string Value"
    end
  else Done (valueData v).

(** [if v.CanSet() { v.Set(reflect.ValueOf(x)) }]. *)
Definition setIfCanSet (v : Value) (t : string) (d : GoValue) : outcome GoValue :=
  if CanSet v then setValue v t d else Done (valueData v).

(** Parse into a fresh or existing variable, as the query binder does for
    the field and for each element of a slice: for a pointer type the
    variable is allocated and the pointer stored, else the text is parsed in
    place.  [item] is the type of the variable, [old] its data. *)
Definition parseInto (stringValue : string) (item : GoType) (old : GoValue)
  : result GoError GoValue :=
  match typeKind item with
  | KPointer =>
      match parseStringToSingleValue stringValue
              (Some (item, VPtr (zeroValue (elemType item)))) with
      | Err err => Err err
      | Ok d => Ok (VPtr d)
      end
  | _ =>
      match parseStringToSingleValue stringValue (Some (pointerTo item, VPtr old)) with
      | Err err => Err err
      | Ok d => Ok d
      end
  end.

(** The loop of the query binder over the elements of the new slice. *)
Fixpoint parseSliceItems (name : string) (item : GoType) (stringValues : list string)
  : outcome (list GoValue) :=
  match stringValues with
  | [] => Done []
  | stringValue :: rest =>
      match parseInto stringValue item (zeroValue item) with
      | Err err => Fail (NewAPIQueryParameterError name err)
      | Ok d =>
          match parseSliceItems name item rest with
          | Done ds => Done (d :: ds)
          | other => other
          end
      end
  end.

(** The first name with any value in the request, and its values. *)
Fixpoint firstPresent (req : Request) (names : list string) : string * list string :=
  match names with
  | [] => (EmptyString, [])
  | n :: rest =>
      match reqQueryParameters req n with
      | [] => firstPresent req rest
      | v => (n, v)
      end
  end.

(* ===================================================================== *)
(** * The binder closures of init-register.go *)
(* ===================================================================== *)

Definition headerBinder (apiTagValue : string) : InputFieldFunction :=
  fun _ v req _ =>
    let stringValue := reqHeaderParameter req apiTagValue in
    match addrInterface v with
    | Done target =>
        match parseStringToSingleValue stringValue target with
        | Err err => Fail (NewAPIHeaderParameterError apiTagValue err)
        | Ok d => Done d
        end
    | Fail e => Fail e
    | Panic why => Panic why
    end.

Definition pathBinder (apiTagValue : string) : InputFieldFunction :=
  fun _ v req _ =>
    let stringValue := reqPathParameter req apiTagValue in
    match addrInterface v with
    | Done target =>
        match parseStringToSingleValue stringValue target with
        | Err err => Fail (NewAPIPathParameterError apiTagValue err)
        | Ok d => Done d
        end
    | Fail e => Fail e
    | Panic why => Panic why
    end.

(** The branch of the query binder for a field that is not a slice, once
    there is a text: the variable to parse into is the field, or for a
    pointer field a newly allocated pointee; then the text is parsed. *)
Definition parseQueryValue (name stringValue : string) (v : Value) : outcome GoValue :=
  let prepared :=
    match valueKind v with
    | KPointer =>
        setValue v (typeString (valueType v)) (VPtr (zeroValue (elemType (valueType v))))
    | _ =>
        match addrInterface v with
        | Done _ => Done (valueData v)
        | Fail e => Fail e
        | Panic why => Panic why
        end
    end in
  match prepared with
  | Done _ =>
      match parseInto stringValue (valueType v) (valueData v) with
      | Err err => Fail (NewAPIQueryParameterError name err)
      | Ok d => Done d
      end
  | other => other
  end.

(** The branch of the query binder for a slice field: a new slice with one
    element per text. *)
Definition parseQueryValues (name : string) (stringValues : list string) (v : Value)
  : outcome GoValue :=
  if negb (CanSet v) then
    Panic "reflect: reflect.Value.Set using unaddressable or unexported value"
  else
    match parseSliceItems name (elemType (valueType v)) stringValues with
    | Done ds => Done (VSlice ds)
    | Fail e => Fail e
    | Panic why => Panic why
    end.

Definition queryBinder (names : list string) (field : StructField) : InputFieldFunction :=
  fun _ v req _ =>
    let (name, found) := firstPresent req names in
    let stringValues :=
      match found with
      | [] =>
          match tagLookup (fieldTag field) "default" with
          | Some defaultValue => [defaultValue]
          | None => found
          end
      | _ => found
      end in
    match valueKind v with
    | KSlice => parseQueryValues name stringValues v
    | _ =>
        match stringValues with
        | [] => Done (valueData v)
        | stringValue :: _ => parseQueryValue name stringValue v
        end
    end.

Definition docBinder : InputFieldFunction :=
  fun info v _ _ => setStringIfCanSet v (arDoc info).

Definition notesBinder : InputFieldFunction :=
  fun info v _ _ => setStringIfCanSet v (arNotes info).

Definition httpmethodBinder : InputFieldFunction :=
  fun _ v req _ => setStringIfCanSet v (reqMethod req).

Definition httppathBinder : InputFieldFunction :=
  fun _ v req _ => setStringIfCanSet v (reqURLPath req).

Definition httprequestBinder : InputFieldFunction :=
  fun _ v _ _ => setIfCanSet v "*http.Request" (VOpaque "req.Request").

Definition restfulrequestBinder : InputFieldFunction :=
  fun _ v _ _ => setIfCanSet v "*restful.Request" (VOpaque "req").

Definition producesBinder (apiTagValue : string) : InputFieldFunction :=
  fun _ v _ _ => setIfCanSet v "string" (VString apiTagValue).

Definition bytesValue (contents : string) : GoValue :=
  VSlice (List.map (fun c => VUint (Z.of_nat (nat_of_ascii c)))
            (list_ascii_of_string contents)).

Definition bodyBinder (allowEmpty : bool) (field : StructField) : InputFieldFunction :=
  fun info v req _ =>
    if allowEmpty then Done (valueData v)
    else
      let ft := fieldType field in
      match setValue v (typeString ft) (zeroValue ft) with
      | Done zero =>
          let contentType :=
            match arConsumes info with c :: _ => c | [] => EmptyString end in
          if String.eqb contentType "application/x-www-form-urlencoded" then
            match reqParseForm req with
            | Err err => Fail (NewAPIBodyError err)
            | Ok postForm =>
                if String.eqb (typeString ft) "url.Values" then Done postForm
                else if String.eqb (typeString ft) "*url.Values" then Done (VPtr postForm)
                else Done zero
            end
          else if String.eqb contentType "multipart/form-data" then
            match reqReadForm req with
            | Err err => Fail (NewAPIBodyError err)
            | Ok multipartForm =>
                if String.eqb (typeString ft) "multipart.Form" then
                  match multipartForm with
                  | VPtr form => Done form
                  | _ => Panic "runtime error: invalid memory address or nil pointer dereference"
                  end
                else if String.eqb (typeString ft) "*multipart.Form" then Done multipartForm
                else Done zero
            end
          else
            match valueKind v with
            | KString =>
                match reqReadAll req with
                | Err err => Fail (NewAPIBodyError err)
                | Ok contents => Done (VString contents)
                end
            | _ =>
                if String.eqb (typeString (valueType v)) "[]byte" then
                  match reqReadAll req with
                  | Err err => Fail (NewAPIBodyError err)
                  | Ok contents => Done (bytesValue contents)
                  end
                else
                  match reqReadEntity req (valueType v) with
                  | Err err => Fail (NewAPIBodyError err)
                  | Ok d => Done d
                  end
            end
      | other => other
      end.

(* ===================================================================== *)
(** * The directive factories of init-register.go *)
(* ===================================================================== *)

(** The double-quote byte. *)
Definition dquote : string := String (ascii_of_nat 34) EmptyString.

(** The loop of the body factory over the parts of its tag value. *)
Fixpoint bodyTagParts (tagParts : list string) (consumes : list string)
    (allowEmpty : bool) : result GoError (list string * bool) :=
  match tagParts with
  | [] => Ok (consumes, allowEmpty)
  | tagPart :: rest =>
      let (tagPartKey, after) := SplitN2 ":" tagPart in
      let tagPartValue := match after with Some x => x | None => EmptyString end in
      if String.eqb tagPartKey "consumes" then
        bodyTagParts rest
          (consumes ++ List.map TrimSpace (Split "," tagPartValue))%list allowEmpty
      else if String.eqb tagPartKey "empty" then
        if negb (String.eqb tagPartValue EmptyString) then
          Err (errorf ("invalid body tag value for empty: " ++ tagPartValue))
        else bodyTagParts rest consumes true
      else Err (errorf ("invalid body tag: " ++ tagPartKey))
  end.

Definition isTypeString (t : GoType) (names : list string) : bool :=
  containsString names (typeString t).

Definition bodyFactory : RegisterFunction :=
  fun apiTagValue field info =>
    match (if String.eqb apiTagValue EmptyString then Ok ([], false)
           else bodyTagParts (Split ";" apiTagValue) [] false) with
    | Err err => (info, Err err)
    | Ok (consumes, allowEmpty) =>
        let ft := fieldType field in
        let info :=
          if allowEmpty then info
          else setBodyExample
                 (match typeKind ft with
                  | KInterface => None
                  | _ => Some (ft, zeroValue ft)
                  end) info in
        let info := setConsumes consumes info in
        let info :=
          if isTypeString ft ["url.Values"; "*url.Values"] then
            match Consumes info with
            | [] => setConsumes ["application/x-www-form-urlencoded"] info
            | _ => info
            end
          else if isTypeString ft ["multipart.Form"; "*multipart.Form"] then
            match Consumes info with
            | [] => setConsumes ["multipart/form-data"] info
            | _ => info
            end
          else info in
        if containsString (Consumes info) "application/x-www-form-urlencoded"
           && negb (isTypeString ft ["url.Values"; "*url.Values"])
        then (info, Err (errorf
               ("invalid type for content-type application/x-www-form-urlencoded: "
                ++ typeString ft)))
        else if containsString (Consumes info) "multipart/form-data"
                && negb (isTypeString ft ["multipart.Form"; "*multipart.Form"])
        then (info, Err (errorf
               ("invalid type for content-type multipart/form-data: "
                ++ typeString ft)))
        else (info, Ok (Some (bodyBinder allowEmpty field)))
    end.

(** The four factories that take no value and need a string field, or a
    value and a string field. *)
Definition stringKindOr (field : StructField)
    (k : RestfulFunctionInfo * result GoError (option InputFieldFunction))
    (info : RestfulFunctionInfo)
  : RestfulFunctionInfo * result GoError (option InputFieldFunction) :=
  match typeKind (fieldType field) with
  | KString => k
  | other => (info, Err (errorf ("bad kind: " ++ kindString other)))
  end.

Definition docFactory : RegisterFunction :=
  fun apiTagValue field info =>
    if negb (String.eqb apiTagValue EmptyString) then
      (info, Err (errorf ("unexpected tag value: " ++ apiTagValue)))
    else
      stringKindOr field
        (setDoc (tagGet (fieldTag field) "description") info, Ok (Some docBinder))
        info.

Definition notesFactory : RegisterFunction :=
  fun apiTagValue field info =>
    if negb (String.eqb apiTagValue EmptyString) then
      (info, Err (errorf ("unexpected tag value: " ++ apiTagValue)))
    else
      stringKindOr field
        (setNotes (tagGet (fieldTag field) "description") info, Ok (Some notesBinder))
        info.

Definition httpmethodFactory : RegisterFunction :=
  fun apiTagValue field info =>
    if String.eqb apiTagValue EmptyString then
      (info, Err (errorf ("missing tag value: " ++ apiTagValue)))
    else
      stringKindOr field
        (setHTTPMethod apiTagValue info, Ok (Some httpmethodBinder)) info.

Definition httppathFactory : RegisterFunction :=
  fun apiTagValue field info =>
    if String.eqb apiTagValue EmptyString then
      (info, Err (errorf ("missing tag value: " ++ apiTagValue)))
    else
      stringKindOr field
        (setHTTPPath apiTagValue info, Ok (Some httppathBinder)) info.

Definition httprequestFactory : RegisterFunction :=
  fun apiTagValue field info =>
    if negb (String.eqb apiTagValue EmptyString) then
      (info, Err (errorf ("unexpected tag value: " ++ apiTagValue)))
    else if String.eqb (typeString (fieldType field)) "*http.Request" then
      (info, Ok (Some httprequestBinder))
    else (info, Err (errorf ("bad type: " ++ typeString (fieldType field)))).

Definition restfulrequestFactory : RegisterFunction :=
  fun apiTagValue field info =>
    if negb (String.eqb apiTagValue EmptyString) then
      (info, Err (errorf ("unexpected tag value: " ++ apiTagValue)))
    else if String.eqb (typeString (fieldType field)) "*restful.Request" then
      (info, Ok (Some restfulrequestBinder))
    else (info, Err (errorf ("bad type: " ++ typeString (fieldType field)))).

Definition producesFactory : RegisterFunction :=
  fun apiTagValue field info =>
    if String.eqb apiTagValue EmptyString then
      (info, Err (errorf "missing tag value"))
    else if String.eqb (typeString (fieldType field)) "string" then
      (setProduces (Produces info ++ [apiTagValue])%list info,
       Ok (Some (producesBinder apiTagValue)))
    else (info, Err (errorf ("bad type: " ++ typeString (fieldType field)))).

Definition headerFactory : RegisterFunction :=
  fun apiTagValue field info =>
    if String.eqb apiTagValue EmptyString then
      (info, Err (errorf "missing tag value"))
    else if existsb (fun item => String.eqb (hpName item) apiTagValue)
              (HeaderParameters info) then
      (info, Err (errorf "duplicate header tag"))
    else
      (setHeaderParameters
         (HeaderParameters info
          ++ [mkHeaderParameter (fieldName field) apiTagValue
                (tagGet (fieldTag field) "description") false])%list info,
       Ok (Some (headerBinder apiTagValue))).

Definition pathFactory : RegisterFunction :=
  fun apiTagValue field info =>
    if String.eqb apiTagValue EmptyString then
      (info, Err (errorf "missing tag value"))
    else if existsb (fun item => String.eqb (ppName item) apiTagValue)
              (PathParameters info) then
      (info, Err (errorf "duplicate path tag"))
    else
      (setPathParameters
         (PathParameters info
          ++ [mkPathParameter (fieldName field) apiTagValue
                (tagGet (fieldTag field) "description")])%list info,
       Ok (Some (pathBinder apiTagValue))).

(** The first of [names] that the query parameters already hold. *)
Fixpoint firstDuplicate (registered : list RestfulFunctionQueryParameter)
    (names : list string) : option string :=
  match names with
  | [] => None
  | name :: rest =>
      if existsb (fun item => String.eqb (qpName item) name) registered
      then Some name
      else firstDuplicate registered rest
  end.

Definition isSliceKind (t : GoType) : bool :=
  match typeKind t with KSlice => true | _ => false end.

Definition queryFactory : RegisterFunction :=
  fun apiTagValue field info =>
    if String.eqb apiTagValue EmptyString then
      (info, Err (errorf "missing tag value"))
    else
      let names := List.map TrimSpace (Split "," apiTagValue) in
      let primaryName := hd EmptyString names in
      match firstDuplicate (QueryParameters info) names with
      | Some name => (info, Err (errorf ("duplicate query tag: " ++ name)))
      | None =>
          let multiple := isSliceKind (fieldType field) in
          let primary :=
            mkQueryParameter (fieldName field) primaryName
              (tagGet (fieldTag field) "description") multiple in
          let aliases :=
            List.map (fun name =>
                   mkQueryParameter (fieldName field) name
                     ("Deprecated; use " ++ dquote ++ primaryName ++ dquote
                      ++ " instead.") multiple)
                (tl names) in
          (setQueryParameters (QueryParameters info ++ primary :: aliases)%list info,
           Ok (Some (queryBinder names field)))
      end.

(** [init()]: the eleven registrations, in source order, on the empty map. *)
Definition initSteps : list (string * option RegisterFunction) :=
  [ ("body", Some bodyFactory);
    ("doc", Some docFactory);
    ("header", Some headerFactory);
    ("httpmethod", Some httpmethodFactory);
    ("httppath", Some httppathFactory);
    ("httprequest", Some httprequestFactory);
    ("notes", Some notesFactory);
    ("path", Some pathFactory);
    ("produces", Some producesFactory);
    ("query", Some queryFactory);
    ("restfulrequest", Some restfulrequestFactory) ].

Fixpoint registerAll (steps : list (string * option RegisterFunction))
    (m : Registry) : Registry * outcome unit :=
  match steps with
  | [] => (m, Done tt)
  | (k, f) :: rest =>
      match Register k f m with
      | (m', Done _) => registerAll rest m'
      | other => other
      end
  end.

(** The registry once [init] has run on the empty map. *)
Definition registeredFunctionMap : Registry := fst (registerAll initSteps ∅).

(* ===================================================================== *)
(** * The struct walker and the signature analyser *)
(* ===================================================================== *)

Section Walker.

(** The registry the walker consults: [registeredFunctionMap] at the time
    of the call. *)
Variable registry : Registry.

(** [handleField(info, field)].  [info] is passed by pointer: the result is
    the info as the call leaves it and how the call ends. *)
Fixpoint handleField (info : RestfulFunctionInfo) (field : StructField)
    {struct field} : RestfulFunctionInfo * outcome unit :=
  match field with
  | mkStructField name anonymous tag ftype =>
      if anonymous then
        match ftype with
        | mkType _ KStruct _ _ fields _ _ =>
            (fix each (info : RestfulFunctionInfo) (fs : list StructField)
               : RestfulFunctionInfo * outcome unit :=
               match fs with
               | [] => (info, Done tt)
               | f :: rest =>
                   match handleField info f with
                   | (info', Done _) => each info' rest
                   | other => other
                   end
               end) info fields
        | _ => (info, Panic "reflect: NumField of non-struct type")
        end
      else
        let apiTagText := tagGet tag "api" in
        if String.eqb apiTagText EmptyString then (info, Done tt)
        else
          let (apiTagKey, after) := SplitN2 ":" apiTagText in
          let apiTagValue := match after with Some x => x | None => EmptyString end in
          if String.eqb apiTagKey "-" then (info, Done tt)
          else
            match registry !! apiTagKey with
            | Some (Some registeredFunction) =>
                match registeredFunction apiTagValue field info with
                | (info', Err err) =>
                    (info', Fail (errorfW (name ++ ": " ++ errorText err) err))
                | (info', Ok None) => (info', Done tt)
                | (info', Ok (Some inputFieldFunction)) =>
                    (setInputFields
                       (InputFields info' ++ [mkInputField name inputFieldFunction])%list
                       info',
                     Done tt)
                end
            | _ => (info, Fail (errorf ("unhandled API tag: " ++ apiTagKey)))
            end
  end.

(** A loop [for ... { err := handleField(info, field); if err != nil {
    return err } }] over a list of fields. *)
Fixpoint handleFields (info : RestfulFunctionInfo) (fields : list StructField)
  : RestfulFunctionInfo * outcome unit :=
  match fields with
  | [] => (info, Done tt)
  | f :: rest =>
      match handleField info f with
      | (info', Done _) => handleFields info' rest
      | other => other
      end
  end.

(** The loop of [ParseRestfulFunction] over the fields of the metadata
    struct: an error is wrapped with the name of the field. *)
Fixpoint parseFields (info : RestfulFunctionInfo) (fields : list StructField)
  : outcome RestfulFunctionInfo :=
  match fields with
  | [] => Done info
  | field :: rest =>
      match handleField info field with
      | (info', Done _) => parseFields info' rest
      | (_, Fail err) =>
          Fail (errorfW ("could not handle field " ++ Quote P (fieldName field)
                         ++ ": " ++ errorText err) err)
      | (_, Panic why) => Panic why
      end
  end.

(** The loop over the parameters: the positions of the context and of the
    metadata parameter so far, [-1] when not seen. *)
Fixpoint classifyIn (i : Z) (ins : list GoType) (ctx meta : Z) (mt : option GoType)
  : result GoError (Z * Z * option GoType) :=
  match ins with
  | [] => Ok (ctx, meta, mt)
  | argumentType :: rest =>
      if isContext (typeMethods argumentType) then
        if 0 <=? ctx then Err (errorf "multiple context.Context arguments")
        else classifyIn (i + 1) rest i meta mt
      else
        if 0 <=? meta then Err (errorf "multiple input arguments")
        else classifyIn (i + 1) rest ctx i (Some argumentType)
  end.

(** The loop over the results. *)
Fixpoint classifyOut (i : Z) (outs : list GoType) (err resp : Z)
  : result GoError (Z * Z) :=
  match outs with
  | [] => Ok (err, resp)
  | argumentType :: rest =>
      if isError (typeMethods argumentType) then
        if 0 <=? err then Err (errorf "multiple error arguments")
        else classifyOut (i + 1) rest i resp
      else
        if 0 <=? resp then Err (errorf "multiple output arguments")
        else classifyOut (i + 1) rest err i
  end.

(** The info [ParseRestfulFunction] starts from. *)
Definition newInfo (f : FuncValue) : RestfulFunctionInfo :=
  mkInfo f (-1) (-1) None (-1) (-1) EmptyString EmptyString EmptyString EmptyString
    [] [] [] None None [] [] [].

(** [Type.In(i)] and [Type.Out(i)]. *)
Definition typeAt (l : list GoType) (i : Z) : GoType :=
  nth (Z.to_nat i) l (basicType KInvalid).

(** [ParseRestfulFunction(f)]: [f] is an [any], [None] being nil. *)
Definition ParseRestfulFunction (f : option FuncValue) : outcome RestfulFunctionInfo :=
  match f with
  | None => Fail (errorf "expected function; got nil")
  | Some fv =>
      match typeKind (fnType fv) with
      | KFunc =>
          let info := newInfo fv in
          match classifyIn 0 (typeIn (fnType fv)) (-1) (-1) None with
          | Err err => Fail err
          | Ok (ctx, meta, mt) =>
              let info := setInPositions ctx meta mt info in
              match classifyOut 0 (typeOut (fnType fv)) (-1) (-1) with
              | Err err => Fail err
              | Ok (err, resp) =>
                  let info := setOutPositions err resp info in
                  let info :=
                    if 0 <=? OutResponsePosition info then
                      let argumentType :=
                        typeAt (typeOut (fnType fv)) (OutResponsePosition info) in
                      setResponseExample
                        (Some (pointerTo argumentType, VPtr (zeroValue argumentType)))
                        info
                    else info in
                  if 0 <=? InMetadataPosition info then
                    let argumentType :=
                      typeAt (typeIn (fnType fv)) (InMetadataPosition info) in
                    let argumentType :=
                      match typeKind argumentType with
                      | KPointer => elemType argumentType
                      | _ => argumentType
                      end in
                    match typeKind argumentType with
                    | KStruct => parseFields info (typeFields argumentType)
                    | k => Fail (errorf ("unexpected input type: " ++ kindString k))
                    end
                  else Done info
              end
          end
      | k => Fail (errorf ("expected function; got " ++ kindString k))
      end
  end.

End Walker.

(* ===================================================================== *)
(** * Looking a field up by name (package reflect) *)
(* ===================================================================== *)

(** [Name.IsExported()], on the first byte. *)
Definition isExported (name : string) : bool :=
  match name with
  | EmptyString => false
  | String c _ => let n := nat_of_ascii c in (Nat.leb 65 n && Nat.leb n 90)%bool
  end.

(** The fields called [name] among [fields], with their index paths. *)
Fixpoint matchesIn (name : string) (prefix : list nat) (fields : list StructField)
    (i : nat) : list (list nat * StructField) :=
  match fields with
  | [] => []
  | f :: rest =>
      if String.eqb (fieldName f) name
      then (prefix ++ [i], f)%list :: matchesIn name prefix rest (S i)
      else matchesIn name prefix rest (S i)
  end.

(** The embedded fields among [fields] whose type is a struct or a pointer
    to one: the types scanned at the next depth. *)
Fixpoint embedsIn (prefix : list nat) (fields : list StructField) (i : nat)
  : list (list nat * GoType) :=
  match fields with
  | [] => []
  | f :: rest =>
      let ntyp :=
        match typeKind (fieldType f) with
        | KPointer => elemType (fieldType f)
        | _ => fieldType f
        end in
      match fieldAnonymous f, typeKind ntyp with
      | true, KStruct => (prefix ++ [i], ntyp)%list :: embedsIn prefix rest (S i)
      | _, _ => embedsIn prefix rest (S i)
      end
  end.

(** The breadth-first search of [FieldByNameFunc]: the shallowest depth with
    a match decides, and two matches at that depth annihilate each other.
    [fuel] bounds the depth of embedding that is searched. *)
Fixpoint fieldByNameLevels (fuel : nat) (name : string)
    (level : list (list nat * GoType)) : option (list nat * StructField) :=
  match fuel with
  | O => None
  | S fuel' =>
      match flat_map (fun pt => matchesIn name (fst pt) (typeFields (snd pt)) 0) level with
      | [m] => Some m
      | _ :: _ :: _ => None
      | [] =>
          match flat_map (fun pt => embedsIn (fst pt) (typeFields (snd pt)) 0) level with
          | [] => None
          | next => fieldByNameLevels fuel' name next
          end
      end
  end.

(** [Type.FieldByName(name)] on a struct type: a field of the struct itself
    wins, the first one in declaration order; otherwise the embedded structs
    are searched. *)
Definition typeFieldByName (t : GoType) (name : string)
  : option (list nat * StructField) :=
  if String.eqb name EmptyString then None
  else
    match matchesIn name [] (typeFields t) 0 with
    | m :: _ => Some m
    | [] =>
        if existsb fieldAnonymous (typeFields t)
        then fieldByNameLevels 64 name [([], t)]
        else None
    end.

(** [Value.FieldByIndex(index)]: the data reached, through embedded
    pointers when needed; it panics on a nil embedded pointer. *)
Fixpoint fieldByIndex (d : GoValue) (index : list nat) : outcome GoValue :=
  match index with
  | [] => Done d
  | x :: rest =>
      match d with
      | VStruct ds => fieldByIndex (nth x ds VNil) rest
      | VPtr (VStruct ds) => fieldByIndex (nth x ds VNil) rest
      | _ => Panic "reflect: indirection through nil pointer to embedded struct"
      end
  end.

(** Storing through the [Value] that [FieldByIndex] returned. *)
Fixpoint storeByIndex (d : GoValue) (index : list nat) (new : GoValue) : GoValue :=
  match index with
  | [] => new
  | x :: rest =>
      let store ds :=
        (firstn x ds ++ storeByIndex (nth x ds VNil) rest new :: skipn (S x) ds)%list in
      match d with
      | VStruct ds => VStruct (store ds)
      | VPtr (VStruct ds) => VPtr (VStruct (store ds))
      | other => other
      end
  end.

(** [inputValue.FieldByName(name)] for an [inputValue] of type [t]: the
    index path and the [Value] of the field, the zero Value when there is no
    such field.  It panics unless [t] is a struct. *)
Definition FieldByName (t : GoType) (inputValue : GoValue) (name : string)
  : outcome (list nat * Value) :=
  match typeKind t with
  | KStruct =>
      match typeFieldByName t name with
      | None => Done ([], zeroReflectValue)
      | Some (index, f) =>
          match fieldByIndex inputValue index with
          | Done d => Done (index, mkValue true (fieldType f) d (isExported (fieldName f)))
          | Fail e => Fail e
          | Panic why => Panic why
          end
      end
  | k => Panic ("reflect: call of reflect.Value.FieldByName on " ++ kindString k ++ " Value")
  end.

(* ===================================================================== *)
(** * The dispatcher (info.go, restfulFunctionWrapper) *)
(* ===================================================================== *)

(** What happened during a dispatch, in order: a binder was run on the named
    field, the handler was called.  The events are not data of the program;
    they record the calls it makes, so that statements about which binder
    ran and whether the handler was invoked can be made. *)
Inductive Event : Type :=
| Bound (name : string)
| Called (arguments : list GoValue).

(** A dispatch: the response sink afterwards, the events, and what the
    function returned. *)
Record Dispatch : Type := mkDispatch {
  response : Response;
  trace : list Event;
  returned : outcome unit
}.

(** [ErrorHandler]: it may return nil, [None]. *)
Definition ErrorHandler : Type := GoError -> option GoError.

(** The loop over [info.InputFields]. *)
Fixpoint bindFields (info : RestfulFunctionInfo) (req : Request) (t : GoType)
    (fields : list InputField) (inputValue : GoValue) (events : list Event)
  : list Event * outcome GoValue :=
  match fields with
  | [] => (events, Done inputValue)
  | inputField :: rest =>
      match FieldByName t inputValue (Name inputField) with
      | Done (index, fieldValue) =>
          let events := (events ++ [Bound (Name inputField)])%list in
          match Function inputField (atRequest info) fieldValue req inputValue with
          | Done d =>
              bindFields info req t rest
                (if valueValid fieldValue then storeByIndex inputValue index d
                 else inputValue)
                events
          | Fail err => (events, Fail err)
          | Panic why => (events, Panic why)
          end
      | Fail err => (events, Fail err)
      | Panic why => (events, Panic why)
      end
  end.

(** [methodArguments[i] = x], for a position the analyser recorded. *)
Definition setArgument (arguments : list (option GoValue)) (i : Z) (x : GoValue)
  : list (option GoValue) :=
  (firstn (Z.to_nat i) arguments ++ Some x :: skipn (S (Z.to_nat i)) arguments)%list.

(** The arguments as [Call] wants them: none may be the zero Value. *)
Fixpoint callArguments (arguments : list (option GoValue)) : option (list GoValue) :=
  match arguments with
  | [] => Some []
  | None :: _ => None
  | Some x :: rest =>
      match callArguments rest with
      | Some xs => Some (x :: xs)
      | None => None
      end
  end.

(** The part of the function after the call: the error of the handler, then
    the response. *)
Definition renderResults (info : RestfulFunctionInfo) (errorHandler : option ErrorHandler)
    (methodResults : list Ret) (resp : Response) : Response * outcome unit :=
  let numOut := length (typeOut (fnType (FunctionValue info))) in
  if negb (Nat.eqb (length methodResults) numOut) then
    (resp, Fail (errorf ("unexpected output count: got "
                         ++ strconv.FormatInt (Z.of_nat (length methodResults))
                         ++ ", expected " ++ strconv.FormatInt (Z.of_nat numOut))))
  else
    let err :=
      if 0 <=? OutErrorPosition info then
        match nth (Z.to_nat (OutErrorPosition info)) methodResults RNil with
        | RError e => Some e
        | _ => None
        end
      else None in
    match err with
    | Some e =>
        let e :=
          match errorHandler with
          | Some handler =>
              match handler e with
              | Some newErr => newErr
              | None => e
              end
          | None => e
          end in
        (resp, Fail e)
    | None =>
        if 0 <=? OutResponsePosition info then
          match nth (Z.to_nat (OutResponsePosition info)) methodResults RNil with
          | RNil => ((resp ++ [WriteHeaderAndEntity StatusOK EntNil])%list, Done tt)
          | RWriter _ Write => (Write resp, Done tt)
          | RValue output =>
              ((resp ++ [WriteHeaderAndEntity StatusOK (EntValue output)])%list, Done tt)
          | RError e =>
              ((resp ++ [WriteHeaderAndEntity StatusOK
                           (EntValue (VOpaque (errorTypeName e)))])%list, Done tt)
          end
        else ((resp ++ [WriteHeaderAndEntity StatusOK EntNil])%list, Done tt)
    end.

(** The first part of the function that [CreateFunctionWithError] returns:
    the argument list is built, the metadata struct is allocated and bound. *)
Definition prepareArguments (info : RestfulFunctionInfo) (req : Request)
  : list Event * outcome (list (option GoValue)) :=
  let ft := fnType (FunctionValue info) in
  let methodArguments := repeat (@None GoValue) (length (typeIn ft)) in
  let methodArguments :=
    if 0 <=? InContextPosition info
    then setArgument methodArguments (InContextPosition info) (VOpaque "ctx")
    else methodArguments in
  if 0 <=? InMetadataPosition info then
    let t := typeAt (typeIn ft) (InMetadataPosition info) in
    let argumentType :=
      match typeKind t with
      | KPointer => elemType t
      | _ => t
      end in
    match typeKind argumentType with
    | KStruct =>
        match bindFields info req t (InputFields info) (zeroValue t) [] with
        | (events, Done inputValue) =>
            (events,
             Done (setArgument methodArguments (InMetadataPosition info) inputValue))
        | (events, Fail err) => (events, Fail err)
        | (events, Panic why) => (events, Panic why)
        end
    | k => ([], Fail (errorf ("unexpected input type: " ++ kindString k)))
    end
  else ([], Done methodArguments).

(** The function that [CreateFunctionWithError(errorHandler)] returns,
    applied to a request and a response. *)
Definition functionWithError (info : RestfulFunctionInfo)
    (errorHandler : option ErrorHandler) (req : Request) (resp : Response) : Dispatch :=
  match prepareArguments info req with
  | (events, Done methodArguments) =>
      match callArguments methodArguments with
      | None => mkDispatch resp events (Panic "reflect: Call using zero Value argument")
      | Some arguments =>
          let methodResults := fnCall (FunctionValue info) arguments in
          let (resp', result) := renderResults info errorHandler methodResults resp in
          mkDispatch resp' (events ++ [Called arguments])%list result
      end
  | (events, Fail err) => mkDispatch resp events (Fail err)
  | (events, Panic why) => mkDispatch resp events (Panic why)
  end.

(** [restfulFunctionWrapper(f)] applied to a request and a response: an
    error that is, or wraps, an [ErrorWriter] writes itself; any other error
    is written as a generic internal server error. *)
Definition restfulFunctionWrapper (f : Request -> Response -> Dispatch)
    (req : Request) (resp : Response) : Dispatch :=
  let run := f req resp in
  match returned run with
  | Fail err =>
      match asErrorWriter err with
      | Some errorWriter =>
          mkDispatch (WriteError errorWriter (response run)) (trace run) (Done tt)
      | None =>
          mkDispatch
            (response run
             ++ [WriteHeaderAndEntity StatusInternalServerError
                   (EntErrorOutput (errorTypeName err) (errorText err))])%list
            (trace run) (Done tt)
      end
  | _ => run
  end.

(** The route function the router gets for a compiled route. *)
Definition dispatch (info : RestfulFunctionInfo) (errorHandler : option ErrorHandler)
    (req : Request) : Dispatch :=
  restfulFunctionWrapper (functionWithError info errorHandler) req [].

(* ===================================================================== *)
(** * Vocabulary of the statements *)
(* ===================================================================== *)

Definition isContextType (t : GoType) : bool := isContext (typeMethods t).
Definition isMetadataType (t : GoType) : bool := negb (isContext (typeMethods t)).
Definition isErrorType (t : GoType) : bool := isError (typeMethods t).
Definition isResponseType (t : GoType) : bool := negb (isError (typeMethods t)).

(** How many elements of a list satisfy a test. *)
Definition countIf {A} (p : A -> bool) (l : list A) : nat := length (List.filter p l).

(** The index of the first element that satisfies a test, counting from
    [i]; [-1] when there is none. *)
Fixpoint indexOf {A} (p : A -> bool) (l : list A) (i : Z) : Z :=
  match l with
  | [] => -1
  | x :: rest => if p x then i else indexOf p rest (i + 1)
  end.

(** At most one parameter of each sort and at most one result of each sort. *)
Definition atMostOneOfEach (ft : GoType) : Prop :=
  (countIf isContextType (typeIn ft) <= 1)%nat
  /\ (countIf isMetadataType (typeIn ft) <= 1)%nat
  /\ (countIf isErrorType (typeOut ft) <= 1)%nat
  /\ (countIf isResponseType (typeOut ft) <= 1)%nat.

(** Two parameters, or two results, of the same sort. *)
Definition twoOfSomeSort (ft : GoType) : Prop :=
  (2 <= countIf isContextType (typeIn ft))%nat
  \/ (2 <= countIf isMetadataType (typeIn ft))%nat
  \/ (2 <= countIf isErrorType (typeOut ft))%nat
  \/ (2 <= countIf isResponseType (typeOut ft))%nat.

(** The four recorded positions of an info. *)
Definition slots (info : RestfulFunctionInfo) : Z * Z * Z * Z :=
  (InContextPosition info, InMetadataPosition info,
   OutErrorPosition info, OutResponsePosition info).

(** The index of each slot in the signature, [-1] for an absent slot. *)
Definition slotIndexes (ft : GoType) : Z * Z * Z * Z :=
  (indexOf isContextType (typeIn ft) 0, indexOf isMetadataType (typeIn ft) 0,
   indexOf isErrorType (typeOut ft) 0, indexOf isResponseType (typeOut ft) 0).

(** The info of a function once its slots are classified and before its
    metadata struct is walked. *)
Definition slotsInfo (f : FuncValue) : RestfulFunctionInfo :=
  let ins := typeIn (fnType f) in
  let outs := typeOut (fnType f) in
  let resp := indexOf isResponseType outs 0 in
  mkInfo f (indexOf isContextType ins 0) (indexOf isMetadataType ins 0)
    (List.find isMetadataType ins) (indexOf isErrorType outs 0) resp
    EmptyString EmptyString EmptyString EmptyString [] [] [] None
    (if 0 <=? resp
     then Some (pointerTo (typeAt outs resp), VPtr (zeroValue (typeAt outs resp)))
     else None)
    [] [] [].

(** The struct behind a metadata parameter: the type itself, or what it
    points to. *)
Definition metadataStruct (t : GoType) : GoType :=
  match typeKind t with
  | KPointer => elemType t
  | _ => t
  end.

(** The metadata parameter of the function, if it has one, is a struct or a
    pointer to a struct, and the walker handles all its fields. *)
Definition metadataAccepted (registry : Registry) (f : FuncValue) : Prop :=
  match List.find isMetadataType (typeIn (fnType f)) with
  | None => True
  | Some t =>
      typeKind (metadataStruct t) = KStruct
      /\ exists info,
           parseFields registry (slotsInfo f) (typeFields (metadataStruct t)) = Done info
  end.

(** No factory of the registry writes the four positions of the info. *)
Definition keepsSlots (registry : Registry) : Prop :=
  forall k (rf : RegisterFunction), registry !! k = Some (Some rf) ->
    forall v field info, slots (fst (rf v field info)) = slots info.

(** What [restfulFunctionWrapper] writes for an error. *)
Definition renderError (err : GoError) (resp : Response) : Response :=
  match asErrorWriter err with
  | Some errorWriter => WriteError errorWriter resp
  | None =>
      (resp ++ [WriteHeaderAndEntity StatusInternalServerError
                  (EntErrorOutput (errorTypeName err) (errorText err))])%list
  end.

(** An event that is the call of the handler. *)
Definition isCalled (e : Event) : bool :=
  match e with Called _ => true | Bound _ => false end.

(** Two walks of [ParseRestfulFunction] end alike: with the same info, or
    both with an error that wraps the same error of the walker (the text in
    front names the field of the struct at which the walk stopped), or both
    with the same panic. *)
Definition sameWalk (a b : outcome RestfulFunctionInfo) : Prop :=
  match a, b with
  | Done x, Done y => x = y
  | Fail x, Fail y =>
      exists inner tx ty, x = errorfW tx inner /\ y = errorfW ty inner
  | Panic x, Panic y => x = y
  | _, _ => False
  end.

(** Bind the texts found for the query parameter [name] to the field [v]:
    every text is parsed into a new slice for a slice-typed field, the first
    text is parsed into the field otherwise. *)
Definition bindValues (name : string) (texts : list string) (v : Value)
  : outcome GoValue :=
  match valueKind v with
  | KSlice => parseQueryValues name texts v
  | _ =>
      match texts with
      | [] => Done (valueData v)
      | text :: _ => parseQueryValue name text v
      end
  end.

(** The path parameters have pairwise distinct names, and so have the
    header parameters. *)
Definition uniquePathAndHeaderNames (info : RestfulFunctionInfo) : Prop :=
  List.NoDup (List.map ppName (PathParameters info))
  /\ List.NoDup (List.map hpName (HeaderParameters info)).

(** Whether a position has been recorded, as a count. *)
Definition seen (x : Z) : nat := if 0 <=? x then 1%nat else 0%nat.

(** Whether a byte occurs in a string. *)
Fixpoint hasByte (c : ascii) (s : string) : bool :=
  match s with
  | EmptyString => false
  | String c' rest => (Ascii.eqb c' c || hasByte c rest)%bool
  end.

(** What the walker does with the results of a factory for a field. *)
Definition recordBinder (name : string)
    (r : RestfulFunctionInfo * result GoError (option InputFieldFunction))
  : RestfulFunctionInfo * outcome unit :=
  match r with
  | (info', Err err) => (info', Fail (errorfW (name ++ ": " ++ errorText err) err))
  | (info', Ok None) => (info', Done tt)
  | (info', Ok (Some inputFieldFunction)) =>
      (setInputFields (InputFields info' ++ [mkInputField name inputFieldFunction])%list
         info',
       Done tt)
  end.

(* ===================================================================== *)
(** * Route paths (RestfulWrapper.Register) *)
(* ===================================================================== *)

(** [strings.TrimLeft(s, cutset)] for a one-byte cutset. *)
Fixpoint TrimLeft (c : ascii) (s : string) : string :=
  match s with
  | EmptyString => EmptyString
  | String c' rest => if Ascii.eqb c' c then TrimLeft c rest else s
  end.

(** [strings.TrimRight(s, cutset)] for a one-byte cutset. *)
Fixpoint TrimRight (c : ascii) (s : string) : string :=
  match s with
  | EmptyString => EmptyString
  | String c' rest =>
      match TrimRight c rest with
      | EmptyString => if Ascii.eqb c' c then EmptyString else String c' EmptyString
      | r => String c' r
      end
  end.

(** [strings.Trim(s, cutset)] for a one-byte cutset: the right end is
    trimmed, then the left end. *)
Definition Trim (c : ascii) (s : string) : string := TrimLeft c (TrimRight c s).

(** [strings.HasSuffix(s, suffix)] for a one-byte suffix. *)
Fixpoint HasSuffix (s : string) (c : ascii) : bool :=
  match s with
  | EmptyString => false
  | String c' EmptyString => Ascii.eqb c' c
  | String _ rest => HasSuffix rest c
  end.

(** The path of the route of a method that [Register] registers below
    [path], [httpPath] being the path the method's metadata declares. *)
Definition routePath (path httpPath : string) : string :=
  let routePath := "/" ++ Trim "/" path in
  let cleanPath := Trim "/" httpPath in
  if negb (String.eqb cleanPath EmptyString) then
    let routePath :=
      if negb (HasSuffix routePath "/") then routePath ++ "/" else routePath in
    routePath ++ cleanPath
  else routePath.

(** The path below which [Register] registers the value of a field tagged
    [httppath:tagPartValue] of a value registered below [path]. *)
Definition nestedPath (path tagPartValue : string) : string :=
  TrimRight "/" path ++ "/" ++ TrimLeft "/" tagPartValue.

(** The non-empty ones of some segments, joined by slashes. *)
Fixpoint joinSegments (segments : list string) : string :=
  match segments with
  | [] => EmptyString
  | segment :: rest =>
      match segment, joinSegments rest with
      | EmptyString, joined => joined
      | _, EmptyString => segment
      | _, joined => segment ++ "/" ++ joined
      end
  end.

(* ===================================================================== *)
(** * Vocabulary of the further properties *)
(* ===================================================================== *)

(** The kinds the value parser converts itself. *)
Definition isScalarKind (k : Kind) : bool :=
  (isSignedKind k || isUnsignedKind k || isFloatKind k
   || match k with KBool | KString => true | _ => false end)%bool.

(** A target that is a non-nil pointer. *)
Definition isNonNilPointer (target : option (GoType * GoValue)) : bool :=
  match target with
  | Some (t, VPtr _) =>
      match typeKind t, typeElem t with
      | KPointer, Some _ => true
      | _, _ => false
      end
  | _ => false
  end.

(** The kind of the variable a pointer target points to. *)
Definition pointeeKind (target : option (GoType * GoValue)) : Kind :=
  match target with
  | Some (t, _) => typeKind (elemType t)
  | None => KInvalid
  end.

(** A target the value parser has a conversion for: a non-nil pointer to a
    type with a [ParameterParser] or of a scalar kind. *)
Definition supportedTarget (target : option (GoType * GoValue)) : bool :=
  match target with
  | Some (t, VPtr _) =>
      match typeKind t, typeElem t with
      | KPointer, Some elem =>
          match parameterParser (typeMethods elem) with
          | Some _ => true
          | None => isScalarKind (typeKind elem)
          end
      | _, _ => false
      end
  | _ => false
  end.

(** What a binder makes of the result of the value parser. *)
Definition parsedOr (wrap : GoError -> GoError) (r : result GoError GoValue)
  : outcome GoValue :=
  match r with
  | Ok d => Done d
  | Err err => Fail (wrap err)
  end.

(** The error the value parser returns when a [ParseString] fails. *)
Definition parseStringError (err : GoError) : GoError :=
  errorfW ("could not parse string value: " ++ errorText err) err.

(** The kinds for which the empty text denotes no value. *)
Definition rejectsEmptyText (k : Kind) : bool :=
  (isSignedKind k || isUnsignedKind k
   || match k with KBool => true | _ => false end)%bool.

(** The [strconv] function the value parser calls for a kind. *)
Definition strconvFunction (k : Kind) : string :=
  if isSignedKind k then "ParseInt"
  else if isUnsignedKind k then "ParseUint"
  else if isFloatKind k then "ParseFloat"
  else "ParseBool".

(** An error wrapped by [fmt.Errorf] with [%w], once per text, the first
    text being that of the outermost error. *)
Definition wrapWith (texts : list string) (cause : GoError) : GoError :=
  fold_right errorfW cause texts.

(** The entity written for a result that is nil or a plain value. *)
Definition plainEntity (r : Ret) : option Entity :=
  match r with
  | RNil => Some EntNil
  | RValue v => Some (EntValue v)
  | _ => None
  end.

(** The error an error handler leaves in place of [err]. *)
Definition handled (errorHandler : option ErrorHandler) (err : GoError) : GoError :=
  match errorHandler with
  | Some handler =>
      match handler err with
      | Some newErr => newErr
      | None => err
      end
  | None => err
  end.

(** The binder closures that the built-in factories return. *)
Inductive builtinBinder : InputFieldFunction -> Prop :=
| builtin_body allowEmpty field : builtinBinder (bodyBinder allowEmpty field)
| builtin_doc : builtinBinder docBinder
| builtin_header apiTagValue : builtinBinder (headerBinder apiTagValue)
| builtin_httpmethod : builtinBinder httpmethodBinder
| builtin_httppath : builtinBinder httppathBinder
| builtin_httprequest : builtinBinder httprequestBinder
| builtin_notes : builtinBinder notesBinder
| builtin_path apiTagValue : builtinBinder (pathBinder apiTagValue)
| builtin_produces apiTagValue : builtinBinder (producesBinder apiTagValue)
| builtin_query names field : builtinBinder (queryBinder names field)
| builtin_restfulrequest : builtinBinder restfulrequestBinder.

(** The errors of a request: what [NewAPIBodyError] and the three
    [NewAPI...ParameterError] constructors build. *)
Definition isRequestError (err : GoError) : Prop :=
  (exists inner, err = NewAPIBodyError inner)
  \/ (exists parameter inner, err = NewAPIHeaderParameterError parameter inner)
  \/ (exists parameter inner, err = NewAPIPathParameterError parameter inner)
  \/ (exists parameter inner, err = NewAPIQueryParameterError parameter inner).

(** The body [WriteError] writes for an error of a request. *)
Definition requestErrorEntity (err : GoError) : Entity :=
  match err with
  | EAPIHeaderParameter p inner _
  | EAPIPathParameter p inner _
  | EAPIQueryParameter p inner _ =>
      EntParameterErrorOutput (errorTypeName err) (errorText inner) p
  | _ => EntErrorOutput (errorTypeName err) (errorText err)
  end.

(** The error of the handler: the result in the error slot when it is a
    non-nil error. *)
Definition handlerError (info : RestfulFunctionInfo) (methodResults : list Ret)
  : option GoError :=
  if 0 <=? OutErrorPosition info then
    match nth (Z.to_nat (OutErrorPosition info)) methodResults RNil with
    | RError e => Some e
    | _ => None
    end
  else None.

(** Case analysis on every conditional of a hypothesis, innermost first;
    the cases in which the hypothesis equates two different constructors
    are closed. *)
Ltac split_hyp H :=
  cbv beta iota in H;
  repeat (match type of H with
          | context [if ?c then _ else _] =>
              lazymatch c with
              | context [match _ with _ => _ end] => fail
              | _ => destruct c eqn:?
              end
          | context [match ?x with _ => _ end] =>
              lazymatch x with
              | context [match _ with _ => _ end] => fail
              | _ => destruct x eqn:?
              end
          end; cbv beta iota in H; try discriminate H).

(** The built-in directives that need a value, and those that take none. *)
Definition directivesWithValue : list string :=
  ["header"; "httpmethod"; "httppath"; "path"; "produces"; "query"].
Definition directivesWithoutValue : list string :=
  ["doc"; "httprequest"; "notes"; "restfulrequest"].

(** A field the walker passes over: not embedded, and without [api] tag or
    with the key [-]. *)
Definition isIgnoredField (f : StructField) : bool :=
  negb (fieldAnonymous f)
  && (String.eqb (tagGet (fieldTag f) "api") EmptyString
      || String.eqb (fst (SplitN2 ":" (tagGet (fieldTag f) "api"))) "-").

(** The fields the walker hands to a factory, in the order in which it
    meets them: an embedded struct stands for its fields, a field that is
    passed over for nothing. *)
Fixpoint directiveFields (field : StructField) : list StructField :=
  match field with
  | mkStructField name anonymous tag ftype =>
      if anonymous then
        match ftype with
        | mkType _ _ _ _ fields _ _ =>
            (fix each (fs : list StructField) : list StructField :=
               match fs with
               | [] => []
               | f :: rest => (directiveFields f ++ each rest)%list
               end) fields
        end
      else if isIgnoredField field then [] else [field]
  end.

(** Whether a part of the value of a [body] tag is the option [empty]. *)
Definition isEmptyOption (tagPart : string) : bool :=
  String.eqb (fst (SplitN2 ":" tagPart)) "empty".

Definition formURLEncoded : string := "application/x-www-form-urlencoded".
Definition multipartFormData : string := "multipart/form-data".
Definition urlValuesTypes : list string := ["url.Values"; "*url.Values"].
Definition multipartFormTypes : list string := ["multipart.Form"; "*multipart.Form"].

(** Membership in a list of pairs given in full, the second component of
    the pair being found by unification. *)
Ltac in_steps := simpl; repeat (first [left; reflexivity | right]).

(** The key and the value of the directive of a field: the text of the
    [api] tag before its first colon and the text after it. *)
Definition directiveKey (f : StructField) : string :=
  fst (SplitN2 ":" (tagGet (fieldTag f) "api")).

Definition directiveValue (f : StructField) : string :=
  match snd (SplitN2 ":" (tagGet (fieldTag f) "api")) with
  | Some x => x
  | None => EmptyString
  end.

(** The [description] tag of a field. *)
Definition fieldDescription (f : StructField) : string :=
  tagGet (fieldTag f) "description".

(** What the last of the fields with the directive [key] gives, [default]
    when there is none. *)
Definition lastOf (key : string) (what : StructField -> string)
    (fields : list StructField) (default : string) : string :=
  fold_left (fun acc f => if String.eqb (directiveKey f) key then what f else acc)
    fields default.

(** The fields with the directive [key], in order. *)
Definition directivesWith (key : string) (fields : list StructField) : list StructField :=
  List.filter (fun f => String.eqb (directiveKey f) key) fields.

(** The marker structs of anonymous.go, [HTTPMethodGET] apart. *)
Definition HTTPMethodDELETE : GoType :=
  structType "restfulwrapper.HTTPMethodDELETE"
    [mkStructField "_" false [("api", "httpmethod:DELETE")] (basicType KString)].
Definition HTTPMethodOPTIONS : GoType :=
  structType "restfulwrapper.HTTPMethodOPTIONS"
    [mkStructField "_" false [("api", "httpmethod:OPTIONS")] (basicType KString)].
Definition HTTPMethodPATCH : GoType :=
  structType "restfulwrapper.HTTPMethodPATCH"
    [mkStructField "_" false [("api", "httpmethod:PATCH")] (basicType KString)].
Definition HTTPMethodPOST : GoType :=
  structType "restfulwrapper.HTTPMethodPOST"
    [mkStructField "_" false [("api", "httpmethod:POST")] (basicType KString)].
Definition HTTPMethodPUT : GoType :=
  structType "restfulwrapper.HTTPMethodPUT"
    [mkStructField "_" false [("api", "httpmethod:PUT")] (basicType KString)].

(** Evaluation of the comparisons of two string literals in the goal. *)
Ltac eval_literal_eqb :=
  repeat match goal with
         | |- context [String.eqb ?a ?b] =>
             let c := eval vm_compute in (String.eqb a b) in
             match c with
             | true => change (String.eqb a b) with true
             | false => change (String.eqb a b) with false
             end
         end;
  cbv iota.

(** The declared metadata of a route: method, path, documentation, notes,
    produced content types, path parameters and header parameters. *)
Definition Declared : Type :=
  string * string * string * string * list string
  * list RestfulFunctionPathParameter * list RestfulFunctionHeaderParameter.

Definition declared (info : RestfulFunctionInfo) : Declared :=
  (HTTPMethod info, HTTPPath info, Doc info, Notes info, Produces info,
   PathParameters info, HeaderParameters info).

Definition pathParameterOf (f : StructField) : RestfulFunctionPathParameter :=
  mkPathParameter (fieldName f) (directiveValue f) (fieldDescription f).

Definition headerParameterOf (f : StructField) : RestfulFunctionHeaderParameter :=
  mkHeaderParameter (fieldName f) (directiveValue f) (fieldDescription f) false.

(** What the directive of a field does to the declared metadata. *)
Definition declare (d : Declared) (f : StructField) : Declared :=
  let '(method, path, doc, notes, produces, pathParameters, headerParameters) := d in
  let k := directiveKey f in
  (if String.eqb k "httpmethod" then directiveValue f else method,
   if String.eqb k "httppath" then directiveValue f else path,
   if String.eqb k "doc" then fieldDescription f else doc,
   if String.eqb k "notes" then fieldDescription f else notes,
   (produces ++ if String.eqb k "produces" then [directiveValue f] else [])%list,
   (pathParameters ++ if String.eqb k "path" then [pathParameterOf f] else [])%list,
   (headerParameters ++ if String.eqb k "header" then [headerParameterOf f] else [])%list).

(* ===================================================================== *)
(** * Route builders (go-restful) as the package drives them *)
(* ===================================================================== *)

(** Objects that the package shares by pointer or by reference are kept in
    a store and named by their location. *)
Abbreviation Loc := nat.

Inductive ParameterKind : Type :=
| HeaderParameterKind | PathParameterKind | QueryParameterKind.

(** The calls [UpdateRouteBuilder] makes on a [restful.Parameter]. *)
Inductive ParameterCall : Type :=
| AllowMultiple (multiple : bool)
| CollectionFormatMulti
| AllowEmptyValue (allow : bool).

(** A [restful.Parameter]: how it was created and the calls made on it. *)
Record RouteParameter : Type := mkRouteParameter {
  parameterKind : ParameterKind;
  parameterName : string;
  parameterDescription : string;
  parameterCalls : list ParameterCall
}.

(** A function given to [Do]: one of the user's, known here by a name, or
    the closure [Register] makes, which installs the filter that applies the
    context actions of the wrapper at [wrapper] for the route of [info]. *)
Inductive DoFunction : Type :=
| UserDo (name : string)
| ContextFilterDo (wrapper : Loc) (info : RestfulFunctionInfo).

(** The calls the package makes on a [restful.RouteBuilder].  The filter of
    [filterSetAttributes] is known by the attribute map it closes over. *)
Inductive BuilderCall : Type :=
| CallMethod (httpMethod : string)
| CallPath (subPath : string)
| CallTo (function : Request -> Response -> Dispatch)
| CallFilterSetAttributes (attributes : option Loc)
| CallDo (doFunctions : list DoFunction)
| CallConsumes (mimeTypes : list string)
| CallProduces (mimeTypes : list string)
| CallParam (parameter : RouteParameter)
| CallReturns (code : Z) (message : string) (model : option (GoType * GoValue))
| CallReads (sample : GoType * GoValue)
| CallDoc (documentation : string)
| CallNotes (notes : string).

(** A [restful.RouteBuilder]: the calls made on it, oldest first. *)
Definition RouteBuilder : Type := list BuilderCall.

(** What [UpdateRouteBuilder] does for one parameter of each sort. *)
Definition headerParameterCalls (headerParameter : RestfulFunctionHeaderParameter)
  : list BuilderCall :=
  [CallParam
     (mkRouteParameter HeaderParameterKind (hpName headerParameter)
        (hpDescription headerParameter)
        (AllowMultiple (hpAllowMultiple headerParameter)
         :: if hpAllowMultiple headerParameter then [CollectionFormatMulti] else []));
   CallReturns StatusBadRequest "Bad Request" None].

Definition pathParameterCalls (pathParameter : RestfulFunctionPathParameter)
  : list BuilderCall :=
  [CallParam
     (mkRouteParameter PathParameterKind (ppName pathParameter)
        (ppDescription pathParameter) [AllowEmptyValue false]);
   CallReturns StatusBadRequest "Bad Request" None].

Definition queryParameterCalls (queryParameter : RestfulFunctionQueryParameter)
  : list BuilderCall :=
  [CallParam
     (mkRouteParameter QueryParameterKind (qpName queryParameter)
        (qpDescription queryParameter)
        (AllowMultiple (qpAllowMultiple queryParameter)
         :: if qpAllowMultiple queryParameter then [CollectionFormatMulti] else []));
   CallReturns StatusBadRequest "Bad Request" None].

(** [info.UpdateRouteBuilder(routeBuilder)].  The [Do] functions of an info
    are those [ParseRestfulFunction] left: none. *)
Definition UpdateRouteBuilder (info : RestfulFunctionInfo) (routeBuilder : RouteBuilder)
  : RouteBuilder :=
  (routeBuilder
   ++ flat_map headerParameterCalls (HeaderParameters info)
   ++ flat_map pathParameterCalls (PathParameters info)
   ++ flat_map queryParameterCalls (QueryParameters info)
   ++ match Consumes info with
      | [] => []
      | mimeTypes => [CallConsumes mimeTypes]
      end
   ++ match Produces info with
      | [] => []
      | mimeTypes => [CallProduces mimeTypes]
      end
   ++ match BodyExample info with
      | Some sample =>
          [CallReads sample; CallReturns StatusBadRequest "Bad Request" None]
      | None => []
      end
   ++ match ResponseExample info with
      | Some sample => [CallReturns StatusOK "OK" (Some sample)]
      | None => []
      end
   ++ [CallDoc (Doc info); CallNotes (Notes info); CallDo []])%list.

(* ===================================================================== *)
(** * The wrapper of a web service (RestfulWrapper, RestfulRouteWrapper) *)
(* ===================================================================== *)

(** A [context.Context], as far as context actions are concerned. *)
Definition Context : Type := GoValue.

(** [ContextAction]. *)
Definition ContextAction : Type := Context -> RestfulFunctionInfo -> Context.

(** [RestfulWrapper].  [rwWs] is the pointer to the [restful.WebService],
    [rwAttributes] the attribute map: nil, or a reference to a map. *)
Record RestfulWrapper : Type := mkRestfulWrapper {
  rwWs : Loc;
  rwPath : string;
  rwAttributes : option Loc;
  rwDoFunctions : list DoFunction;
  rwConsumes : list string;
  rwProduces : list string;
  rwContextActions : list ContextAction
}.

(** [RestfulRouteWrapper].  [rrWs] is the pointer to the parent wrapper. *)
Record RestfulRouteWrapper : Type := mkRestfulRouteWrapper {
  rrWs : Loc;
  rrMethod : string;
  rrPath : string;
  rrFunctionWithError : option (Request -> Response -> Dispatch);
  rrDoFunctions : list DoFunction;
  rrConsumes : list string;
  rrProduces : list string
}.

(** A [restful.WebService]: its root path and the routes added to it. *)
Record RestfulWebService : Type := mkRestfulWebService {
  servicePath : string;
  serviceRoutes : list RouteBuilder
}.

(** The store: the wrappers, the attribute maps and the web services that
    exist, and the next free location. *)
Record World : Type := mkWorld {
  wrappers : gmap Loc RestfulWrapper;
  attributeMaps : gmap Loc (gmap string GoValue);
  webServices : gmap Loc RestfulWebService;
  nextLoc : Loc
}.

Definition nilDereference : string :=
  "runtime error: invalid memory address or nil pointer dereference".

(** The loop [for key, value := range source { target[key] = value }], the
    entries of [source] being met in the order [order]. *)
Definition rangeInsert (order : list (string * GoValue)) (target : gmap string GoValue)
  : gmap string GoValue :=
  fold_left (fun m kv => <[fst kv := snd kv]> m) order target.

(** The entries of an attribute map that is nil or a reference. *)
Definition attributesOf (w : World) (attributes : option Loc) : gmap string GoValue :=
  match attributes with
  | None => ∅
  | Some a => default ∅ (attributeMaps w !! a)
  end.

(** [WebService(path)]: a new web service and a new wrapper of it. *)
Definition WebService (path : string) (w : World) : World * Loc :=
  let s := nextLoc w in
  let r := S (nextLoc w) in
  (mkWorld (<[r := mkRestfulWrapper s path None [] [] [] []]> (wrappers w))
     (attributeMaps w)
     (<[s := mkRestfulWebService path []]> (webServices w))
     (S (S (nextLoc w))),
   r).

(** [r.Session()]: a new wrapper of the same web service, with a new
    attribute map that holds the entries of [r]'s. *)
Definition RestfulWrapper_Session (r : Loc) (w : World) : World * outcome Loc :=
  match wrappers w !! r with
  | None => (w, Panic nilDereference)
  | Some wr =>
      let a := nextLoc w in
      let newWrapper := S (nextLoc w) in
      (mkWorld
         (<[newWrapper :=
              mkRestfulWrapper (rwWs wr) (rwPath wr) (Some a)
                ([] ++ rwDoFunctions wr) ([] ++ rwConsumes wr) ([] ++ rwProduces wr)
                ([] ++ rwContextActions wr)]> (wrappers w))
         (<[a := rangeInsert (map_to_list (attributesOf w (rwAttributes wr))) ∅]>
            (attributeMaps w))
         (webServices w)
         (S (S (nextLoc w))),
       Done newWrapper)
  end.

Definition setWrapper (r : Loc) (wr : RestfulWrapper) (w : World) : World :=
  mkWorld (<[r := wr]> (wrappers w)) (attributeMaps w) (webServices w) (nextLoc w).

(** [r.Attributes(attributes)]. *)
Definition RestfulWrapper_Attributes (r : Loc) (attributes : gmap string GoValue) (w : World)
  : World * outcome Loc :=
  match wrappers w !! r with
  | None => (w, Panic nilDereference)
  | Some wr =>
      let (w, a) :=
        match rwAttributes wr with
        | Some a => (w, a)
        | None =>
            let a := nextLoc w in
            (mkWorld
               (<[r := mkRestfulWrapper (rwWs wr) (rwPath wr) (Some a)
                         (rwDoFunctions wr) (rwConsumes wr) (rwProduces wr)
                         (rwContextActions wr)]> (wrappers w))
               (<[a := ∅]> (attributeMaps w))
               (webServices w)
               (S (nextLoc w)),
             a)
        end in
      (mkWorld (wrappers w)
         (<[a := rangeInsert (map_to_list attributes) (attributesOf w (Some a))]>
            (attributeMaps w))
         (webServices w) (nextLoc w),
       Done r)
  end.

(** [r.Consumes(contentTypes...)], [r.Do(doFunctions...)],
    [r.Produces(contentTypes...)] and [r.ContextAction(f...)] on a wrapper. *)
Definition RestfulWrapper_Consumes (r : Loc) (contentTypes : list string) (w : World)
  : World * outcome Loc :=
  match wrappers w !! r with
  | None => (w, Panic nilDereference)
  | Some wr =>
      (setWrapper r
         (mkRestfulWrapper (rwWs wr) (rwPath wr) (rwAttributes wr) (rwDoFunctions wr)
            (rwConsumes wr ++ contentTypes) (rwProduces wr) (rwContextActions wr)) w,
       Done r)
  end.

Definition RestfulWrapper_Do (r : Loc) (doFunctions : list DoFunction) (w : World)
  : World * outcome Loc :=
  match wrappers w !! r with
  | None => (w, Panic nilDereference)
  | Some wr =>
      (setWrapper r
         (mkRestfulWrapper (rwWs wr) (rwPath wr) (rwAttributes wr)
            (rwDoFunctions wr ++ doFunctions) (rwConsumes wr) (rwProduces wr)
            (rwContextActions wr)) w,
       Done r)
  end.

Definition RestfulWrapper_Produces (r : Loc) (contentTypes : list string) (w : World)
  : World * outcome Loc :=
  match wrappers w !! r with
  | None => (w, Panic nilDereference)
  | Some wr =>
      (setWrapper r
         (mkRestfulWrapper (rwWs wr) (rwPath wr) (rwAttributes wr) (rwDoFunctions wr)
            (rwConsumes wr) (rwProduces wr ++ contentTypes) (rwContextActions wr)) w,
       Done r)
  end.

Definition RestfulWrapper_ContextAction (r : Loc) (f : list ContextAction) (w : World)
  : World * outcome Loc :=
  match wrappers w !! r with
  | None => (w, Panic nilDereference)
  | Some wr =>
      (setWrapper r
         (mkRestfulWrapper (rwWs wr) (rwPath wr) (rwAttributes wr) (rwDoFunctions wr)
            (rwConsumes wr) (rwProduces wr) (rwContextActions wr ++ f)) w,
       Done r)
  end.

(** [w.applyContextActions(ctx, info)], on the actions of the wrapper. *)
Definition applyContextActions (contextActions : list ContextAction) (ctx : Context)
    (info : RestfulFunctionInfo) : Context :=
  fold_left (fun ctx contextAction => contextAction ctx info) contextActions ctx.

(** [r.ws.Route(routeBuilder)]: the route is added to the web service. *)
Definition addRoute (s : Loc) (routeBuilder : RouteBuilder) (w : World)
  : World * outcome unit :=
  match webServices w !! s with
  | None => (w, Panic nilDereference)
  | Some service =>
      (mkWorld (wrappers w) (attributeMaps w)
         (<[s := mkRestfulWebService (servicePath service)
                   (serviceRoutes service ++ [routeBuilder])]> (webServices w))
         (nextLoc w),
       Done tt)
  end.

(** [r.Route(routeBuilders...)]. *)
Fixpoint RestfulWrapper_Route (r : Loc) (routeBuilders : list RouteBuilder) (w : World)
  : World * outcome Loc :=
  match routeBuilders with
  | [] =>
      (w, Done r)
  | routeBuilder :: rest =>
      match wrappers w !! r with
      | None => (w, Panic nilDereference)
      | Some wr =>
          match addRoute (rwWs wr) routeBuilder w with
          | (w, Done _) => RestfulWrapper_Route r rest w
          | (w, Fail err) => (w, Fail err)
          | (w, Panic why) => (w, Panic why)
          end
      end
  end.

(** [r.Method(method)]: a route wrapper that starts with the [Do]
    functions of the wrapper. *)
Definition RestfulWrapper_Method (r : Loc) (method : string) (w : World) : outcome RestfulRouteWrapper :=
  match wrappers w !! r with
  | None => Panic nilDereference
  | Some wr => Done (mkRestfulRouteWrapper r method EmptyString None
                       ([] ++ rwDoFunctions wr) [] [])
  end.

(** [routeWrapper.Path(path)]. *)
Definition RestfulRouteWrapper_Path (path : string) (rr : RestfulRouteWrapper) : RestfulRouteWrapper :=
  mkRestfulRouteWrapper (rrWs rr) (rrMethod rr) path (rrFunctionWithError rr)
    (rrDoFunctions rr) (rrConsumes rr) (rrProduces rr).

(** The function [restfulFunctionWrapper(f)] returns, for an [f] that may be
    the nil function. *)
Definition wrappedFunction (f : option (Request -> Response -> Dispatch))
  : Request -> Response -> Dispatch :=
  match f with
  | Some f => restfulFunctionWrapper f
  | None => fun _ resp => mkDispatch resp [] (Panic nilDereference)
  end.

(** [r.RouteBuilder()]: the content types of the route win over those of
    the wrapper. *)
Definition RestfulRouteWrapper_RouteBuilder (rr : RestfulRouteWrapper) (w : World) : outcome RouteBuilder :=
  match wrappers w !! rrWs rr with
  | None => Panic nilDereference
  | Some wr =>
      Done ([CallMethod (rrMethod rr);
             CallPath (rrPath rr);
             CallTo (wrappedFunction (rrFunctionWithError rr));
             CallFilterSetAttributes (rwAttributes wr);
             CallDo (rrDoFunctions rr)]
            ++ match rrConsumes rr, rwConsumes wr with
               | _ :: _, _ => [CallConsumes (rrConsumes rr)]
               | [], _ :: _ => [CallConsumes (rwConsumes wr)]
               | [], [] => []
               end
            ++ match rrProduces rr, rwProduces wr with
               | _ :: _, _ => [CallProduces (rrProduces rr)]
               | [], _ :: _ => [CallProduces (rwProduces wr)]
               | [], [] => []
               end)%list
  end.

(** The filter [filterSetAttributes(attributes)] on a request whose
    attributes are [requestAttributes]: the entries of the map, met in the
    order [order], are set on the request, then the rest of the chain runs. *)
Definition filterSetAttributes {A} (order : list (string * GoValue))
    (requestAttributes : gmap string GoValue)
    (chain : gmap string GoValue -> A) : A :=
  chain (rangeInsert order requestAttributes).

(* ===================================================================== *)
(** * Registration of the methods of a value (RestfulWrapper.Register) *)
(* ===================================================================== *)

(** What [Register] sees of the value [f] through reflection: the name of
    its type, its methods in the order of [Method(i)] with their function
    values, the kind of what is left once pointers are followed (invalid
    after a nil pointer) and, for a struct, its fields, each with what
    [Register] sees of the value it registers for the field. *)
Inductive Registrable : Type :=
| mkRegistrable (regType : string) (regMethods : list (string * FuncValue))
    (regKind : Kind) (regFields : list (StructField * Registrable)).

(** The message of the panic of [reflect] when a method of [Value] is
    called on a value of the wrong kind. *)
Definition valueErrorText (method : string) (k : Kind) : string :=
  match k with
  | KInvalid => "reflect: call of " ++ method ++ " on zero Value"
  | _ => "reflect: call of " ++ method ++ " on " ++ kindString k ++ " Value"
  end.

Section Registration.

(** [registeredFunctionMap] at the time of the call. *)
Variable registry : Registry.

(** The body of the loop of [Register] over the methods of the value. *)
Definition registerMethod (r : Loc) (path : string) (name : string) (method : FuncValue)
    (w : World) : World * outcome unit :=
  match ParseRestfulFunction registry (Some method) with
  | Fail err =>
      (w, Panic ("could not parse function: " ++ name ++ ": " ++ errorText err))
  | Panic why => (w, Panic why)
  | Done info =>
      match wrappers w !! r with
      | None => (w, Panic nilDereference)
      | Some wr =>
          let routePath := routePath path (HTTPPath info) in
          let info := setHTTPPath (rwPath wr ++ routePath) info in
          match RestfulWrapper_Method r (HTTPMethod info) w with
          | Done routeWrapper =>
              let routeWrapper := RestfulRouteWrapper_Path routePath routeWrapper in
              let routeWrapper :=
                mkRestfulRouteWrapper (rrWs routeWrapper) (rrMethod routeWrapper)
                  (rrPath routeWrapper) (Some (functionWithError info None))
                  (ContextFilterDo r info :: rrDoFunctions routeWrapper)
                  (rrConsumes routeWrapper) (rrProduces routeWrapper) in
              match RestfulRouteWrapper_RouteBuilder routeWrapper w with
              | Done routeBuilder =>
                  addRoute (rwWs wr) (UpdateRouteBuilder info routeBuilder) w
              | Fail err => (w, Fail err)
              | Panic why => (w, Panic why)
              end
          | Fail err => (w, Fail err)
          | Panic why => (w, Panic why)
          end
      end
  end.

Fixpoint registerMethods (r : Loc) (path : string) (methods : list (string * FuncValue))
    (w : World) : World * outcome unit :=
  match methods with
  | [] => (w, Done tt)
  | (name, method) :: rest =>
      match registerMethod r path name method w with
      | (w, Done _) => registerMethods r path rest w
      | other => other
      end
  end.

(** The loop of [Register] over the parts of the [api] tag of a field:
    [register] registers the value of the field below a path. *)
Fixpoint registerTagParts (register : string -> World -> World * outcome unit)
    (path : string) (tagParts : list string) (w : World) : World * outcome unit :=
  match tagParts with
  | [] => (w, Done tt)
  | tagPart :: more =>
      let (tagPartKey, after) := SplitN2 ":" tagPart in
      let tagPartValue := match after with Some x => x | None => EmptyString end in
      if String.eqb tagPartKey "httppath" then
        match register (nestedPath path tagPartValue) w with
        | (w, Done _) => registerTagParts register path more w
        | other => other
        end
      else registerTagParts register path more w
  end.

(** The loop of [Register] over the fields of the value: [register]
    registers what it is given of a field below a path. *)
Fixpoint registerFields {F : Type}
    (register : F -> string -> World -> World * outcome unit)
    (path : string) (fields : list (StructField * F)) (w : World)
  : World * outcome unit :=
  match fields with
  | [] => (w, Done tt)
  | (field, fieldInterface) :: rest =>
      let apiTagValue := tagGet (fieldTag field) "api" in
      match (if String.eqb apiTagValue EmptyString then (w, Done tt)
             else registerTagParts (register fieldInterface) path
                    (Split ";" apiTagValue) w) with
      | (w, Done _) => registerFields register path rest w
      | other => other
      end
  end.

(** [r.Register(ctx, path, f)]: the methods of the value are registered,
    then the values of its fields that have an [httppath] part in their
    [api] tag, below the path extended by the value of the part. *)
Fixpoint RestfulWrapper_Register (r : Loc) (path : string) (f : Registrable) (w : World)
    {struct f} : World * outcome unit :=
  match f with
  | mkRegistrable _ methods k fields =>
      match registerMethods r path methods w with
      | (w, Done _) =>
          match k with
          | KStruct =>
              registerFields
                (fun fieldInterface path w =>
                   RestfulWrapper_Register r path fieldInterface w)
                path fields w
          | _ => (w, Panic (valueErrorText "reflect.Value.NumField" k))
          end
      | other => other
      end
  end.

End Registration.

(* ===================================================================== *)
(** * Vocabulary of the properties of the wrapper *)
(* ===================================================================== *)

(** A store in which every wrapper and attribute map that exists, and every
    attribute map a wrapper refers to, lies below the next free location. *)
Definition wellFormed (w : World) : Prop :=
  (forall r wr, wrappers w !! r = Some wr ->
     (r < nextLoc w)%nat
     /\ forall a, rwAttributes wr = Some a -> (a < nextLoc w)%nat)
  /\ (forall a m, attributeMaps w !! a = Some m -> (a < nextLoc w)%nat).

(** The wrapper a session of [wr] starts as, its attribute map being [a]. *)
Definition sessionOf (wr : RestfulWrapper) (a : Loc) : RestfulWrapper :=
  mkRestfulWrapper (rwWs wr) (rwPath wr) (Some a) (rwDoFunctions wr) (rwConsumes wr)
    (rwProduces wr) (rwContextActions wr).

(** From [w] to [w'] nothing has changed but the web service at [s], which
    has got the routes [added] after those it had. *)
Definition routesAdded (s : Loc) (w w' : World) (added : list RouteBuilder) : Prop :=
  wrappers w' = wrappers w
  /\ attributeMaps w' = attributeMaps w
  /\ nextLoc w' = nextLoc w
  /\ (forall s', s' <> s -> webServices w' !! s' = webServices w !! s')
  /\ exists service,
       webServices w !! s = Some service
       /\ webServices w' !! s
          = Some (mkRestfulWebService (servicePath service)
                    (serviceRoutes service ++ added)).

(** The route [Register] builds for a method whose analysis gave [info],
    registered below [path] on the wrapper [wr], which is at [r]. *)
Definition routeFor (wr : RestfulWrapper) (r : Loc) (path : string)
    (info : RestfulFunctionInfo) : RouteBuilder :=
  let routePath := routePath path (HTTPPath info) in
  let info := setHTTPPath (rwPath wr ++ routePath) info in
  UpdateRouteBuilder info
    ([CallMethod (HTTPMethod info);
      CallPath routePath;
      CallTo (restfulFunctionWrapper (functionWithError info None));
      CallFilterSetAttributes (rwAttributes wr);
      CallDo (ContextFilterDo r info :: rwDoFunctions wr)]
     ++ match rwConsumes wr with
        | [] => []
        | mimeTypes => [CallConsumes mimeTypes]
        end
     ++ match rwProduces wr with
        | [] => []
        | mimeTypes => [CallProduces mimeTypes]
        end)%list.

(** The methods [Register] registers for the parts of the [api] tag of a
    field, [planned] giving those of the value of the field below a path. *)
Fixpoint plannedTagParts (planned : string -> list (string * string * FuncValue))
    (path : string) (tagParts : list string) : list (string * string * FuncValue) :=
  match tagParts with
  | [] => []
  | tagPart :: more =>
      let (tagPartKey, after) := SplitN2 ":" tagPart in
      let tagPartValue := match after with Some x => x | None => EmptyString end in
      ((if String.eqb tagPartKey "httppath"
        then planned (nestedPath path tagPartValue)
        else [])
       ++ plannedTagParts planned path more)%list
  end.

Fixpoint plannedFields {F : Type}
    (planned : F -> string -> list (string * string * FuncValue))
    (path : string) (fields : list (StructField * F))
  : list (string * string * FuncValue) :=
  match fields with
  | [] => []
  | (field, fieldInterface) :: rest =>
      let apiTagValue := tagGet (fieldTag field) "api" in
      ((if String.eqb apiTagValue EmptyString then []
        else plannedTagParts (planned fieldInterface) path (Split ";" apiTagValue))
       ++ plannedFields planned path rest)%list
  end.

(** The methods [Register] registers for a value below [path], each with
    the path it is registered below and its name: the methods of the value,
    then, field by field and part by part of the [api] tag, those of the
    values of the fields that have an [httppath] part. *)
Fixpoint plannedRoutes (path : string) (f : Registrable) {struct f}
  : list (string * string * FuncValue) :=
  match f with
  | mkRegistrable _ methods _ fields =>
      (List.map (fun m => (path, fst m, snd m)) methods
       ++ plannedFields (fun fieldInterface path => plannedRoutes path fieldInterface)
            path fields)%list
  end.

(** The route [built] is the one [Register] builds for the planned method:
    the method is analysed successfully and the route is made of its info. *)
Definition registeredRoute (registry : Registry) (wr : RestfulWrapper) (r : Loc)
    (planned : string * string * FuncValue) (built : RouteBuilder) : Prop :=
  exists info,
    ParseRestfulFunction registry (Some (snd planned)) = Done info
    /\ built = routeFor wr r (fst (fst planned)) info.

(** A step of a registration on the wrapper [wr], which is at [r]: from any
    store in which the wrapper and its web service exist, the step changes
    nothing but the routes of that web service, to which it only adds; it
    returns normally or panics; and when it returns normally, the routes it
    has added are those of the planned methods, one each and in order. *)
Definition registersPlanned (registry : Registry) (r : Loc) (wr : RestfulWrapper)
    (run : World -> World * outcome unit)
    (planned : list (string * string * FuncValue)) : Prop :=
  forall w service,
    wrappers w !! r = Some wr ->
    webServices w !! rwWs wr = Some service ->
    exists w' o added,
      run w = (w', o)
      /\ routesAdded (rwWs wr) w w' added
      /\ (o = Done tt -> Forall2 (registeredRoute registry wr r) planned added)
      /\ (forall e, o <> Fail e).

(** The [Returns] calls made on a route builder, oldest first. *)
Definition returnsCalls (routeBuilder : RouteBuilder)
  : list (Z * string * option (GoType * GoValue)) :=
  flat_map (fun call =>
              match call with
              | CallReturns code message model => [(code, message, model)]
              | _ => []
              end) routeBuilder.

(** The arguments of the [Consumes] calls, and of the [Produces] calls, made
    on a route builder, oldest first. *)
Definition consumesCalls (routeBuilder : RouteBuilder) : list (list string) :=
  flat_map (fun call =>
              match call with
              | CallConsumes mimeTypes => [mimeTypes]
              | _ => []
              end) routeBuilder.

Definition producesCalls (routeBuilder : RouteBuilder) : list (list string) :=
  flat_map (fun call =>
              match call with
              | CallProduces mimeTypes => [mimeTypes]
              | _ => []
              end) routeBuilder.

(** A call that is made only with a list that is not empty. *)
Definition unlessEmpty (mimeTypes : list string) : list (list string) :=
  match mimeTypes with
  | [] => []
  | _ => [mimeTypes]
  end.

(** The first list unless it is empty, else the second. *)
Definition firstUnlessEmpty (first second : list string) : list string :=
  match first with
  | [] => second
  | _ => first
  end.

Definition badRequestReturn : Z * string * option (GoType * GoValue) :=
  (StatusBadRequest, "Bad Request", None).

(* ===================================================================== *)
(** * Sample data for the examples *)
(* ===================================================================== *)

(** [strconv.Quote] on text of printable ASCII without quote or backslash:
    the text between double quotes. *)
Definition quotePlain (s : string) : string := dquote ++ s ++ dquote.

(** A 64-bit platform for the examples.  Its [ParseFloat] is the graph of
    [strconv.ParseFloat] on the two texts the examples use, "0" and
    "1234.5" at 64 bits; no example parses another float text. *)
Definition samplePlatform : Platform :=
  mkPlatform
    (fun s bits =>
       if String.eqb s "0" then Ok 0
       else if String.eqb s "1234.5" && (bits =? 64) then Ok 4653144203864309760
       else Err (syntaxError "ParseFloat" s))
    quotePlain 64.

Definition stringType : GoType := basicType KString.
Definition intType : GoType := basicType KInt.

(** [restfulwrapper.HTTPMethodGET] and a field embedding it. *)
Definition HTTPMethodGET : GoType :=
  structType "restfulwrapper.HTTPMethodGET"
    [mkStructField "_" false [("api", "httpmethod:GET")] stringType].

Definition embedded (t : GoType) (name : string) : StructField :=
  mkStructField name true [] t.

(** A request with the given path parameters, query values and headers, and
    an empty body. *)
Definition sampleRequest (path : string -> string) (query : string -> list string)
    (header : string -> string) : Request :=
  mkRequest "GET" "/" path query header
    (Ok (VOpaque "url.Values")) (Ok (VPtr (VOpaque "multipart.Form")))
    (Ok EmptyString) (fun _ => Err (errorf "EOF")).

Definition noValues : string -> list string := fun _ => [].
Definition noText : string -> string := fun _ => EmptyString.

(** A handler [func(ctx context.Context, meta T) (string, error)] that
    returns a fixed pair of results. *)
Definition handlerOf (t : GoType) (results : list Ret) : FuncValue :=
  mkFuncValue (funcType [contextType; t] [stringType; errorType]) (fun _ => results).

(** The info of a function as [ParseRestfulFunction] builds it with the
    built-in registry; the empty info if analysis fails. *)
Definition analysed (f : FuncValue) : RestfulFunctionInfo :=
  match ParseRestfulFunction registeredFunctionMap (Some f) with
  | Done info => info
  | _ => newInfo f
  end.

(** [struct { ID int `api:"path:id"` }]. *)
Definition idMetadata : GoType :=
  structType "IDMetadata" [mkStructField "ID" false [("api", "path:id")] intType].

(** [struct { Token int `api:"header:X-Token"`; ID int `api:"path:id"` }]. *)
Definition tokenThenIDMetadata : GoType :=
  structType "TokenThenIDMetadata"
    [mkStructField "Token" false [("api", "header:X-Token")] intType;
     mkStructField "ID" false [("api", "path:id")] intType].

(** [struct { Value int `api:"query:key1,oldKey" default:"7"` }]. *)
Definition aliasedQueryField : StructField :=
  mkStructField "Value" false [("api", "query:key1,oldKey"); ("default", "7")] intType.

(** [struct { Value string `api:"query:a,a"` }]. *)
Definition repeatedAliasMetadata : GoType :=
  structType "RepeatedAliasMetadata"
    [mkStructField "Value" false [("api", "query:a,a")] stringType].

(** [struct { Limit int `api:"query:limit"` }]. *)
Definition limitField : StructField :=
  mkStructField "Limit" false [("api", "query:limit")] intType.

(** [func(string) {}]: one parameter, which is not a struct. *)
Definition stringParameterFunction : FuncValue :=
  mkFuncValue (funcType [stringType] []) (fun _ => []).

(** [func(ctx context.Context, meta struct{}) (string, error)]. *)
Definition emptyMetadata : GoType := structType "struct {}" [].

(** A value that renders itself as a redirect. *)
Definition redirectWrite : Response -> Response :=
  fun resp => (resp ++ [SetHeader "Location" "/elsewhere";
                        WriteHeaderAndEntity 302 EntNil])%list.

(** A binder that always fails, and one that always stores a string. *)
Definition failingBinder : InputFieldFunction :=
  fun _ _ _ _ => Fail (errorf "no such tenant").
Definition constantBinder : InputFieldFunction :=
  fun _ _ _ _ => Done (VString "bound").

(** A route with three string fields bound by the binders above, the second
    of which fails. *)
Definition threeFieldsMetadata : GoType :=
  structType "ThreeFieldsMetadata"
    [mkStructField "First" false [] stringType;
     mkStructField "Second" false [] stringType;
     mkStructField "Third" false [] stringType].

Definition threeFieldsInfo : RestfulFunctionInfo :=
  setInputFields
    [mkInputField "First" constantBinder;
     mkInputField "Second" failingBinder;
     mkInputField "Third" constantBinder]
    (slotsInfo (handlerOf threeFieldsMetadata [RValue (VString "done"); RNil])).

(** A request whose query holds the given values for [key1] and [oldKey]. *)
Definition queryRequest (key1 oldKey : list string) : Request :=
  sampleRequest noText
    (fun k => if String.eqb k "key1" then key1
              else if String.eqb k "oldKey" then oldKey else [])
    noText.

(** A request whose path parameter [id] is "bogus". *)
Definition bogusRequest : Request :=
  sampleRequest (fun k => if String.eqb k "id" then "bogus" else EmptyString)
    noValues noText.

(** An exported [int] field holding zero, as reflection presents it. *)
Definition intFieldValue : Value := mkValue true intType (VInt 0) true.

(** A handler that returns a self-rendering redirect together with the
    given error result, and its info. *)
Definition redirectInfo (errorResult : Ret) : RestfulFunctionInfo :=
  slotsInfo (handlerOf emptyMetadata
               [RWriter (VOpaque "redirect") redirectWrite; errorResult]).

(** The inputs of the repository's tests (info-parse_test.go,
    restfulwrapper_test.go). *)
Definition metadataFunction (fields : list StructField) : FuncValue :=
  mkFuncValue (funcType [structType "struct" fields] []) (fun _ => []).

Definition multipartForm : GoType :=
  mkType "multipart.Form" KStruct noMethods None [] [] [].
Definition urlValues : GoType :=
  mkType "url.Values" KMap noMethods None [] [] [].
Definition httpRequestPointer : GoType :=
  pointerTo (mkType "http.Request" KStruct noMethods None [] [] []).

Definition fullExampleFunction : FuncValue :=
  mkFuncValue
    (funcType
       [contextType;
        structType "struct"
          [mkStructField "PathValue1" false
             [("api", "path:pathkey1"); ("description", "my description")] stringType;
           mkStructField "PathValue2" false
             [("api", "path:pathkey2"); ("description", "my description")] intType;
           mkStructField "QueryValue1" false
             [("api", "query:querykey1"); ("description", "my description")] stringType;
           mkStructField "QueryValue2" false
             [("api", "query:querykey2"); ("description", "my description")] intType;
           mkStructField "Body" false [("api", "body")]
             (structType "struct"
                [mkStructField "Value1" false [("json", "value1")] stringType])]]
       [pointerTo emptyMetadata; errorType])
    (fun _ => [RValue VNil; RNil]).

(** [PostEndpoint2Metadata] and its handler. *)
Definition PostEndpoint2Metadata : GoType :=
  structType "restfulwrapper_test.PostEndpoint2Metadata"
    [embedded
       (structType "restfulwrapper.HTTPMethodPOST"
          [mkStructField "_" false [("api", "httpmethod:POST")] stringType])
       "HTTPMethodPOST";
     mkStructField "_" false [("api", "httppath:/endpoint2/{id}")] stringType;
     mkStructField "_" false [("api", "doc"); ("description", "Endpoint 2 doc.")] stringType;
     mkStructField "_" false [("api", "notes"); ("description", "Endpoint 2 notes")]
       stringType;
     mkStructField "ID" false [("api", "path:id"); ("description", "ID parameter.")] intType;
     mkStructField "Body" false [("api", "body"); ("description", "Request body.")]
       (mkType "map[string]string" KMap noMethods None [] [] [])].

(** The handlers of endpoints 3 and 4: a chain of wrapped errors, ending in
    a plain error or in a [CustomError] that writes itself. *)
Definition wrapped (inner : GoError) : GoError :=
  errorfW ("wrap3: wrap2: wrap1: " ++ errorText inner)
    (errorfW ("wrap2: wrap1: " ++ errorText inner)
       (errorfW ("wrap1: " ++ errorText inner) inner)).

Definition customError : GoError :=
  EOther "*restfulwrapper_test.CustomError" "custom Error"
    (Some (fun resp => (resp ++ [SetHeader "X-Custom-Error" "my custom value";
                                 WriteBytes "custom WriteError"])%list))
    None.

Definition GetEndpointMetadata : GoType :=
  structType "restfulwrapper_test.GetEndpoint3Metadata"
    [embedded HTTPMethodGET "HTTPMethodGET";
     mkStructField "_" false [("api", "httppath:/endpoint3")] stringType].

(** What the tests of [ParseRestfulFunction] look at. *)
Definition observed (o : outcome RestfulFunctionInfo) :=
  match o with
  | Done info =>
      Some (slots info,
            List.map Name (InputFields info),
            List.map (fun p => (ppFieldName p, ppName p, ppDescription p))
              (PathParameters info),
            List.map (fun p => (qpFieldName p, qpName p, qpDescription p))
              (QueryParameters info),
            Consumes info)
  | _ => None
  end.


Definition parseWithBuiltins (f : option FuncValue) :=
  observed (ParseRestfulFunction registeredFunctionMap f).

(** [func(context.Context, context.Context) {}]. *)
Definition twoContextsFunction : FuncValue :=
  mkFuncValue (funcType [contextType; contextType] []) (fun _ => []).

(** Case analysis on every conditional of the goal. *)
Ltac split_branches :=
  repeat match goal with
         | |- context [if ?c then _ else _] => destruct c
         | |- context [match ?x with _ => _ end] => destruct x
         end.

(** The three facts about the result of a built-in factory, branch by
    branch. *)
Ltac builtin_facts :=
  split_branches;
  (split; [reflexivity|split; [reflexivity|]]);
  try discriminate;
  (let r := fresh "r" in
   intros r [= <-]; eexists; split; [reflexivity|constructor]).

(* ===================================================================== *)
(** * Sample data for the further properties *)
(* ===================================================================== *)

(** [type Tenant struct { Name string }] whose pointer implements
    [ParameterParser]: [ParseString] knows the tenant "acme" only. *)
Definition tenantParseString (input : string) : result GoError GoValue :=
  if String.eqb input "acme" then Ok (VStruct [VString "acme"])
  else Err (errorf "unknown tenant").

Definition tenantType : GoType :=
  mkType "Tenant" KStruct (mkMethods false false (Some tenantParseString)) None
    [mkStructField "Name" false [] stringType] [] [].

(** An exported field of type [Tenant] holding its zero. *)
Definition tenantFieldValue : Value :=
  mkValue true tenantType (VStruct [VString EmptyString]) true.

(** A request whose path parameter, header and query parameter [tenant]
    all hold [text]. *)
Definition tenantRequest (text : string) : Request :=
  sampleRequest (fun k => if String.eqb k "tenant" then text else EmptyString)
    (fun k => if String.eqb k "tenant" then [text] else [])
    (fun k => if String.eqb k "tenant" then text else EmptyString).

(** An exported [string] field holding "old". *)
Definition stringFieldValue : Value := mkValue true stringType (VString "old") true.

(** No information for the binders that ask for none. *)
Definition noInfoAtRequest : InfoAtRequest := mkInfoAtRequest EmptyString EmptyString [].

(** A request whose path parameter [id] is "7". *)
Definition sevenRequest : Request :=
  sampleRequest (fun k => if String.eqb k "id" then "7" else EmptyString)
    noValues noText.

(** The handler of endpoint 4 of the tests: it returns a [CustomError]
    under three [fmt.Errorf] wrappers. *)
Definition endpoint4 : FuncValue :=
  handlerOf GetEndpointMetadata [RValue (VString EmptyString); RError (wrapped customError)].

(** A handler on [IDMetadata] that answers "ok", and one that fails. *)
Definition okHandler : FuncValue := handlerOf idMetadata [RValue (VString "ok"); RNil].
Definition boomHandler : FuncValue := handlerOf idMetadata [RNil; RError (errorf "boom")].

(** An error handler that replaces every error by a 404. *)
Definition notFoundHandler : ErrorHandler :=
  fun _ => Some (EAPIResponse (mkAPIResponseError "not here" (Some 404))).

(** [func(ctx context.Context, meta *IDMetadata) (string, error)]. *)
Definition pointerHandler : FuncValue :=
  handlerOf (pointerTo idMetadata) [RValue (VString "ok"); RNil].

(** [Body multipart.Form `api:"body"`] and [Body string `api:"body:empty"`]. *)
Definition multipartBodyField : StructField :=
  mkStructField "Body" false [("api", "body")] multipartForm.
Definition emptyBodyField : StructField :=
  mkStructField "Body" false [("api", "body:empty")] stringType.

(** The store after [WebService("/api")] and then [Attributes] with the
    tenant "acme" on the wrapper, which is at location 1. *)
Definition emptyWorld : World := mkWorld ∅ ∅ ∅ 0.

Definition tenantAttributes : gmap string GoValue :=
  <["tenant" := VString "acme"]> (<["role" := VString "admin"]> ∅).

Definition apiWorld : World := fst (WebService "/api" emptyWorld).

Definition apiWrapper : RestfulWrapper := mkRestfulWrapper 0 "/api" None [] [] [] [].

Definition tenantWorld : World :=
  fst (RestfulWrapper_Attributes 1 tenantAttributes apiWorld).

Definition tenantWrapper : RestfulWrapper :=
  mkRestfulWrapper 0 "/api" (Some 2%nat) [] [] [] [].

(** [struct { HTTPMethodGET; _ string `api:"httppath:/items/{id}"`;
    Note string; Hidden string `api:"-"`; ID int `api:"path:id"`;
    Limit int `api:"query:limit"` }] and a handler on it. *)
Definition itemMetadata : GoType :=
  structType "ItemMetadata"
    [embedded HTTPMethodGET "HTTPMethodGET";
     mkStructField "_" false [("api", "httppath:/items/{id}")] stringType;
     mkStructField "Note" false [] stringType;
     mkStructField "Hidden" false [("api", "-")] stringType;
     mkStructField "ID" false [("api", "path:id"); ("description", "The item.")] intType;
     mkStructField "Limit" false [("api", "query:limit")] intType].

Definition itemHandler : FuncValue := handlerOf itemMetadata [RValue (VString "ok"); RNil].

(** A value of type [*API] with the methods [GetItem], [Broken], whose
    function takes a string, and [Other]. *)
Definition brokenAPI : Registrable :=
  mkRegistrable "*API"
    ([("GetItem", itemHandler)]
     ++ ("Broken", stringParameterFunction) :: [("Other", okHandler)])%list
    KStruct [].

(** A value of type [*API] with the method [GetItem] and a field
    [_ SubAPI `api:"httppath:/subapi"`], [*SubAPI] having the method
    [GetOther]. *)
Definition nestedAPI : Registrable :=
  mkRegistrable "*API" [("GetItem", itemHandler)] KStruct
    [(mkStructField "_" false [("api", "httppath:/subapi")] (structType "SubAPI" []),
      mkRegistrable "*SubAPI" [("GetOther", okHandler)] KStruct [])].

(** The wrapper of "/api" once it consumes JSON, a route wrapper on it, and
    the info a [multipart.Form] body field leaves. *)
Definition jsonWorld : World := fst (RestfulWrapper_Consumes 1 ["application/json"] apiWorld).

Definition jsonWrapper : RestfulWrapper :=
  mkRestfulWrapper 0 "/api" None [] ["application/json"] [] [].

Definition uploadRoute : RestfulRouteWrapper :=
  mkRestfulRouteWrapper 1 "POST" "/upload" None [] [] [].

Definition uploadInfo : RestfulFunctionInfo :=
  fst (bodyFactory EmptyString multipartBodyField (newInfo stringParameterFunction)).

(** An exported [[]int] field holding one element, and a request whose
    query holds three values for [tag]. *)
Definition intsFieldValue : Value := mkValue true (sliceOf intType) (VSlice [VInt 9]) true.

Definition tagsRequest : Request :=
  sampleRequest noText (fun k => if String.eqb k "tag" then ["1"; "2"; "3"] else []) noText.

Definition tagsField : StructField :=
  mkStructField "Tags" false [("api", "query:tag")] (sliceOf intType).

(** The value that TestRestfulWrapper registers: [*API] with the methods
    [DeleteEndpoint1] and [GetEndpoint1] and the field
    [_ SubAPI `api:"httppath:/subapi"`], [*SubAPI] having the methods
    [GetEndpoint3], [GetEndpoint4] and [PostEndpoint2]. *)
Definition endpoint1Metadata (marker : GoType) (markerName : string) : GoType :=
  structType "restfulwrapper_test.Endpoint1Metadata"
    [embedded marker markerName;
     mkStructField "_" false [("api", "httppath:/endpoint1")] stringType;
     mkStructField "_" false [("api", "doc"); ("description", "Endpoint 1 doc.")] stringType;
     mkStructField "_" false [("api", "notes"); ("description", "Endpoint 1 notes")]
       stringType].

Definition testAPI : Registrable :=
  mkRegistrable "*restfulwrapper_test.API"
    [("DeleteEndpoint1",
      mkFuncValue (funcType [contextType; endpoint1Metadata HTTPMethodDELETE "HTTPMethodDELETE"]
                     [errorType])
        (fun _ => [RNil]));
     ("GetEndpoint1",
      handlerOf (endpoint1Metadata HTTPMethodGET "HTTPMethodGET")
        [RValue (VString "endpoint1"); RNil])]
    KStruct
    [(mkStructField "_" false [("api", "httppath:/subapi")]
        (structType "restfulwrapper_test.SubAPI" []),
      mkRegistrable "*restfulwrapper_test.SubAPI"
        [("GetEndpoint3",
          handlerOf GetEndpointMetadata
            [RValue (VString EmptyString); RError (wrapped (errorf "some error"))]);
         ("GetEndpoint4", endpoint4);
         ("PostEndpoint2",
          handlerOf PostEndpoint2Metadata [RValue (VString "endpoint2"); RNil])]
        KStruct [])].

(** The HTTP method and the path a route builder was given. *)
Definition methodAndPath (routeBuilder : RouteBuilder) : list (string * string) :=
  match routeBuilder with
  | CallMethod httpMethod :: CallPath subPath :: _ => [(httpMethod, subPath)]
  | _ => []
  end.

(** The routes of the web service at [s] after [run], when it returned. *)
Definition routesAfter (s : Loc) (run : World * outcome unit)
  : option (list (string * string)) :=
  match run with
  | (w, Done _) =>
      option_map (fun service => flat_map methodAndPath (serviceRoutes service))
        (webServices w !! s)
  | _ => None
  end.
(* ===================================================================== *)
(** * Decimal text and the integer parsers *)
(* ===================================================================== *)

Lemma digitValue_range c d :
  strconv.digitValue c = Some d -> 0 <= d <= 9.
Proof.
  unfold strconv.digitValue.
  destruct (_ && _)%bool eqn:E; [|discriminate].
  intros [= <-]. apply andb_true_iff in E as [E1 E2]. lia.
Qed.

Lemma digitValue_digitChar d :
  0 <= d <= 9 -> strconv.digitValue (strconv.digitChar d) = Some d.
Proof.
  intros Hd. unfold strconv.digitValue, strconv.digitChar.
  rewrite nat_ascii_embedding by lia.
  rewrite Z2Nat.id by lia.
  replace ((48 <=? 48 + d) && (48 + d <=? 57))%bool with true.
  - f_equal. lia.
  - symmetry. apply andb_true_iff. split; lia.
Qed.

Lemma digitsValue_mono s : forall n v,
  0 <= n -> digitsValue n s = Some v -> n <= v.
Proof.
  induction s as [|c rest IH]; intros n v Hn; simpl.
  - intros [= <-]. lia.
  - destruct (strconv.digitValue c) as [d|] eqn:Hd; [|discriminate].
    apply digitValue_range in Hd. intros H.
    apply IH in H; lia.
Qed.

(** The loop of [ParseUint] succeeds exactly on digit strings whose value
    fits, and then returns that value. *)
Lemma parseUintLoop_spec fn s0 maxVal s : forall n v,
  maxVal <= strconv.maxUint64 -> 0 <= n <= maxVal ->
  strconv.parseUintLoop fn s0 maxVal n s = Ok v
  <-> digitsValue n s = Some v /\ v <= maxVal.
Proof.
  unfold strconv.maxUint64.
  induction s as [|c rest IH]; intros n v Hmax Hn; simpl.
  - split.
    + intros [= <-]. split; [reflexivity | lia].
    + intros [[= <-] _]. reflexivity.
  - destruct (strconv.digitValue c) as [d|] eqn:Hd.
    2:{ split; [discriminate | intros [? _]; discriminate]. }
    pose proof (digitValue_range _ _ Hd) as Hdr.
    change (strconv.maxUint64 / 10 + 1) with 1844674407370955162.
    destruct (1844674407370955162 <=? n) eqn:Hcut.
    { split; [discriminate|]. intros [Hv Hle].
      apply digitsValue_mono in Hv; lia. }
    apply Z.leb_gt in Hcut.
    rewrite (Z.mod_small (n * 10)) by lia.
    destruct (Z_lt_dec (n * 10 + d) (2 ^ 64)) as [Hsmall|Hbig].
    + rewrite (Z.mod_small (n * 10 + d)) by lia.
      replace (n * 10 + d <? n * 10) with false by (symmetry; apply Z.ltb_ge; lia).
      simpl. destruct (maxVal <? n * 10 + d) eqn:Hm.
      * split; [discriminate|]. intros [Hv Hle].
        apply Z.ltb_lt in Hm. apply digitsValue_mono in Hv; lia.
      * apply Z.ltb_ge in Hm. apply IH; lia.
    + assert (Hw : (n * 10 + d) mod 2 ^ 64 = n * 10 + d - 2 ^ 64).
      { symmetry. apply (Z.mod_unique _ _ 1); lia. }
      rewrite Hw.
      replace (n * 10 + d - 2 ^ 64 <? n * 10) with true by (symmetry; apply Z.ltb_lt; lia).
      simpl. split; [discriminate|]. intros [Hv Hle].
      apply digitsValue_mono in Hv; lia.
Qed.

Lemma ParseUint_spec s bits v :
  0 < bits <= 64 ->
  strconv.ParseUint s bits = Ok v <-> uintText s = Some v /\ v < 2 ^ bits.
Proof.
  intros Hb.
  assert (H2 : 2 ^ bits <= 2 ^ 64) by (apply Z.pow_le_mono_r; lia).
  assert (H1 : 0 < 2 ^ bits) by (apply Z.pow_pos_nonneg; lia).
  unfold strconv.ParseUint, uintText. destruct s as [|c rest].
  - split; [discriminate | intros [? _]; discriminate].
  - rewrite parseUintLoop_spec by (unfold strconv.maxUint64; lia).
    split; intros [? ?]; split; auto; lia.
Qed.

Lemma ParseUint_error_kind s bits e :
  strconv.ParseUint s bits = Err e ->
  e = syntaxError "ParseUint" s \/ e = rangeError "ParseUint" s.
Proof.
  unfold strconv.ParseUint. destruct s as [|c rest]; [intros [= <-]; auto|].
  generalize (String c rest) at 1 3 4 as s0. generalize 0.
  generalize (String c rest) as s.
  induction s as [|c' r IH]; intros n s0; simpl; [discriminate|].
  destruct (strconv.digitValue c'); [|intros [= <-]; auto].
  destruct (_ <=? n); [intros [= <-]; auto|].
  destruct (_ || _)%bool; [intros [= <-]; auto|]. apply IH.
Qed.


Lemma uintText_nonneg s v : uintText s = Some v -> 0 <= v.
Proof.
  destruct s; simpl; [discriminate|].
  destruct (strconv.digitValue a) as [d|] eqn:Hd; [|discriminate].
  apply digitValue_range in Hd. intros H.
  apply digitsValue_mono in H; lia.
Qed.

(** The tail of [ParseInt] after the sign has been removed. *)
Lemma ParseInt_tail (neg : bool) s s0 bits v :
  2 <= bits <= 64 ->
  (let cutoff := 2 ^ (bits - 1) in
   let check (un : Z) :=
     if negb neg && (cutoff <=? un) then Err (rangeError "ParseInt" s0)
     else if neg && (cutoff <? un) then Err (rangeError "ParseInt" s0)
     else Ok (if neg then - un else un) in
   match strconv.ParseUint s bits with
   | Err e =>
       match NumErr e with
       | ErrRange => check (2 ^ bits - 1)
       | ErrSyntax => Err (syntaxError "ParseInt" s0)
       end
   | Ok un => check un
   end) = Ok v
  <-> exists un, uintText s = Some un /\ v = (if neg then - un else un)
                 /\ - 2 ^ (bits - 1) <= v < 2 ^ (bits - 1).
Proof.
  intros Hb. cbv zeta.
  assert (Hp : 2 ^ bits = 2 * 2 ^ (bits - 1)).
  { rewrite <- Z.pow_succ_r by lia. f_equal. lia. }
  assert (Hc : 2 <= 2 ^ (bits - 1)).
  { change 2 with (2 ^ 1) at 1. apply Z.pow_le_mono_r; lia. }
  destruct (strconv.ParseUint s bits) as [un|e] eqn:HU.
  - apply ParseUint_spec in HU as [Hu Hlt]; [|lia].
    pose proof (uintText_nonneg _ _ Hu) as H0.
    destruct neg; simpl.
    + destruct (2 ^ (bits - 1) <? un) eqn:Hcmp.
      * apply Z.ltb_lt in Hcmp. split; [discriminate|].
        intros (un' & Hu' & -> & Hr). rewrite Hu in Hu'. injection Hu' as <-. lia.
      * apply Z.ltb_ge in Hcmp. split.
        -- intros [= <-]. exists un. repeat split; auto; lia.
        -- intros (un' & Hu' & -> & Hr). rewrite Hu in Hu'. injection Hu' as <-.
           reflexivity.
    + destruct (2 ^ (bits - 1) <=? un) eqn:Hcmp.
      * apply Z.leb_le in Hcmp. split; [discriminate|].
        intros (un' & Hu' & -> & Hr). rewrite Hu in Hu'. injection Hu' as <-. lia.
      * apply Z.leb_gt in Hcmp. split.
        -- intros [= <-]. exists un. repeat split; auto; lia.
        -- intros (un' & Hu' & -> & Hr). rewrite Hu in Hu'. injection Hu' as <-.
           reflexivity.
  - assert (Hno : forall un, uintText s = Some un -> 2 ^ bits <= un).
    { intros un Hu. destruct (Z_lt_dec un (2 ^ bits)) as [Hlt|]; [|lia].
      assert (strconv.ParseUint s bits = Ok un) as HU'
        by (apply ParseUint_spec; [lia | auto]).
      rewrite HU in HU'. discriminate. }
    split.
    + destruct (NumErr e); [discriminate|].
      destruct neg; simpl.
      * replace (2 ^ (bits - 1) <? 2 ^ bits - 1) with true
          by (symmetry; apply Z.ltb_lt; lia). discriminate.
      * replace (2 ^ (bits - 1) <=? 2 ^ bits - 1) with true
          by (symmetry; apply Z.leb_le; lia). discriminate.
    + intros (un & Hu & -> & Hr). apply Hno in Hu. destruct neg; lia.
Qed.

Lemma ParseInt_spec s bits v :
  2 <= bits <= 64 ->
  strconv.ParseInt s bits = Ok v
  <-> intText s = Some v /\ - 2 ^ (bits - 1) <= v < 2 ^ (bits - 1).
Proof.
  intros Hb. unfold strconv.ParseInt, intText.
  destruct s as [|c rest]; [split; [discriminate | intros [? _]; discriminate]|].
  destruct (Ascii.eqb c "+") eqn:Hplus.
  - apply Ascii.eqb_eq in Hplus as ->. simpl (Ascii.eqb "+" "-").
    cbv iota. simpl orb. cbv iota.
    rewrite (ParseInt_tail false) by exact Hb.
    split.
    + intros (un & Hu & -> & Hr). auto.
    + intros [Hu Hr]. exists v. auto.
  - destruct (Ascii.eqb c "-") eqn:Hminus.
    + simpl orb. cbv iota.
      rewrite (ParseInt_tail true) by exact Hb.
      split.
      * intros (un & Hu & -> & Hr). rewrite Hu. auto.
      * intros [Hu Hr]. destruct (uintText rest) as [un|]; [|discriminate].
        injection Hu as <-. exists un. auto.
    + simpl orb. cbv iota.
      rewrite (ParseInt_tail false) by exact Hb.
      split.
      * intros (un & Hu & -> & Hr). auto.
      * intros [Hu Hr]. exists v. auto.
Qed.

Lemma formatDigits_suffix fuel : forall u c r,
  strconv.formatDigits fuel u (String c r) <> EmptyString.
Proof.
  induction fuel as [|f IH]; intros u c r; simpl; [discriminate|].
  destruct (10 <=? u); [apply IH | discriminate].
Qed.

Lemma formatDigits_nonempty fuel u acc :
  strconv.formatDigits (S fuel) u acc <> EmptyString.
Proof.
  simpl. destruct (10 <=? u); [apply formatDigits_suffix | discriminate].
Qed.

(** Reading back the digits that [formatBits] wrote gives the number. *)
Lemma formatDigits_value fuel : forall u rest,
  (0 < fuel)%nat -> 0 <= u < 10 ^ Z.of_nat fuel ->
  digitsValue 0 (strconv.formatDigits fuel u rest) = digitsValue u rest.
Proof.
  induction fuel as [|f IH]; intros u rest Hf Hu; [lia|].
  simpl. destruct (10 <=? u) eqn:H10.
  - apply Z.leb_le in H10.
    assert (Hpow : 10 ^ Z.of_nat (S f) = 10 * 10 ^ Z.of_nat f).
    { rewrite Nat2Z.inj_succ, Z.pow_succ_r by lia. reflexivity. }
    assert (Hf' : (0 < f)%nat).
    { destruct f; [|lia]. simpl in Hpow. lia. }
    rewrite IH.
    + simpl. rewrite digitValue_digitChar by (pose proof (Z.mod_pos_bound u 10); lia).
      f_equal. pose proof (Z.div_mod u 10). lia.
    + exact Hf'.
    + split; [apply Z.div_pos; lia|].
      apply Z.div_lt_upper_bound; lia.
  - apply Z.leb_gt in H10. simpl.
    rewrite digitValue_digitChar by lia. reflexivity.
Qed.

Lemma uintText_FormatUint u :
  0 <= u < 2 ^ 64 -> uintText (strconv.FormatUint u) = Some u.
Proof.
  intros Hu. unfold uintText, strconv.FormatUint.
  destruct (strconv.formatDigits 20 u EmptyString) eqn:E.
  - exfalso. revert E. apply formatDigits_nonempty.
  - rewrite <- E. rewrite formatDigits_value; [reflexivity | lia |].
    change (Z.of_nat 20) with 20. lia.
Qed.

Lemma digit_not_sign c d :
  strconv.digitValue c = Some d ->
  Ascii.eqb c "+" = false /\ Ascii.eqb c "-" = false.
Proof.
  intros H. split.
  - destruct (Ascii.eqb c "+") eqn:E; [|reflexivity].
    apply Ascii.eqb_eq in E. subst c. discriminate H.
  - destruct (Ascii.eqb c "-") eqn:E; [|reflexivity].
    apply Ascii.eqb_eq in E. subst c. discriminate H.
Qed.

Lemma intText_FormatInt i :
  - 2 ^ 63 <= i < 2 ^ 63 -> intText (strconv.FormatInt i) = Some i.
Proof.
  intros Hi. unfold strconv.FormatInt. destruct (i <? 0) eqn:Hneg.
  - apply Z.ltb_lt in Hneg. simpl.
    rewrite uintText_FormatUint by lia. simpl. f_equal. lia.
  - apply Z.ltb_ge in Hneg.
    pose proof (uintText_FormatUint i ltac:(lia)) as HU.
    unfold intText. destruct (strconv.FormatUint i) as [|c r] eqn:E; [discriminate|].
    assert (exists d, strconv.digitValue c = Some d) as [d Hd].
    { simpl in HU. destruct (strconv.digitValue c) as [d|]; [eauto | discriminate]. }
    destruct (digit_not_sign _ _ Hd) as [-> ->]. exact HU.
Qed.

(** [ParseUint] reads back what [FormatUint] writes. *)
Lemma ParseUint_FormatUint u bits :
  0 < bits <= 64 -> 0 <= u < 2 ^ bits ->
  strconv.ParseUint (strconv.FormatUint u) bits = Ok u.
Proof.
  intros Hb Hu.
  assert (2 ^ bits <= 2 ^ 64) by (apply Z.pow_le_mono_r; lia).
  apply ParseUint_spec; [exact Hb|]. split; [|lia].
  apply uintText_FormatUint. lia.
Qed.

(** [ParseInt] reads back what [FormatInt] writes. *)
Lemma ParseInt_FormatInt i bits :
  2 <= bits <= 64 -> - 2 ^ (bits - 1) <= i < 2 ^ (bits - 1) ->
  strconv.ParseInt (strconv.FormatInt i) bits = Ok i.
Proof.
  intros Hb Hi.
  assert (2 ^ (bits - 1) <= 2 ^ 63) by (apply Z.pow_le_mono_r; lia).
  apply ParseInt_spec; [exact Hb|]. split; [|lia].
  apply intText_FormatInt. lia.
Qed.

Lemma ParseBool_spec s b :
  strconv.ParseBool s = Ok b <-> boolText s = Some b.
Proof.
  unfold strconv.ParseBool, boolText. simpl existsb.
  rewrite !orb_false_r, !orb_assoc.
  destruct (_ || String.eqb s "True")%bool.
  - split; intros [= <-]; reflexivity.
  - destruct (_ || String.eqb s "False")%bool.
    + split; intros [= <-]; reflexivity.
    + split; discriminate.
Qed.

(* ===================================================================== *)
(** * The value parser *)
(* ===================================================================== *)

Lemma signed_bits k :
  IntSize P = 32 \/ IntSize P = 64 ->
  isSignedKind k = true -> 2 <= kindBits k <= 64.
Proof. intros [H|H] Hk; destruct k; try discriminate; simpl; lia. Qed.

Lemma unsigned_bits k :
  IntSize P = 32 \/ IntSize P = 64 ->
  isUnsignedKind k = true -> 0 < kindBits k <= 64.
Proof. intros [H|H] Hk; destruct k; try discriminate; simpl; lia. Qed.

(** On a target without [ParameterParser], a signed kind goes to [ParseInt]. *)
Lemma parse_signed t old s :
  parameterParser (typeMethods t) = None -> isSignedKind (typeKind t) = true ->
  parseStringToSingleValue s (pointerTarget t old)
  = match strconv.ParseInt s (kindBits (typeKind t)) with
    | Err err => Err (ENum err)
    | Ok v => Ok (VInt v)
    end.
Proof.
  intros Hp Hk. unfold parseStringToSingleValue, pointerTarget. simpl.
  rewrite Hp. destruct (typeKind t); try discriminate; reflexivity.
Qed.

Lemma parse_unsigned t old s :
  parameterParser (typeMethods t) = None -> isUnsignedKind (typeKind t) = true ->
  parseStringToSingleValue s (pointerTarget t old)
  = match strconv.ParseUint s (kindBits (typeKind t)) with
    | Err err => Err (ENum err)
    | Ok v => Ok (VUint v)
    end.
Proof.
  intros Hp Hk. unfold parseStringToSingleValue, pointerTarget. simpl.
  rewrite Hp. destruct (typeKind t); try discriminate; reflexivity.
Qed.

Lemma parse_bool t old s :
  parameterParser (typeMethods t) = None -> typeKind t = KBool ->
  parseStringToSingleValue s (pointerTarget t old)
  = match strconv.ParseBool s with
    | Err err => Err (ENum err)
    | Ok v => Ok (VBool v)
    end.
Proof.
  intros Hp Hk. unfold parseStringToSingleValue, pointerTarget. simpl.
  rewrite Hp, Hk. reflexivity.
Qed.

Lemma parse_string t old s :
  parameterParser (typeMethods t) = None -> typeKind t = KString ->
  parseStringToSingleValue s (pointerTarget t old) = Ok (VString s).
Proof.
  intros Hp Hk. unfold parseStringToSingleValue, pointerTarget. simpl.
  rewrite Hp, Hk. reflexivity.
Qed.


(** The parser accepts exactly the texts that denote a value of the kind. *)
Lemma parse_denotes t old s :
  IntSize P = 32 \/ IntSize P = 64 ->
  parameterParser (typeMethods t) = None ->
  isFloatKind (typeKind t) = false ->
  match denotes (typeKind t) s with
  | Some v => parseStringToSingleValue s (pointerTarget t old) = Ok v
  | None => isOk (parseStringToSingleValue s (pointerTarget t old)) = false
  end.
Proof.
  intros HP Hp Hfl. unfold denotes.
  destruct (isSignedKind (typeKind t)) eqn:Hs.
  { rewrite parse_signed by assumption.
    pose proof (signed_bits _ HP Hs) as Hb.
    unfold inRange. rewrite Hs. simpl andb.
    destruct (strconv.ParseInt s (kindBits (typeKind t))) as [v|e] eqn:E.
    - apply ParseInt_spec in E as [-> Hr]; [|exact Hb].
      replace (_ && _)%bool with true; [reflexivity|].
      symmetry. apply andb_true_iff. split; lia.
    - destruct (intText s) as [i|] eqn:I; [|reflexivity].
      destruct (_ && _)%bool eqn:R; [|reflexivity].
      apply andb_true_iff in R as [R1 R2].
      assert (strconv.ParseInt s (kindBits (typeKind t)) = Ok i) as E'
        by (apply ParseInt_spec; [exact Hb | split; [exact I | lia]]).
      rewrite E in E'. discriminate. }
  destruct (isUnsignedKind (typeKind t)) eqn:Hu.
  { rewrite parse_unsigned by assumption.
    pose proof (unsigned_bits _ HP Hu) as Hb.
    unfold inRange. rewrite Hu. simpl andb.
    destruct (strconv.ParseUint s (kindBits (typeKind t))) as [v|e] eqn:E.
    - apply ParseUint_spec in E as [Hv Hr]; [|exact Hb]. rewrite Hv.
      apply uintText_nonneg in Hv.
      replace (_ && _)%bool with true; [reflexivity|].
      symmetry. apply andb_true_iff. split; lia.
    - destruct (uintText s) as [u|] eqn:U; [|reflexivity].
      destruct (_ && _)%bool eqn:R; [|reflexivity].
      apply andb_true_iff in R as [R1 R2].
      assert (strconv.ParseUint s (kindBits (typeKind t)) = Ok u) as E'
        by (apply ParseUint_spec; [exact Hb | split; [exact U | lia]]).
      rewrite E in E'. discriminate. }
  destruct (typeKind t) eqn:Hk; try discriminate;
    try (unfold parseStringToSingleValue, pointerTarget; simpl;
         rewrite Hp, Hk; reflexivity).
  - rewrite parse_bool by assumption.
    destruct (strconv.ParseBool s) as [b|e] eqn:E.
    + apply ParseBool_spec in E. rewrite E. reflexivity.
    + destruct (boolText s) as [b|] eqn:B; [|reflexivity].
      apply ParseBool_spec in B. rewrite E in B. discriminate.
Qed.



(* ===================================================================== *)
(** * The registry *)
(* ===================================================================== *)

Lemma Register_fresh k f (m : Registry) :
  m !! k = None -> Register k f m = (<[k := f]> m, Done tt).
Proof. intros H. unfold Register. rewrite H. reflexivity. Qed.

Lemma Register_present k f (m : Registry) :
  is_Some (m !! k) ->
  Register k f m = (m, Panic ("tag already registered: " ++ k)).
Proof. intros [x H]. unfold Register. rewrite H. reflexivity. Qed.

(** After any call [Register(k, g)], successful or not, [k] is registered. *)
Lemma Register_registers k g (m : Registry) :
  is_Some (fst (Register k g m) !! k).
Proof.
  unfold Register. destruct (m !! k) as [x|] eqn:H; simpl.
  - rewrite H. eauto.
  - rewrite lookup_insert_eq. eauto.
Qed.

(** C9: whatever the registry held, a call [Register(k, f)] that follows a
    call [Register(k, g)] panics and leaves the registry as it was; and for
    two distinct keys that are not yet registered both calls succeed, after
    which each key yields the factory registered for it and every other key
    is as before. *)
Theorem Register_twice_panics_distinct_keys_succeed
    (m : Registry) (k1 k2 : string) (f g : option RegisterFunction) :
  k1 <> k2 -> m !! k1 = None -> m !! k2 = None ->
  (forall (m0 : Registry) k f0 g0,
      let m1 := fst (Register k g0 m0) in
      Register k f0 m1 = (m1, Panic ("tag already registered: " ++ k)))
  /\ (let m1 := fst (Register k1 f m) in
      let m2 := fst (Register k2 g m1) in
      snd (Register k1 f m) = Done tt
      /\ snd (Register k2 g m1) = Done tt
      /\ m2 !! k1 = Some f
      /\ m2 !! k2 = Some g
      /\ forall k, k <> k1 -> k <> k2 -> m2 !! k = m !! k).
Proof.
  intros Hne H1 H2. split.
  - intros m0 k f0 g0 m1. apply Register_present. apply Register_registers.
  - rewrite (Register_fresh k1 f m H1). simpl.
    assert (H2' : <[k1 := f]> m !! k2 = None)
      by (rewrite lookup_insert_ne by exact Hne; exact H2).
    rewrite (Register_fresh k2 g _ H2'). simpl.
    repeat split.
    + rewrite lookup_insert_ne by (intros E; apply Hne; symmetry; exact E).
      apply lookup_insert_eq.
    + apply lookup_insert_eq.
    + intros k Hk1 Hk2.
      rewrite lookup_insert_ne by (intros E; apply Hk2; symmetry; exact E).
      rewrite lookup_insert_ne by (intros E; apply Hk1; symmetry; exact E).
      reflexivity.
Qed.

Lemma SplitN2_key k v :
  hasByte ":" k = false -> SplitN2 ":" (k ++ String ":" v) = (k, Some v).
Proof.
  induction k as [|c k IH]; simpl; [reflexivity|].
  intros H. apply orb_false_iff in H as [Hc Hk].
  rewrite Hc, (IH Hk). reflexivity.
Qed.

(** The walker on a field that is not embedded. *)
Lemma handleField_plain (registry : Registry) info name tag ftype :
  handleField registry info (mkStructField name false tag ftype)
  = let field := mkStructField name false tag ftype in
    let apiTagText := tagGet tag "api" in
    if String.eqb apiTagText EmptyString then (info, Done tt)
    else
      let (apiTagKey, after) := SplitN2 ":" apiTagText in
      let apiTagValue := match after with Some x => x | None => EmptyString end in
      if String.eqb apiTagKey "-" then (info, Done tt)
      else
        match registry !! apiTagKey with
        | Some (Some registeredFunction) =>
            recordBinder name (registeredFunction apiTagValue field info)
        | _ => (info, Fail (errorf ("unhandled API tag: " ++ apiTagKey)))
        end.
Proof.
  destruct ftype. cbn [handleField]. cbv zeta.
  destruct (String.eqb (tagGet tag "api") EmptyString); [reflexivity|].
  destruct (SplitN2 ":" (tagGet tag "api")) as [apiTagKey after].
  destruct (String.eqb apiTagKey "-"); [reflexivity|].
  destruct (registry !! apiTagKey) as [[rf|]|]; reflexivity.
Qed.

(** A registered factory is the one the walker invokes for a field whose
    tag names its key, with the text after the colon as argument. *)
Lemma handleField_invokes_registered (registry : Registry) info name tag ftype k v
    (rf : RegisterFunction) :
  registry !! k = Some (Some rf) ->
  hasByte ":" k = false -> k <> "-" ->
  tagGet tag "api" = k ++ String ":" v ->
  handleField registry info (mkStructField name false tag ftype)
  = recordBinder name (rf v (mkStructField name false tag ftype) info).
Proof.
  intros Hr Hk Hdash Htag. rewrite handleField_plain. cbv zeta.
  rewrite Htag, (SplitN2_key k v Hk).
  replace (String.eqb (k ++ String ":" v) EmptyString) with false
    by (destruct k; reflexivity).
  cbv beta iota zeta.
  replace (String.eqb k "-") with false
    by (symmetry; apply String.eqb_neq; exact Hdash).
  match goal with
  | |- match ?x with _ => _ end = _ =>
      replace x with (Some (Some rf)) by (symmetry; exact Hr)
  end.
  reflexivity.
Qed.

(* ===================================================================== *)
(** * The signature analyser *)
(* ===================================================================== *)

(** Induction on a field through the fields of its struct type. *)
Lemma StructField_nested_ind (Q : StructField -> Prop) :
  (forall name anonymous tag s k m e fields i o,
      Forall Q fields ->
      Q (mkStructField name anonymous tag (mkType s k m e fields i o))) ->
  forall f, Q f.
Proof.
  intros H.
  fix IH 1. intros [name anonymous tag [s k m e fields i o]].
  apply H. induction fields as [|x rest IHrest]; constructor.
  - apply IH.
  - exact IHrest.
Qed.

Lemma classifyIn_fail ins : forall i ctx meta mt,
  0 <= i ->
  (2 <= seen ctx + countIf isContextType ins)%nat
  \/ (2 <= seen meta + countIf isMetadataType ins)%nat ->
  exists e, classifyIn i ins ctx meta mt = Err e.
Proof.
  unfold countIf, isContextType, isMetadataType, seen.
  induction ins as [|a rest IH]; intros i ctx meta mt Hi H; simpl in *.
  - destruct (0 <=? ctx), (0 <=? meta); simpl in H; lia.
  - destruct (isContext (typeMethods a)); simpl in *.
    + destruct (0 <=? ctx) eqn:Hc; [eauto|].
      apply IH; [lia|]. replace (0 <=? i) with true by (symmetry; apply Z.leb_le; lia).
      simpl in *. lia.
    + destruct (0 <=? meta) eqn:Hm; [eauto|].
      apply IH; [lia|]. replace (0 <=? i) with true by (symmetry; apply Z.leb_le; lia).
      simpl in *. lia.
Qed.

Lemma classifyIn_ok ins : forall i ctx meta mt,
  0 <= i -> -1 <= ctx -> -1 <= meta -> (meta < 0 -> mt = None) ->
  (seen ctx + countIf isContextType ins <= 1)%nat ->
  (seen meta + countIf isMetadataType ins <= 1)%nat ->
  classifyIn i ins ctx meta mt
  = Ok (if 0 <=? ctx then ctx else indexOf isContextType ins i,
        if 0 <=? meta then meta else indexOf isMetadataType ins i,
        if 0 <=? meta then mt else List.find isMetadataType ins).
Proof.
  unfold countIf, isContextType, isMetadataType, seen.
  induction ins as [|a rest IH]; intros i ctx meta mt Hi Hc1 Hm1 Hmt Hc Hm; simpl in *.
  - destruct (0 <=? ctx) eqn:E1, (0 <=? meta) eqn:E2; try reflexivity;
      try (apply Z.leb_gt in E1); try (apply Z.leb_gt in E2);
      rewrite ?Hmt by lia; repeat f_equal; lia.
  - assert (Ei : (0 <=? i) = true) by (apply Z.leb_le; lia).
    destruct (isContext (typeMethods a)); simpl in *.
    + destruct (0 <=? ctx) eqn:E1; [lia|].
      rewrite IH; try lia; rewrite ?Ei; simpl; try lia; auto.
    + destruct (0 <=? meta) eqn:E2; [lia|].
      rewrite IH; try lia; rewrite ?Ei; simpl; try lia; auto.
Qed.

Lemma classifyOut_fail outs : forall i err resp,
  0 <= i ->
  (2 <= seen err + countIf isErrorType outs)%nat
  \/ (2 <= seen resp + countIf isResponseType outs)%nat ->
  exists e, classifyOut i outs err resp = Err e.
Proof.
  unfold countIf, isErrorType, isResponseType, seen.
  induction outs as [|a rest IH]; intros i err resp Hi H; simpl in *.
  - destruct (0 <=? err), (0 <=? resp); simpl in H; lia.
  - destruct (isError (typeMethods a)); simpl in *.
    + destruct (0 <=? err) eqn:Hc; [eauto|].
      apply IH; [lia|]. replace (0 <=? i) with true by (symmetry; apply Z.leb_le; lia).
      simpl in *. lia.
    + destruct (0 <=? resp) eqn:Hm; [eauto|].
      apply IH; [lia|]. replace (0 <=? i) with true by (symmetry; apply Z.leb_le; lia).
      simpl in *. lia.
Qed.

Lemma classifyOut_ok outs : forall i err resp,
  0 <= i -> -1 <= err -> -1 <= resp ->
  (seen err + countIf isErrorType outs <= 1)%nat ->
  (seen resp + countIf isResponseType outs <= 1)%nat ->
  classifyOut i outs err resp
  = Ok (if 0 <=? err then err else indexOf isErrorType outs i,
        if 0 <=? resp then resp else indexOf isResponseType outs i).
Proof.
  unfold countIf, isErrorType, isResponseType, seen.
  induction outs as [|a rest IH]; intros i err resp Hi Hc1 Hm1 Hc Hm; simpl in *.
  - destruct (0 <=? err) eqn:E1, (0 <=? resp) eqn:E2; try reflexivity;
      try (apply Z.leb_gt in E1); try (apply Z.leb_gt in E2);
      repeat f_equal; lia.
  - assert (Ei : (0 <=? i) = true) by (apply Z.leb_le; lia).
    destruct (isError (typeMethods a)); simpl in *.
    + destruct (0 <=? err) eqn:E1; [lia|].
      rewrite IH; try lia; rewrite ?Ei; simpl; try lia; auto.
    + destruct (0 <=? resp) eqn:E2; [lia|].
      rewrite IH; try lia; rewrite ?Ei; simpl; try lia; auto.
Qed.

(** A factory that keeps the slots is followed by a walker that does. *)
Lemma handleField_slots registry :
  keepsSlots registry ->
  forall field info, slots (fst (handleField registry info field)) = slots info.
Proof.
  intros Hk field.
  induction field as [name anonymous tag s k m e fields i o IH]
    using StructField_nested_ind.
  intros info. simpl. destruct anonymous.
  - destruct k; try reflexivity.
    revert info. induction IH as [|f rest Hf _ IHrest]; intros info; [reflexivity|].
    specialize (Hf info).
    destruct (handleField registry info f) as [info' [[]|err|why]]; simpl in *.
    + rewrite IHrest. exact Hf.
    + exact Hf.
    + exact Hf.
  - destruct (String.eqb (tagGet tag "api") EmptyString); [reflexivity|].
    destruct (SplitN2 ":" (tagGet tag "api")) as [apiTagKey after].
    destruct (String.eqb apiTagKey "-"); [reflexivity|].
    destruct (registry !! apiTagKey) as [[rf|]|] eqn:Hr; try reflexivity.
    specialize (Hk _ _ Hr (match after with Some x => x | None => EmptyString end)
                  (mkStructField name false tag (mkType s k m e fields i o)) info).
    destruct (rf _ _ info) as [info' [[b|]|err]]; simpl in *; exact Hk.
Qed.

Lemma parseFields_slots registry :
  keepsSlots registry ->
  forall fields info info',
    parseFields registry info fields = Done info' -> slots info' = slots info.
Proof.
  intros Hk fields.
  induction fields as [|f rest IH]; intros info info'; simpl.
  - intros [= <-]. reflexivity.
  - pose proof (handleField_slots registry Hk f info) as Hf.
    destruct (handleField registry info f) as [info1 [[]|err|why]]; simpl in *;
      try discriminate.
    intros H. apply IH in H. rewrite H. exact Hf.
Qed.

Lemma indexOf_find {A} (p : A -> bool) (d : A) l : forall i,
  0 <= i ->
  match List.find p l with
  | Some t => i <= indexOf p l i /\ nth (Z.to_nat (indexOf p l i - i)) l d = t
  | None => indexOf p l i = -1
  end.
Proof.
  induction l as [|x rest IH]; intros i Hi; simpl; [reflexivity|].
  destruct (p x).
  - split; [lia|]. replace (i - i) with 0 by lia. reflexivity.
  - specialize (IH (i + 1) ltac:(lia)).
    destruct (List.find p rest) as [t|]; [|exact IH].
    destruct IH as [Hle Hnth]. split; [lia|].
    replace (Z.to_nat (indexOf p rest (i + 1) - i))
      with (S (Z.to_nat (indexOf p rest (i + 1) - (i + 1)))) by lia.
    exact Hnth.
Qed.

(** With at most one of each sort, the analyser reaches the walk with the
    info [slotsInfo], or returns it when there is no metadata parameter. *)
Lemma ParseRestfulFunction_classified registry (f : FuncValue) :
  typeKind (fnType f) = KFunc -> atMostOneOfEach (fnType f) ->
  ParseRestfulFunction registry (Some f)
  = match List.find isMetadataType (typeIn (fnType f)) with
    | None => Done (slotsInfo f)
    | Some t =>
        match typeKind (metadataStruct t) with
        | KStruct => parseFields registry (slotsInfo f) (typeFields (metadataStruct t))
        | k => Fail (errorf ("unexpected input type: " ++ kindString k))
        end
    end.
Proof.
  intros Hk (Hc & Hm & He & Hr).
  unfold ParseRestfulFunction. rewrite Hk.
  rewrite classifyIn_ok by (simpl; try lia; auto).
  rewrite classifyOut_ok by (simpl; lia).
  cbn [Z.leb Z.compare].
  assert (Hinfo :
    (let info := setOutPositions (indexOf isErrorType (typeOut (fnType f)) 0)
                   (indexOf isResponseType (typeOut (fnType f)) 0)
                   (setInPositions (indexOf isContextType (typeIn (fnType f)) 0)
                      (indexOf isMetadataType (typeIn (fnType f)) 0)
                      (List.find isMetadataType (typeIn (fnType f))) (newInfo f)) in
     if 0 <=? OutResponsePosition info
     then setResponseExample
            (Some (pointerTo (typeAt (typeOut (fnType f)) (OutResponsePosition info)),
                   VPtr (zeroValue (typeAt (typeOut (fnType f)) (OutResponsePosition info)))))
            info
     else info) = slotsInfo f).
  { unfold slotsInfo. cbn.
    destruct (0 <=? indexOf isResponseType (typeOut (fnType f)) 0); reflexivity. }
  cbv zeta in Hinfo. rewrite Hinfo. clear Hinfo.
  pose proof (indexOf_find isMetadataType (basicType KInvalid) (typeIn (fnType f)) 0
                ltac:(lia)) as Hf.
  assert (HP : InMetadataPosition (slotsInfo f)
               = indexOf isMetadataType (typeIn (fnType f)) 0) by reflexivity.
  rewrite HP. clear HP. generalize (slotsInfo f) as info. intros info.
  destruct (List.find isMetadataType (typeIn (fnType f))) as [t|].
  - destruct Hf as [Hle Hnth].
    replace (0 <=? indexOf isMetadataType (typeIn (fnType f)) 0) with true
      by (symmetry; apply Z.leb_le; exact Hle).
    unfold typeAt. rewrite Z.sub_0_r in Hnth. rewrite Hnth.
    fold (metadataStruct t). reflexivity.
  - rewrite Hf. reflexivity.
Qed.

(** C1, as the code has it: a function with two parameters that satisfy
    [context.Context], two that do not, two results that satisfy [error], or
    two that do not, fails analysis; and a function with at most one of each,
    whose metadata parameter (if any) is a struct or a pointer to a struct
    all of whose fields the walker handles, is analysed successfully, each
    recorded position being the index of its slot in the signature and [-1]
    for an absent slot.  (The factories of the registry are assumed not to
    write the positions, as holds of the built-in ones.) *)
Theorem ParseRestfulFunction_slots (registry : Registry) (f : FuncValue) :
  keepsSlots registry ->
  (twoOfSomeSort (fnType f) ->
     exists e, ParseRestfulFunction registry (Some f) = Fail e)
  /\ (typeKind (fnType f) = KFunc -> atMostOneOfEach (fnType f) ->
      metadataAccepted registry f ->
      exists info, ParseRestfulFunction registry (Some f) = Done info
                   /\ slots info = slotIndexes (fnType f)).
Proof.
  intros Hkeep. split.
  - intros Htwo. unfold ParseRestfulFunction.
    destruct (typeKind (fnType f)); eauto.
    destruct Htwo as [H|[H|[H|H]]].
    + destruct (classifyIn_fail (typeIn (fnType f)) 0 (-1) (-1) None ltac:(lia)
                  ltac:(left; exact H)) as [e ->]. eauto.
    + destruct (classifyIn_fail (typeIn (fnType f)) 0 (-1) (-1) None ltac:(lia)
                  ltac:(right; exact H)) as [e ->]. eauto.
    + destruct (classifyIn _ _ _ _ _) as [[[ctx meta] mt]|e]; [|eauto].
      destruct (classifyOut_fail (typeOut (fnType f)) 0 (-1) (-1) ltac:(lia)
                  ltac:(left; exact H)) as [e ->]. eauto.
    + destruct (classifyIn _ _ _ _ _) as [[[ctx meta] mt]|e]; [|eauto].
      destruct (classifyOut_fail (typeOut (fnType f)) 0 (-1) (-1) ltac:(lia)
                  ltac:(right; exact H)) as [e ->]. eauto.
  - intros Hk Hone Hacc.
    rewrite (ParseRestfulFunction_classified registry f Hk Hone).
    unfold metadataAccepted in Hacc.
    destruct (List.find isMetadataType (typeIn (fnType f))) as [t|].
    + destruct Hacc as [Hs [info Hinfo]]. rewrite Hs. exists info. split; [exact Hinfo|].
      rewrite (parseFields_slots registry Hkeep _ _ _ Hinfo). reflexivity.
    + exists (slotsInfo f). split; reflexivity.
Qed.

(* ===================================================================== *)
(** * The built-in registry *)
(* ===================================================================== *)

Lemma registeredFunctionMap_unfold :
  registeredFunctionMap
  = <["restfulrequest" := Some restfulrequestFactory]>
      (<["query" := Some queryFactory]>
      (<["produces" := Some producesFactory]>
      (<["path" := Some pathFactory]>
      (<["notes" := Some notesFactory]>
      (<["httprequest" := Some httprequestFactory]>
      (<["httppath" := Some httppathFactory]>
      (<["httpmethod" := Some httpmethodFactory]>
      (<["header" := Some headerFactory]>
      (<["doc" := Some docFactory]>
      (<["body" := Some bodyFactory]> ∅)))))))))).
Proof.
  unfold registeredFunctionMap, initSteps, registerAll.
  repeat (rewrite Register_fresh;
          [|repeat (rewrite lookup_insert_ne by discriminate); apply lookup_empty]).
  reflexivity.
Qed.

(** [init] completes: none of its registrations panics. *)
Lemma init_completes : snd (registerAll initSteps ∅) = Done tt.
Proof.
  unfold initSteps, registerAll.
  repeat (rewrite Register_fresh;
          [|repeat (rewrite lookup_insert_ne by discriminate); apply lookup_empty]).
  reflexivity.
Qed.

(** The factories of the registry are the eleven of [init]. *)
Lemma registered_builtin k (rf : RegisterFunction) :
  registeredFunctionMap !! k = Some (Some rf) -> In (k, Some rf) initSteps.
Proof.
  rewrite registeredFunctionMap_unfold. unfold initSteps.
  repeat (rewrite lookup_insert_Some;
          intros [[<- [= <-]]|[_ H]]; [simpl; tauto | revert H]).
  rewrite lookup_empty. discriminate.
Qed.

Lemma builtin_keepsSlots : keepsSlots registeredFunctionMap.
Proof.
  intros k rf H v field info. apply registered_builtin in H.
  unfold initSteps in H. simpl in H.
  repeat (destruct H as [[= <- <-]|H]); [..|contradiction].
  - unfold bodyFactory.
    destruct (if String.eqb v EmptyString then _ else _) as [[consumes allowEmpty]|err];
      [|reflexivity].
    destruct allowEmpty; simpl; split_branches; reflexivity.
  - unfold docFactory, stringKindOr. split_branches; reflexivity.
  - unfold headerFactory. split_branches; reflexivity.
  - unfold httpmethodFactory, stringKindOr. split_branches; reflexivity.
  - unfold httppathFactory, stringKindOr. split_branches; reflexivity.
  - unfold httprequestFactory. split_branches; reflexivity.
  - unfold notesFactory, stringKindOr. split_branches; reflexivity.
  - unfold pathFactory. split_branches; reflexivity.
  - unfold producesFactory. split_branches; reflexivity.
  - unfold queryFactory. split_branches; reflexivity.
  - unfold restfulrequestFactory. split_branches; reflexivity.
Qed.

(* ===================================================================== *)
(** * Embedded fields *)
(* ===================================================================== *)

(** On an embedded struct the walker runs its loop over the fields of the
    struct. *)
Lemma handleField_anonymous registry info name tag s m e fields i o :
  handleField registry info
    (mkStructField name true tag (mkType s KStruct m e fields i o))
  = handleFields registry info fields.
Proof.
  simpl. revert info.
  induction fields as [|f rest IH]; intros info; [reflexivity|].
  simpl. destruct (handleField registry info f) as [info' [[]|err|why]];
    [apply IH | reflexivity | reflexivity].
Qed.

Lemma handleFields_app registry a : forall info b,
  handleFields registry info (a ++ b)%list
  = match handleFields registry info a with
    | (info', Done _) => handleFields registry info' b
    | other => other
    end.
Proof.
  induction a as [|f rest IH]; intros info b; simpl; [reflexivity|].
  destruct (handleField registry info f) as [info' [[]|err|why]];
    [apply IH | reflexivity | reflexivity].
Qed.

(** The analyser's loop over fields that the walker's loop handles. *)
Lemma parseFields_through registry fields : forall info post,
  match handleFields registry info fields with
  | (info', Done _) =>
      parseFields registry info (fields ++ post)%list = parseFields registry info' post
  | (_, Fail err) =>
      exists text, parseFields registry info (fields ++ post)%list
                   = Fail (errorfW text err)
  | (_, Panic why) => parseFields registry info (fields ++ post)%list = Panic why
  end.
Proof.
  induction fields as [|f rest IH]; intros info post; simpl; [reflexivity|].
  destruct (handleField registry info f) as [info' [[]|err|why]]; eauto.
  apply IH.
Qed.

Lemma parseFields_sameWalk_prefix registry pre : forall info x y,
  (forall info', sameWalk (parseFields registry info' x) (parseFields registry info' y)) ->
  sameWalk (parseFields registry info (pre ++ x)%list)
           (parseFields registry info (pre ++ y)%list).
Proof.
  induction pre as [|f rest IH]; intros info x y H; simpl; [apply H|].
  destruct (handleField registry info f) as [info' [[]|err|why]]; simpl.
  - apply IH, H.
  - eauto.
  - reflexivity.
Qed.

Lemma sameWalk_same a : (forall e, a <> Fail e) \/ (exists t inner, a = Fail (errorfW t inner)) ->
  sameWalk a a.
Proof.
  destruct a as [x|x|x]; simpl; auto.
  intros [H|(t & inner & [= ->])]; [destruct (H x); reflexivity | eauto].
Qed.

Lemma parseFields_fail_shape registry fields : forall info e,
  parseFields registry info fields = Fail e -> exists t inner, e = errorfW t inner.
Proof.
  induction fields as [|f rest IH]; intros info e; simpl; [discriminate|].
  destruct (handleField registry info f) as [info' [[]|err|why]].
  - apply IH.
  - intros [= <-]. eauto.
  - discriminate.
Qed.

Lemma handleFields_cons registry info f rest :
  handleFields registry info (f :: rest)
  = match handleField registry info f with
    | (info', Done _) => handleFields registry info' rest
    | other => other
    end.
Proof. reflexivity. Qed.

Lemma parseFields_cons registry info f rest :
  parseFields registry info (f :: rest)
  = match handleField registry info f with
    | (info', Done _) => parseFields registry info' rest
    | (_, Fail err) =>
        Fail (errorfW ("could not handle field " ++ Quote P (fieldName f)
                       ++ ": " ++ errorText err) err)
    | (_, Panic why) => Panic why
    end.
Proof. reflexivity. Qed.

(** C2: walking a struct that embeds a struct [E] gives exactly what walking
    the struct with the fields of [E] declared in place of the embedded field
    gives.  The walker's loop ends in the same state: the same info (hence
    the same binders in the same order, the same path, query and header
    parameters and the same route data) and the same outcome.  The loop of
    [ParseRestfulFunction] returns the same info, or fails in both cases on
    the same error of the walker, or panics alike. *)
Theorem embedded_struct_walks_as_its_fields
    (registry : Registry) (info : RestfulFunctionInfo)
    (pre post efields : list StructField)
    (name s : string) (tag : list (string * string)) (m : Methods)
    (e : option GoType) (i o : list GoType) :
  let E := mkType s KStruct m e efields i o in
  let embeddedField := mkStructField name true tag E in
  handleFields registry info (pre ++ embeddedField :: post)%list
  = handleFields registry info (pre ++ efields ++ post)%list
  /\ sameWalk (parseFields registry info (pre ++ embeddedField :: post)%list)
              (parseFields registry info (pre ++ efields ++ post)%list).
Proof.
  intros E embeddedField. split.
  - rewrite !handleFields_app. destruct (handleFields registry info pre) as [info1 [[]|err|why]];
      try reflexivity.
    rewrite handleFields_cons. unfold embeddedField, E. rewrite handleField_anonymous.
    rewrite handleFields_app. reflexivity.
  - apply parseFields_sameWalk_prefix. intros info'.
    rewrite parseFields_cons. unfold embeddedField, E. rewrite handleField_anonymous.
    pose proof (parseFields_through registry efields info' post) as H.
    destruct (handleFields registry info' efields) as [info2 [[]|err|why]].
    + rewrite H. apply sameWalk_same.
      destruct (parseFields registry info2 post) as [x|x|x] eqn:Hp.
      * left. discriminate.
      * right. apply parseFields_fail_shape in Hp as (t & inner & ->). eauto.
      * left. discriminate.
    + destruct H as [text ->]. simpl. eauto.
    + rewrite H. reflexivity.
Qed.

(* ===================================================================== *)
(** * The query directive *)
(* ===================================================================== *)

(** The binder the query factory returns is the closure over the trimmed
    names of the tag value. *)
Lemma queryFactory_binder apiTagValue field info binder :
  snd (queryFactory apiTagValue field info) = Ok (Some binder) ->
  binder = queryBinder (List.map TrimSpace (Split "," apiTagValue)) field.
Proof.
  unfold queryFactory.
  destruct (String.eqb apiTagValue EmptyString); [discriminate|].
  destruct (firstDuplicate _ _); [discriminate|].
  simpl. intros [= <-]. reflexivity.
Qed.

(** The binder, once the name and the texts have been chosen. *)
Lemma queryBinder_chosen names field ar v req metadataValue :
  queryBinder names field ar v req metadataValue
  = let (name, found) := firstPresent req names in
    bindValues name
      match found with
      | [] =>
          match tagLookup (fieldTag field) "default" with
          | Some defaultValue => [defaultValue]
          | None => found
          end
      | _ => found
      end v.
Proof.
  unfold queryBinder, bindValues.
  destruct (firstPresent req names) as [name found]. reflexivity.
Qed.

(** On a field that can be set and is neither a slice nor a pointer, parsing
    a query value is the value parser on a pointer to the field. *)
Lemma parseQueryValue_settable name text v :
  CanSet v = true ->
  typeKind (valueType v) <> KSlice -> typeKind (valueType v) <> KPointer ->
  parseQueryValue name text v
  = match parseStringToSingleValue text (pointerTarget (valueType v) (valueData v)) with
    | Ok d => Done d
    | Err err => Fail (NewAPIQueryParameterError name err)
    end.
Proof.
  intros Hset Hs Hp. unfold CanSet in Hset. apply andb_true_iff in Hset as [Hvalid Hexp].
  unfold parseQueryValue, parseInto, addrInterface, valueKind, pointerTarget.
  rewrite Hvalid, Hexp. cbn [negb].
  remember (parseStringToSingleValue text
              (Some (pointerTo (valueType v), VPtr (valueData v)))) as r eqn:Hr.
  clear Hr.
  destruct (typeKind (valueType v)); try contradiction; destruct r; reflexivity.
Qed.

(** C3: for a field declared with [query:key1,oldKey], on every request:
    when [key1] has a value the binder parses the first value of [key1] into
    the field (every value of [key1] for a slice-typed field), whatever
    [oldKey] holds; when only [oldKey] has a value it parses the first value
    of [oldKey]; when neither has a value and the tag declares a default it
    parses the default.  On a field that can be set and is neither a slice
    nor a pointer, parsing is the value parser on a pointer to the field, an
    error being reported for the winning name. *)
Theorem query_binder_first_name_then_alias_then_default
    (field : StructField) (info : RestfulFunctionInfo) (binder : InputFieldFunction)
    (ar : InfoAtRequest) (v : Value) (req : Request) (metadataValue : GoValue) :
  snd (queryFactory "key1,oldKey" field info) = Ok (Some binder) ->
  ((forall x xs, reqQueryParameters req "key1" = x :: xs ->
      binder ar v req metadataValue = bindValues "key1" (x :: xs) v)
   /\ (forall y ys, reqQueryParameters req "key1" = [] ->
         reqQueryParameters req "oldKey" = y :: ys ->
         binder ar v req metadataValue = bindValues "oldKey" (y :: ys) v)
   /\ (forall d, reqQueryParameters req "key1" = [] ->
         reqQueryParameters req "oldKey" = [] ->
         tagLookup (fieldTag field) "default" = Some d ->
         binder ar v req metadataValue = bindValues EmptyString [d] v))
  /\ (CanSet v = true ->
      typeKind (valueType v) <> KSlice -> typeKind (valueType v) <> KPointer ->
      forall name text rest,
        bindValues name (text :: rest) v
        = match parseStringToSingleValue text
                  (pointerTarget (valueType v) (valueData v)) with
          | Ok d => Done d
          | Err err => Fail (NewAPIQueryParameterError name err)
          end).
Proof.
  intros Hf. apply queryFactory_binder in Hf.
  change (List.map TrimSpace (Split "," "key1,oldKey")) with ["key1"; "oldKey"] in Hf.
  subst binder. rewrite queryBinder_chosen.
  unfold firstPresent. split; [repeat split|].
  - intros x xs ->. reflexivity.
  - intros y ys -> ->. reflexivity.
  - intros d -> -> ->. reflexivity.
  - intros Hset Hs Hp name text rest.
    unfold bindValues, valueKind.
    assert (Hvalid : valueValid v = true)
      by (unfold CanSet in Hset; apply andb_true_iff in Hset as [H _]; exact H).
    rewrite Hvalid.
    rewrite <- (parseQueryValue_settable name text v Hset Hs Hp).
    destruct (typeKind (valueType v)); try reflexivity. contradiction.
Qed.

Lemma firstPresent_none req names :
  (forall n, In n names -> reqQueryParameters req n = []) ->
  firstPresent req names = (EmptyString, []).
Proof.
  induction names as [|n rest IH]; intros H; simpl; [reflexivity|].
  rewrite (H n) by (left; reflexivity). apply IH.
  intros n' Hn'. apply H. right. exact Hn'.
Qed.

(** C10: for a field that is not a slice and is declared with a query
    directive, when no declared name has a value in the request and the tag
    declares no default, the binder returns no error and the field holds
    afterwards the data it held before: the zero value in the freshly
    allocated struct. *)
Theorem query_binder_missing_parameter_is_no_error
    (apiTagValue : string) (field : StructField) (info : RestfulFunctionInfo)
    (binder : InputFieldFunction)
    (ar : InfoAtRequest) (v : Value) (req : Request) (metadataValue : GoValue) :
  snd (queryFactory apiTagValue field info) = Ok (Some binder) ->
  valueKind v <> KSlice ->
  (forall n, In n (List.map TrimSpace (Split "," apiTagValue)) ->
     reqQueryParameters req n = []) ->
  tagLookup (fieldTag field) "default" = None ->
  binder ar v req metadataValue = Done (valueData v)
  /\ (valueData v = zeroValue (valueType v) ->
      binder ar v req metadataValue = Done (zeroValue (valueType v))).
Proof.
  intros Hf Hk Hnone Hdef. apply queryFactory_binder in Hf. subst binder.
  assert (H : queryBinder (List.map TrimSpace (Split "," apiTagValue)) field ar v req
                metadataValue = Done (valueData v)).
  { unfold queryBinder. rewrite (firstPresent_none _ _ Hnone), Hdef.
    destruct (valueKind v); try reflexivity. contradiction. }
  split; [exact H|]. intros <-. exact H.
Qed.

(* ===================================================================== *)
(** * The dispatcher *)
(* ===================================================================== *)

Lemma bindFields_app info req t pre : forall rest inputValue events,
  bindFields info req t (pre ++ rest)%list inputValue events
  = match bindFields info req t pre inputValue events with
    | (events', Done inputValue') => bindFields info req t rest inputValue' events'
    | other => other
    end.
Proof.
  induction pre as [|f pre' IH]; intros rest inputValue events; simpl; [reflexivity|].
  destruct (FieldByName t inputValue (Name f)) as [[index fieldValue]|err|why];
    try reflexivity.
  destruct (Function f (atRequest info) fieldValue req inputValue) as [d|err|why];
    try reflexivity.
  apply IH.
Qed.

(** When every binder of a list succeeds, each has run once, in order. *)
Lemma bindFields_done_events info req t fields : forall inputValue events events' inputValue',
  bindFields info req t fields inputValue events = (events', Done inputValue') ->
  events' = (events ++ List.map Bound (List.map Name fields))%list.
Proof.
  induction fields as [|f rest IH]; intros inputValue events events' inputValue'; simpl.
  - intros [= <- _]. rewrite app_nil_r. reflexivity.
  - destruct (FieldByName t inputValue (Name f)) as [[index fieldValue]|err|why];
      try discriminate.
    destruct (Function f (atRequest info) fieldValue req inputValue) as [d|err|why];
      try discriminate.
    intros H. apply IH in H. rewrite H, <- app_assoc. reflexivity.
Qed.

Lemma no_call_among_bound names :
  existsb isCalled (List.map Bound names) = false.
Proof. induction names; simpl; auto. Qed.

Lemma FieldByName_struct t inputValue name r :
  FieldByName t inputValue name = Done r -> typeKind t = KStruct.
Proof.
  unfold FieldByName. destruct (typeKind t); try discriminate. reflexivity.
Qed.

(** The binding phase when the binder after [pre] fails. *)
Lemma prepareArguments_binder_fails info req pre failing post events inputValue
    index fieldValue err :
  0 <= InMetadataPosition info ->
  InputFields info = (pre ++ failing :: post)%list ->
  let t := typeAt (typeIn (fnType (FunctionValue info))) (InMetadataPosition info) in
  bindFields info req t pre (zeroValue t) [] = (events, Done inputValue) ->
  FieldByName t inputValue (Name failing) = Done (index, fieldValue) ->
  Function failing (atRequest info) fieldValue req inputValue = Fail err ->
  prepareArguments info req = ((events ++ [Bound (Name failing)])%list, Fail err).
Proof.
  intros Hpos Hfields t Hpre Hfield Hfail.
  pose proof (FieldByName_struct _ _ _ _ Hfield) as Hk. subst t.
  unfold prepareArguments.
  replace (0 <=? InMetadataPosition info) with true by (symmetry; apply Z.leb_le; exact Hpos).
  cbv zeta. rewrite Hk. cbv iota. rewrite Hk.
  rewrite Hfields, bindFields_app, Hpre. simpl.
  rewrite Hfield, Hfail. reflexivity.
Qed.

(** C6: when the binders before some binder of the route all succeed on the
    request and that binder returns an error, the function returns that
    error with the response untouched; the binders before it and the binder
    itself have run, each once and in order, and no later one; the handler
    is not called; and the error is the one written to the response. *)
Theorem binder_error_stops_binding_and_is_rendered
    (info : RestfulFunctionInfo) (errorHandler : option ErrorHandler) (req : Request)
    (pre post : list InputField) (failing : InputField)
    (events : list Event) (inputValue : GoValue)
    (index : list nat) (fieldValue : Value) (err : GoError) :
  0 <= InMetadataPosition info ->
  InputFields info = (pre ++ failing :: post)%list ->
  let t := typeAt (typeIn (fnType (FunctionValue info))) (InMetadataPosition info) in
  bindFields info req t pre (zeroValue t) [] = (events, Done inputValue) ->
  FieldByName t inputValue (Name failing) = Done (index, fieldValue) ->
  Function failing (atRequest info) fieldValue req inputValue = Fail err ->
  functionWithError info errorHandler req []
  = mkDispatch [] (List.map Bound (List.map Name (pre ++ [failing])))%list (Fail err)
  /\ existsb isCalled (trace (dispatch info errorHandler req)) = false
  /\ trace (dispatch info errorHandler req)
     = List.map Bound (List.map Name (pre ++ [failing]))%list
  /\ response (dispatch info errorHandler req) = renderError err [].
Proof.
  intros Hpos Hfields t Hpre Hfield Hfail.
  pose proof (prepareArguments_binder_fails info req pre failing post events inputValue
                index fieldValue err Hpos Hfields Hpre Hfield Hfail) as Hprep.
  apply bindFields_done_events in Hpre. simpl in Hpre. subst events.
  assert (Hrun : functionWithError info errorHandler req []
                 = mkDispatch [] (List.map Bound (List.map Name (pre ++ [failing])))%list
                     (Fail err)).
  { unfold functionWithError. rewrite Hprep. rewrite !List.map_app. reflexivity. }
  split; [exact Hrun|].
  unfold dispatch, restfulFunctionWrapper. rewrite Hrun. simpl returned. cbv iota.
  unfold renderError.
  destruct (asErrorWriter err); simpl; rewrite no_call_among_bound; auto.
Qed.

(** C7, as the code has it: when binding succeeds and the handler returns,
    in its response slot, a value that implements [Writer], and no error,
    the dispatcher hands the response to the value's [Write] and does nothing
    else to it: the response is exactly what [Write] made of the empty
    response, no status-200 write of the value is added, and nil is
    returned. *)
Theorem writer_result_renders_itself
    (info : RestfulFunctionInfo) (errorHandler : option ErrorHandler) (req : Request)
    (events : list Event) (methodArguments : list (option GoValue))
    (arguments : list GoValue) (v : GoValue) (Write : Response -> Response) :
  prepareArguments info req = (events, Done methodArguments) ->
  callArguments methodArguments = Some arguments ->
  let methodResults := fnCall (FunctionValue info) arguments in
  length methodResults = length (typeOut (fnType (FunctionValue info))) ->
  0 <= OutResponsePosition info ->
  nth (Z.to_nat (OutResponsePosition info)) methodResults RNil = RWriter v Write ->
  (OutErrorPosition info < 0
   \/ forall e, nth (Z.to_nat (OutErrorPosition info)) methodResults RNil <> RError e) ->
  dispatch info errorHandler req
  = mkDispatch (Write []) (events ++ [Called arguments])%list (Done tt).
Proof.
  intros Hprep Hcall methodResults Hlen Hpos Hout Hnoerr.
  unfold dispatch, restfulFunctionWrapper, functionWithError.
  rewrite Hprep, Hcall. fold methodResults.
  assert (Hrender : renderResults info errorHandler methodResults []
                    = (Write [], Done tt)).
  { unfold renderResults. rewrite Hlen, Nat.eqb_refl. simpl negb. cbv iota.
    assert (Herr : (if 0 <=? OutErrorPosition info
                    then match nth (Z.to_nat (OutErrorPosition info)) methodResults RNil with
                         | RError e => Some e
                         | _ => None
                         end
                    else None) = None).
    { destruct Hnoerr as [Hneg|Hnone].
      - replace (0 <=? OutErrorPosition info) with false
          by (symmetry; apply Z.leb_gt; exact Hneg). reflexivity.
      - destruct (0 <=? OutErrorPosition info); [|reflexivity].
        destruct (nth (Z.to_nat (OutErrorPosition info)) methodResults RNil)
          as [|x|x w|e] eqn:E; try reflexivity.
        destruct (Hnone e). reflexivity. }
    rewrite Herr.
    replace (0 <=? OutResponsePosition info) with true
      by (symmetry; apply Z.leb_le; exact Hpos).
    rewrite Hout. reflexivity. }
  rewrite Hrender. reflexivity.
Qed.

Lemma ParseInt_error_shape s bits e :
  strconv.ParseInt s bits = Err e -> Func e = "ParseInt" /\ Num e = s.
Proof.
  unfold strconv.ParseInt. destruct s as [|c rest]; [intros [= <-]; auto|].
  destruct (strconv.ParseUint _ bits) as [un|e'].
  - destruct (_ && _)%bool; [intros [= <-]; auto|].
    destruct (_ && _)%bool; [intros [= <-]; auto | discriminate].
  - destruct (NumErr e'); [intros [= <-]; auto|].
    destruct (_ && _)%bool; [intros [= <-]; auto|].
    destruct (_ && _)%bool; [intros [= <-]; auto | discriminate].
Qed.

Lemma ParseUint_error_shape s bits e :
  strconv.ParseUint s bits = Err e -> Func e = "ParseUint" /\ Num e = s.
Proof.
  intros H. apply ParseUint_error_kind in H as [->| ->]; auto.
Qed.

(** An integer field rejects a text that denotes no value of its kind with
    the error of [strconv.ParseInt] or [strconv.ParseUint] on that text. *)
Lemma parse_integer_rejects t old s :
  IntSize P = 32 \/ IntSize P = 64 ->
  parameterParser (typeMethods t) = None ->
  (isSignedKind (typeKind t) || isUnsignedKind (typeKind t))%bool = true ->
  denotes (typeKind t) s = None ->
  exists e, parseStringToSingleValue s (pointerTarget t old) = Err (ENum e)
            /\ Func e = (if isSignedKind (typeKind t) then "ParseInt" else "ParseUint")
            /\ Num e = s.
Proof.
  intros HP Hp Hint Hden.
  assert (Hfl : isFloatKind (typeKind t) = false)
    by (destruct (typeKind t); try discriminate; reflexivity).
  pose proof (parse_denotes t old s HP Hp Hfl) as H. rewrite Hden in H.
  destruct (isSignedKind (typeKind t)) eqn:Hs.
  - rewrite parse_signed in * by assumption.
    destruct (strconv.ParseInt s (kindBits (typeKind t))) as [i|e] eqn:E; [discriminate|].
    exists e. split; [reflexivity|]. eapply ParseInt_error_shape. exact E.
  - simpl in Hint. rewrite parse_unsigned in * by assumption.
    destruct (strconv.ParseUint s (kindBits (typeKind t))) as [i|e] eqn:E; [discriminate|].
    exists e. split; [reflexivity|]. eapply ParseUint_error_shape. exact E.
Qed.

(** C4, as the code has it: on a route whose binders before the binder of
    a [path:id] directive all succeed on the request, the directive being on
    an exported field of a built-in integer type, a path value for [id] that
    denotes no integer of that type (such as "bogus") makes the dispatch
    write exactly one response: status 400 with the body of an
    [APIPathParameterError], whose parameter is "id" and whose message is the
    text of the [strconv] parse error for that value; the handler is not
    called. *)
Theorem path_parse_failure_is_bad_request
    (info : RestfulFunctionInfo) (errorHandler : option ErrorHandler) (req : Request)
    (pre post : list InputField) (field : string)
    (events : list Event) (inputValue : GoValue)
    (index : list nat) (fieldValue : Value) :
  IntSize P = 32 \/ IntSize P = 64 ->
  0 <= InMetadataPosition info ->
  InputFields info = (pre ++ mkInputField field (pathBinder "id") :: post)%list ->
  let t := typeAt (typeIn (fnType (FunctionValue info))) (InMetadataPosition info) in
  bindFields info req t pre (zeroValue t) [] = (events, Done inputValue) ->
  FieldByName t inputValue field = Done (index, fieldValue) ->
  valueValid fieldValue = true -> valueExported fieldValue = true ->
  parameterParser (typeMethods (valueType fieldValue)) = None ->
  (isSignedKind (typeKind (valueType fieldValue))
   || isUnsignedKind (typeKind (valueType fieldValue)))%bool = true ->
  denotes (typeKind (valueType fieldValue)) (reqPathParameter req "id") = None ->
  exists e,
    Func e = (if isSignedKind (typeKind (valueType fieldValue))
              then "ParseInt" else "ParseUint")
    /\ Num e = reqPathParameter req "id"
    /\ response (dispatch info errorHandler req)
       = [WriteHeaderAndEntity 400
            (EntParameterErrorOutput "*restfulwrapper.APIPathParameterError"
               (numErrorText e) "id")]
    /\ existsb isCalled (trace (dispatch info errorHandler req)) = false
    /\ returned (dispatch info errorHandler req) = Done tt.
Proof.
  intros HP Hpos Hfields t Hpre Hfield Hvalid Hexp Hparser Hint Hden.
  destruct (parse_integer_rejects (valueType fieldValue) (valueData fieldValue)
              (reqPathParameter req "id") HP Hparser Hint Hden) as (e & Hparse & Hfn & Hnum).
  exists e. split; [exact Hfn|]. split; [exact Hnum|].
  assert (Hfail : Function (mkInputField field (pathBinder "id")) (atRequest info)
                    fieldValue req inputValue
                  = Fail (NewAPIPathParameterError "id" (ENum e))).
  { cbn [Function]. unfold pathBinder, addrInterface. rewrite Hvalid, Hexp.
    cbn [negb]. cbv beta iota zeta.
    unfold pointerTarget in Hparse. rewrite Hparse. reflexivity. }
  pose proof (prepareArguments_binder_fails info req pre _ post events inputValue
                index fieldValue _ Hpos Hfields Hpre Hfield Hfail) as Hprep.
  apply bindFields_done_events in Hpre. simpl in Hpre. subst events.
  unfold dispatch, restfulFunctionWrapper, functionWithError. rewrite Hprep.
  simpl. rewrite existsb_app, no_call_among_bound. auto.
Qed.

(* ===================================================================== *)
(** * Uniqueness of the registered external names *)
(* ===================================================================== *)

(** A property of the info that every factory of the registry preserves is
    preserved by the walker. *)
Lemma handleField_invariant registry (I : RestfulFunctionInfo -> Prop) :
  (forall k (rf : RegisterFunction), registry !! k = Some (Some rf) ->
     forall v field info, I info -> I (fst (rf v field info))) ->
  (forall fields info, I info -> I (setInputFields fields info)) ->
  forall field info, I info -> I (fst (handleField registry info field)).
Proof.
  intros Hfac Hset field.
  induction field as [name anonymous tag s k m e fields i o IH]
    using StructField_nested_ind.
  intros info Hi. simpl. destruct anonymous.
  - destruct k; try exact Hi.
    revert info Hi. induction IH as [|f rest Hf _ IHrest]; intros info Hi; [exact Hi|].
    specialize (Hf info Hi).
    destruct (handleField registry info f) as [info' [[]|err|why]]; simpl in *.
    + apply IHrest. exact Hf.
    + exact Hf.
    + exact Hf.
  - destruct (String.eqb (tagGet tag "api") EmptyString); [exact Hi|].
    destruct (SplitN2 ":" (tagGet tag "api")) as [apiTagKey after].
    destruct (String.eqb apiTagKey "-"); [exact Hi|].
    destruct (registry !! apiTagKey) as [[rf|]|] eqn:Hr; try exact Hi.
    specialize (Hfac _ _ Hr (match after with Some x => x | None => EmptyString end)
                  (mkStructField name false tag (mkType s k m e fields i o)) info Hi).
    destruct (rf _ _ info) as [info' [[b|]|err]]; simpl in *; auto.
Qed.

Lemma parseFields_invariant registry (I : RestfulFunctionInfo -> Prop) :
  (forall k (rf : RegisterFunction), registry !! k = Some (Some rf) ->
     forall v field info, I info -> I (fst (rf v field info))) ->
  (forall fields info, I info -> I (setInputFields fields info)) ->
  forall fields info info',
    I info -> parseFields registry info fields = Done info' -> I info'.
Proof.
  intros Hfac Hset fields.
  induction fields as [|f rest IH]; intros info info' Hi; simpl.
  - intros [= <-]. exact Hi.
  - pose proof (handleField_invariant registry I Hfac Hset f info Hi) as Hf.
    destruct (handleField registry info f) as [info1 [[]|err|why]]; simpl in *;
      try discriminate.
    apply IH. exact Hf.
Qed.

Lemma NoDup_snoc {A} (l : list A) (x : A) :
  List.NoDup l -> ~ In x l -> List.NoDup (l ++ [x])%list.
Proof.
  intros Hl Hx. induction Hl as [|y l Hy Hl IH]; simpl.
  - constructor; [intros []|constructor].
  - constructor.
    + intros Hin. apply in_app_or in Hin as [Hin|[->|[]]]; [exact (Hy Hin)|].
      apply Hx. left. reflexivity.
    + apply IH. intros Hin. apply Hx. right. exact Hin.
Qed.

Lemma existsb_name_false {A} (name : A -> string) (l : list A) (x : string) :
  existsb (fun item => String.eqb (name item) x) l = false ->
  ~ In x (List.map name l).
Proof.
  induction l as [|y l IH]; simpl; [intros _ []|].
  intros H. apply orb_false_iff in H as [Hy Hl].
  intros [Heq|Hin]; [|exact (IH Hl Hin)].
  rewrite Heq, String.eqb_refl in Hy. discriminate.
Qed.

Lemma builtin_keeps_unique_names k (rf : RegisterFunction) :
  registeredFunctionMap !! k = Some (Some rf) ->
  forall v field info,
    uniquePathAndHeaderNames info -> uniquePathAndHeaderNames (fst (rf v field info)).
Proof.
  intros H v field info [Hp Hh]. apply registered_builtin in H.
  unfold initSteps in H. simpl in H.
  repeat (destruct H as [[= <- <-]|H]); [..|contradiction].
  - unfold bodyFactory.
    destruct (if String.eqb v EmptyString then _ else _) as [[consumes allowEmpty]|err];
      [|split; assumption].
    destruct allowEmpty; simpl; split_branches; split; assumption.
  - unfold docFactory, stringKindOr. split_branches; split; assumption.
  - unfold headerFactory. destruct (String.eqb v EmptyString); [split; assumption|].
    destruct (existsb _ (HeaderParameters info)) eqn:E; [split; assumption|].
    split; [exact Hp|]. simpl. rewrite List.map_app. simpl.
    apply NoDup_snoc; [exact Hh|]. apply existsb_name_false. exact E.
  - unfold httpmethodFactory, stringKindOr. split_branches; split; assumption.
  - unfold httppathFactory, stringKindOr. split_branches; split; assumption.
  - unfold httprequestFactory. split_branches; split; assumption.
  - unfold notesFactory, stringKindOr. split_branches; split; assumption.
  - unfold pathFactory. destruct (String.eqb v EmptyString); [split; assumption|].
    destruct (existsb _ (PathParameters info)) eqn:E; [split; assumption|].
    split; [|exact Hh]. simpl. rewrite List.map_app. simpl.
    apply NoDup_snoc; [exact Hp|]. apply existsb_name_false. exact E.
  - unfold producesFactory. split_branches; split; assumption.
  - unfold queryFactory. split_branches; split; assumption.
  - unfold restfulrequestFactory. split_branches; split; assumption.
Qed.

(** With the built-in registry, a route that is built has pairwise distinct
    path-parameter names and pairwise distinct header-parameter names: a
    second directive with a name already registered is a build-time error. *)
Lemma built_route_has_unique_path_and_header_names (f : option FuncValue) info :
  ParseRestfulFunction registeredFunctionMap f = Done info ->
  uniquePathAndHeaderNames info.
Proof.
  unfold ParseRestfulFunction. destruct f as [fv|]; [|discriminate].
  destruct (typeKind (fnType fv)); try discriminate.
  destruct (classifyIn _ _ _ _ _) as [[[ctx meta] mt]|e]; [|discriminate].
  destruct (classifyOut _ _ _ _) as [[err resp]|e]; [|discriminate].
  cbv zeta.
  set (info0 := if 0 <=? OutResponsePosition _ then _ else _).
  assert (H0 : uniquePathAndHeaderNames info0).
  { unfold info0. destruct (0 <=? OutResponsePosition _); split; simpl; constructor. }
  destruct (0 <=? InMetadataPosition info0).
  - destruct (typeKind _); try discriminate.
    apply (parseFields_invariant registeredFunctionMap uniquePathAndHeaderNames).
    + exact builtin_keeps_unique_names.
    + intros fields i Hi. exact Hi.
    + exact H0.
  - intros [= <-]. exact H0.
Qed.

(** The query factory keeps the query names distinct when the names of its
    own tag value are distinct; it does not look for a repetition among
    them. *)
Lemma queryFactory_unique_names apiTagValue field info :
  List.NoDup (List.map qpName (QueryParameters info)) ->
  List.NoDup (List.map TrimSpace (Split "," apiTagValue)) ->
  List.NoDup (List.map qpName (QueryParameters (fst (queryFactory apiTagValue field info)))).
Proof.
  intros Hq Hn. unfold queryFactory.
  destruct (String.eqb apiTagValue EmptyString); [exact Hq|].
  set (names := List.map TrimSpace (Split "," apiTagValue)) in *.
  destruct (firstDuplicate (QueryParameters info) names) eqn:Hd; [exact Hq|].
  simpl. rewrite List.map_app. simpl. rewrite List.map_map. simpl. rewrite List.map_id.
  assert (Hnames : hd EmptyString names :: tl names = names).
  { destruct names as [|n rest] eqn:En; [|reflexivity].
    exfalso. unfold names in En. destruct (Split "," apiTagValue) eqn:Es; [|discriminate].
    destruct apiTagValue as [|c r]; simpl in Es; [discriminate|].
    destruct (Ascii.eqb c ","); [discriminate|].
    destruct (Split "," r); discriminate. }
  rewrite Hnames.
  assert (Hfresh : forall n, In n names -> ~ In n (List.map qpName (QueryParameters info))).
  { clear Hnames Hn. revert Hd. generalize (QueryParameters info) as registered.
    induction names as [|n rest IH]; intros registered Hd x Hx; [destruct Hx|].
    simpl in Hd. destruct (existsb _ registered) eqn:E; [discriminate|].
    destruct Hx as [<-|Hx]; [apply existsb_name_false; exact E|].
    apply (IH registered Hd x Hx). }
  clear Hd Hnames. revert Hq Hfresh.
  generalize (List.map qpName (QueryParameters info)) as old.
  induction old as [|o old IH]; intros Hq Hfresh; simpl; [exact Hn|].
  inversion Hq as [|? ? Ho Hold]; subst. constructor.
  - intros Hin. apply in_app_or in Hin as [Hin|Hin]; [exact (Ho Hin)|].
    apply (Hfresh o Hin). left. reflexivity.
  - apply IH; [exact Hold|]. intros n Hn' Hin. apply (Hfresh n Hn'). right. exact Hin.
Qed.
(* ===================================================================== *)
(** * Further properties of the value parser *)
(* ===================================================================== *)

Lemma parse_custom t old s ParseString :
  parameterParser (typeMethods t) = Some ParseString ->
  parseStringToSingleValue s (pointerTarget t old)
  = match ParseString s with
    | Ok v => Ok v
    | Err err => Err (parseStringError err)
    end.
Proof.
  intros Hp. unfold parseStringToSingleValue, pointerTarget. simpl.
  rewrite Hp. destruct (ParseString s); reflexivity.
Qed.

Lemma addrInterface_settable v :
  CanSet v = true ->
  addrInterface v = Done (pointerTarget (valueType v) (valueData v)).
Proof.
  unfold CanSet, addrInterface. intros H. apply andb_true_iff in H as [-> ->].
  reflexivity.
Qed.

(** X1: the value parser has no conversion for a target that is not a
    non-nil pointer, nor for a pointer to a variable that has no
    [ParameterParser] and is not of a scalar kind: it then returns a plain
    error, naming the kind of the target in the first case and the kind of
    the variable in the second, and stores nothing. *)
Theorem parseStringToSingleValue_unsupported_target
    (s : string) (target : option (GoType * GoValue)) :
  supportedTarget target = false ->
  parseStringToSingleValue s target
  = Err (errorf
           (if isNonNilPointer target
            then "could not parse to single value: unhandled kind: "
                 ++ kindString (pointeeKind target)
            else "invalid target: needed pointer, got "
                 ++ kindString (anyKind target))).
Proof.
  unfold supportedTarget, isNonNilPointer, pointeeKind, parseStringToSingleValue,
    anyKind, elemType.
  destruct target as [[t d]|]; [|reflexivity].
  destruct d; try reflexivity.
  destruct (typeKind t) eqn:Hk; try reflexivity.
  destruct (typeElem t) as [elem|]; [|reflexivity].
  destruct (parameterParser (typeMethods elem)); [discriminate|].
  unfold isScalarKind. destruct (typeKind elem); simpl; try discriminate; reflexivity.
Qed.

(** X2: on a settable field whose type has a [ParameterParser], the path,
    header and query binders all hand the raw text to [ParseString],
    whatever the kind of the type: what [ParseString] stores is the field's
    new data, and an error of [ParseString] comes back as the binder's
    parameter error around "could not parse string value: ...", which wraps
    the error of [ParseString]. *)
Theorem binders_delegate_to_custom_parser
    (v : Value) (ParseString : string -> result GoError GoValue)
    (name : string) (field : StructField)
    (ar : InfoAtRequest) (req : Request) (metadataValue : GoValue) :
  CanSet v = true ->
  parameterParser (typeMethods (valueType v)) = Some ParseString ->
  pathBinder name ar v req metadataValue
  = parsedOr (fun err => NewAPIPathParameterError name (parseStringError err))
      (ParseString (reqPathParameter req name))
  /\ headerBinder name ar v req metadataValue
     = parsedOr (fun err => NewAPIHeaderParameterError name (parseStringError err))
         (ParseString (reqHeaderParameter req name))
  /\ (typeKind (valueType v) <> KSlice -> typeKind (valueType v) <> KPointer ->
      forall text rest, reqQueryParameters req name = text :: rest ->
        queryBinder [name] field ar v req metadataValue
        = parsedOr (fun err => NewAPIQueryParameterError name (parseStringError err))
            (ParseString text)).
Proof.
  intros Hset Hp. repeat split.
  - unfold pathBinder. rewrite addrInterface_settable by exact Hset.
    rewrite (parse_custom _ _ _ _ Hp).
    destruct (ParseString _); reflexivity.
  - unfold headerBinder. rewrite addrInterface_settable by exact Hset.
    rewrite (parse_custom _ _ _ _ Hp).
    destruct (ParseString _); reflexivity.
  - intros Hs Hk text rest Hq.
    rewrite queryBinder_chosen. simpl. rewrite Hq.
    unfold bindValues.
    assert (Hkind : valueKind v = typeKind (valueType v)).
    { unfold valueKind. unfold CanSet in Hset.
      apply andb_true_iff in Hset as [-> _]. reflexivity. }
    rewrite Hkind.
    rewrite (parseQueryValue_settable name text v Hset Hs Hk).
    rewrite (parse_custom _ _ _ _ Hp).
    destruct (typeKind (valueType v)); try contradiction;
      destruct (ParseString text); reflexivity.
Qed.

(** When every byte is a digit, the loop of [ParseUint] can only fail on
    its range tests. *)
Lemma parseUintLoop_digits_error fn s0 maxVal s : forall n m u e,
  digitsValue m s = Some u ->
  strconv.parseUintLoop fn s0 maxVal n s = Err e ->
  e = rangeError fn s0.
Proof.
  induction s as [|c r IH]; intros n m u e; simpl; [discriminate|].
  destruct (strconv.digitValue c) as [d|]; [|discriminate].
  intros Hd. destruct (_ <=? n); [intros [= <-]; reflexivity|].
  destruct (_ || _)%bool; [intros [= <-]; reflexivity|].
  apply (IH _ _ _ _ Hd).
Qed.

Lemma ParseUint_decimal_error s bits u e :
  uintText s = Some u -> strconv.ParseUint s bits = Err e ->
  e = rangeError "ParseUint" s.
Proof.
  unfold uintText, strconv.ParseUint. destruct s as [|c r]; [discriminate|].
  apply parseUintLoop_digits_error.
Qed.

Lemma ParseInt_decimal_error s bits i e :
  intText s = Some i -> strconv.ParseInt s bits = Err e ->
  e = rangeError "ParseInt" s.
Proof.
  unfold intText, strconv.ParseInt. destruct s as [|c r]; [discriminate|].
  set (s0 := String c r).
  assert (Htail : forall (neg : bool) s u,
            uintText s = Some u ->
            match strconv.ParseUint s bits with
            | Err e0 =>
                match NumErr e0 with
                | ErrRange =>
                    if negb neg && (2 ^ (bits - 1) <=? 2 ^ bits - 1)
                    then Err (rangeError "ParseInt" s0)
                    else if neg && (2 ^ (bits - 1) <? 2 ^ bits - 1)
                         then Err (rangeError "ParseInt" s0)
                         else Ok (if neg then - (2 ^ bits - 1) else 2 ^ bits - 1)
                | ErrSyntax => Err (syntaxError "ParseInt" s0)
                end
            | Ok un =>
                if negb neg && (2 ^ (bits - 1) <=? un)
                then Err (rangeError "ParseInt" s0)
                else if neg && (2 ^ (bits - 1) <? un)
                     then Err (rangeError "ParseInt" s0)
                     else Ok (if neg then - un else un)
            end = Err e -> e = rangeError "ParseInt" s0).
  { intros neg s u Hu.
    destruct (strconv.ParseUint s bits) as [un|e0] eqn:E.
    - destruct (_ && _)%bool; [intros [= <-]; reflexivity|].
      destruct (_ && _)%bool; [intros [= <-]; reflexivity | discriminate].
    - rewrite (ParseUint_decimal_error _ _ _ _ Hu E). simpl NumErr. cbv iota.
      destruct (_ && _)%bool; [intros [= <-]; reflexivity|].
      destruct (_ && _)%bool; [intros [= <-]; reflexivity | discriminate]. }
  destruct (Ascii.eqb c "+") eqn:Hplus.
  - apply Ascii.eqb_eq in Hplus. subst c. simpl (Ascii.eqb "+" "-"). simpl orb.
    cbv iota. intros Hu. apply (Htail false r i Hu).
  - destruct (Ascii.eqb c "-") eqn:Hminus.
    + simpl orb. cbv iota. intros Hu.
      destruct (uintText r) as [u|] eqn:Hr; [|discriminate].
      apply (Htail true r u Hr).
    + simpl orb. cbv iota. intros Hu. apply (Htail false s0 i Hu).
Qed.

(** X3: on an integer target without [ParameterParser], a well-formed
    decimal text (an optional sign for the signed kinds, then digits) that
    denotes a number outside the range of the kind is rejected with the
    range error of [strconv.ParseInt] or [strconv.ParseUint], which carries
    the whole text. *)
Theorem out_of_range_decimal_is_a_range_error (t : GoType) (old : GoValue) (s : string) :
  IntSize P = 32 \/ IntSize P = 64 ->
  parameterParser (typeMethods t) = None ->
  (isSignedKind (typeKind t) || isUnsignedKind (typeKind t))%bool = true ->
  (if isSignedKind (typeKind t) then intText s else uintText s) <> None ->
  denotes (typeKind t) s = None ->
  parseStringToSingleValue s (pointerTarget t old)
  = Err (ENum (rangeError (strconvFunction (typeKind t)) s)).
Proof.
  intros HP Hp Hint Hdec Hden.
  destruct (parse_integer_rejects t old s HP Hp Hint Hden) as (e & He & _).
  rewrite He. f_equal. f_equal. unfold strconvFunction.
  destruct (isSignedKind (typeKind t)) eqn:Hs.
  - rewrite parse_signed in He by assumption.
    destruct (strconv.ParseInt s (kindBits (typeKind t))) as [i|e'] eqn:E;
      [discriminate|].
    injection He as ->.
    destruct (intText s) as [i|] eqn:I; [|contradiction].
    apply (ParseInt_decimal_error _ _ _ _ I E).
  - simpl in Hint. rewrite Hint.
    rewrite parse_unsigned in He by assumption.
    destruct (strconv.ParseUint s (kindBits (typeKind t))) as [i|e'] eqn:E;
      [discriminate|].
    injection He as ->.
    destruct (uintText s) as [u|] eqn:U; [|contradiction].
    apply (ParseUint_decimal_error _ _ _ _ U E).
Qed.

Lemma parse_empty_text t old :
  parameterParser (typeMethods t) = None ->
  rejectsEmptyText (typeKind t) = true ->
  parseStringToSingleValue EmptyString (pointerTarget t old)
  = Err (ENum (syntaxError (strconvFunction (typeKind t)) EmptyString)).
Proof.
  intros Hp Hk. unfold parseStringToSingleValue, pointerTarget. simpl.
  rewrite Hp. destruct (typeKind t); try discriminate; reflexivity.
Qed.

(** X4: a request without the header (or with an empty path value) gives
    the header and path binders the empty text.  On a settable field of a
    boolean or integer kind that is a syntax error of [strconv], returned as
    the binder's parameter error; on a string field it is stored as the
    empty string.  (The query binder, by contrast, leaves the field alone
    when there is no value.) *)
Theorem absent_header_or_path_value_is_parsed_as_empty
    (v : Value) (name : string) (ar : InfoAtRequest) (req : Request)
    (metadataValue : GoValue) :
  CanSet v = true ->
  parameterParser (typeMethods (valueType v)) = None ->
  reqHeaderParameter req name = EmptyString ->
  reqPathParameter req name = EmptyString ->
  (rejectsEmptyText (typeKind (valueType v)) = true ->
     headerBinder name ar v req metadataValue
     = Fail (NewAPIHeaderParameterError name
               (ENum (syntaxError (strconvFunction (typeKind (valueType v)))
                        EmptyString)))
     /\ pathBinder name ar v req metadataValue
        = Fail (NewAPIPathParameterError name
                  (ENum (syntaxError (strconvFunction (typeKind (valueType v)))
                           EmptyString))))
  /\ (typeKind (valueType v) = KString ->
      headerBinder name ar v req metadataValue = Done (VString EmptyString)
      /\ pathBinder name ar v req metadataValue = Done (VString EmptyString)).
Proof.
  intros Hset Hp Hh Hpath. unfold headerBinder, pathBinder.
  rewrite addrInterface_settable by exact Hset. rewrite Hh, Hpath.
  split.
  - intros Hk. rewrite parse_empty_text by assumption. split; reflexivity.
  - intros Hk. rewrite parse_string by assumption. split; reflexivity.
Qed.
(* ===================================================================== *)
(** * Further properties of the errors and of the route function *)
(* ===================================================================== *)

Lemma asErrorWriter_wrapWith texts cause :
  asErrorWriter (wrapWith texts cause) = asErrorWriter cause.
Proof.
  induction texts as [|text rest IH]; [reflexivity|]. simpl. exact IH.
Qed.

(** X5: [fmt.Errorf] wrappers around an error do not change what the route
    function writes when the error, or an error it wraps, is an
    [ErrorWriter]: the response is written by that [ErrorWriter] as if it had
    been returned bare.  When no error of the chain is an [ErrorWriter], one
    status-500 body is written with the type and the text of the outermost
    error.  Either way the route function returns normally and calls nothing
    else. *)
Theorem wrapped_error_is_written_by_its_cause
    (f : Request -> Response -> Dispatch) (req : Request) (resp : Response)
    (texts : list string) (cause : GoError) :
  returned (f req resp) = Fail (wrapWith texts cause) ->
  restfulFunctionWrapper f req resp
  = mkDispatch
      match asErrorWriter cause with
      | Some errorWriter => WriteError errorWriter (response (f req resp))
      | None =>
          (response (f req resp)
           ++ [WriteHeaderAndEntity StatusInternalServerError
                 (EntErrorOutput (errorTypeName (wrapWith texts cause))
                    (errorText (wrapWith texts cause)))])%list
      end
      (trace (f req resp)) (Done tt).
Proof.
  intros Hret. unfold restfulFunctionWrapper. rewrite Hret.
  rewrite asErrorWriter_wrapWith.
  destruct (asErrorWriter cause); reflexivity.
Qed.

Lemma renderError_request_error err resp :
  isRequestError err ->
  renderError err resp
  = (resp ++ [WriteHeaderAndEntity StatusBadRequest (requestErrorEntity err)])%list.
Proof.
  intros [[inner ->]|[(p & inner & ->)|[(p & inner & ->)|(p & inner & ->)]]];
    reflexivity.
Qed.
(* ===================================================================== *)
(** * What analysis with the built-in registry guarantees *)
(* ===================================================================== *)

(** A property of the info that every factory of the registry preserves,
    and that survives the recording of a binder the factory returned, is
    preserved by the walker. *)
Lemma handleField_binders registry (I : RestfulFunctionInfo -> Prop)
    (B : InputFieldFunction -> Prop) :
  (forall k (rf : RegisterFunction), registry !! k = Some (Some rf) ->
     forall v field info, I info ->
       I (fst (rf v field info))
       /\ forall fn, snd (rf v field info) = Ok (Some fn) -> B fn) ->
  (forall info name fn, I info -> B fn ->
     I (setInputFields (InputFields info ++ [mkInputField name fn])%list info)) ->
  forall field info, I info -> I (fst (handleField registry info field)).
Proof.
  intros Hfac Hset field.
  induction field as [name anonymous tag s k m e fields i o IH]
    using StructField_nested_ind.
  intros info Hi. simpl. destruct anonymous.
  - destruct k; try exact Hi.
    revert info Hi. induction IH as [|f rest Hf _ IHrest]; intros info Hi; [exact Hi|].
    specialize (Hf info Hi).
    destruct (handleField registry info f) as [info' [[]|err|why]]; simpl in *.
    + apply IHrest. exact Hf.
    + exact Hf.
    + exact Hf.
  - destruct (String.eqb (tagGet tag "api") EmptyString); [exact Hi|].
    destruct (SplitN2 ":" (tagGet tag "api")) as [apiTagKey after].
    destruct (String.eqb apiTagKey "-"); [exact Hi|].
    destruct (registry !! apiTagKey) as [[rf|]|] eqn:Hr; try exact Hi.
    destruct (Hfac _ _ Hr (match after with Some x => x | None => EmptyString end)
                (mkStructField name false tag (mkType s k m e fields i o)) info Hi)
      as [Hinfo Hfn].
    destruct (rf _ _ info) as [info' [[b|]|err]]; simpl in *; auto.
Qed.

Lemma parseFields_binders registry (I : RestfulFunctionInfo -> Prop)
    (B : InputFieldFunction -> Prop) :
  (forall k (rf : RegisterFunction), registry !! k = Some (Some rf) ->
     forall v field info, I info ->
       I (fst (rf v field info))
       /\ forall fn, snd (rf v field info) = Ok (Some fn) -> B fn) ->
  (forall info name fn, I info -> B fn ->
     I (setInputFields (InputFields info ++ [mkInputField name fn])%list info)) ->
  forall fields info info',
    I info -> parseFields registry info fields = Done info' -> I info'.
Proof.
  intros Hfac Hset fields.
  induction fields as [|f rest IH]; intros info info' Hi; simpl.
  - intros [= <-]. exact Hi.
  - pose proof (handleField_binders registry I B Hfac Hset f info Hi) as Hf.
    destruct (handleField registry info f) as [info1 [[]|err|why]]; simpl in *;
      try discriminate.
    apply IH. exact Hf.
Qed.

(** A built-in factory leaves the function value and the recorded binders
    of the info alone, and the binder it returns is one of the built-in
    closures, never nil. *)
Lemma builtin_factory_facts k (rf : RegisterFunction) :
  registeredFunctionMap !! k = Some (Some rf) ->
  forall v field info,
    FunctionValue (fst (rf v field info)) = FunctionValue info
    /\ InputFields (fst (rf v field info)) = InputFields info
    /\ forall r, snd (rf v field info) = Ok r ->
         exists fn, r = Some fn /\ builtinBinder fn.
Proof.
  intros H v field info. apply registered_builtin in H.
  unfold initSteps in H. simpl in H.
  repeat (destruct H as [[= <- <-]|H]); [..|contradiction].
  - unfold bodyFactory.
    destruct (if String.eqb v EmptyString then _ else _) as [[consumes allowEmpty]|err];
      [|split; [reflexivity|split; [reflexivity|discriminate]]].
    destruct allowEmpty; simpl; builtin_facts.
  - unfold docFactory, stringKindOr. builtin_facts.
  - unfold headerFactory. builtin_facts.
  - unfold httpmethodFactory, stringKindOr. builtin_facts.
  - unfold httppathFactory, stringKindOr. builtin_facts.
  - unfold httprequestFactory. builtin_facts.
  - unfold notesFactory, stringKindOr. builtin_facts.
  - unfold pathFactory. builtin_facts.
  - unfold producesFactory. builtin_facts.
  - unfold queryFactory. builtin_facts.
  - unfold restfulrequestFactory. builtin_facts.
Qed.

(** What holds of an info that analysis with the built-in registry
    returned: it is the info of the function given, the positions are those
    the two loops over the signature computed, the metadata parameter is a
    struct or a pointer to one, and every recorded binder is a built-in
    closure. *)
Lemma ParseRestfulFunction_done f info :
  ParseRestfulFunction registeredFunctionMap f = Done info ->
  exists fv mt,
    f = Some fv /\ FunctionValue info = fv /\ typeKind (fnType fv) = KFunc
    /\ classifyIn 0 (typeIn (fnType fv)) (-1) (-1) None
       = Ok (InContextPosition info, InMetadataPosition info, mt)
    /\ classifyOut 0 (typeOut (fnType fv)) (-1) (-1)
       = Ok (OutErrorPosition info, OutResponsePosition info)
    /\ (0 <= InMetadataPosition info ->
        typeKind (metadataStruct (typeAt (typeIn (fnType fv)) (InMetadataPosition info)))
        = KStruct)
    /\ Forall (fun x => builtinBinder (Function x)) (InputFields info).
Proof.
  unfold ParseRestfulFunction. destruct f as [fv|]; [|discriminate].
  destruct (typeKind (fnType fv)) eqn:Hk; try discriminate.
  destruct (classifyIn _ _ _ _ _) as [[[ctx meta] mt]|e] eqn:Hin; [|discriminate].
  destruct (classifyOut _ _ _ _) as [[err resp]|e] eqn:Hout; [|discriminate].
  cbv zeta.
  set (info0 := if 0 <=? OutResponsePosition _ then _ else _).
  pose (I := fun i : RestfulFunctionInfo =>
               FunctionValue i = fv /\ slots i = (ctx, meta, err, resp)
               /\ Forall (fun x => builtinBinder (Function x)) (InputFields i)).
  assert (H0 : I info0).
  { unfold I, info0. destruct (0 <=? OutResponsePosition _);
      repeat split; simpl; constructor. }
  assert (Hmeta : InMetadataPosition info0 = meta).
  { destruct H0 as (_ & Hs & _). unfold slots in Hs. congruence. }
  assert (Hfinal : forall i, I i ->
            (0 <= meta ->
             typeKind (metadataStruct (typeAt (typeIn (fnType fv)) meta)) = KStruct) ->
            exists fv0 mt0,
              Some fv = Some fv0 /\ FunctionValue i = fv0 /\ typeKind (fnType fv0) = KFunc
              /\ classifyIn 0 (typeIn (fnType fv0)) (-1) (-1) None
                 = Ok (InContextPosition i, InMetadataPosition i, mt0)
              /\ classifyOut 0 (typeOut (fnType fv0)) (-1) (-1)
                 = Ok (OutErrorPosition i, OutResponsePosition i)
              /\ (0 <= InMetadataPosition i ->
                  typeKind (metadataStruct
                              (typeAt (typeIn (fnType fv0)) (InMetadataPosition i)))
                  = KStruct)
              /\ Forall (fun x => builtinBinder (Function x)) (InputFields i)).
  { intros i (Hf & Hs & Hb) Hstruct. unfold slots in Hs.
    injection Hs as H1 H2 H3 H4. exists fv, mt.
    rewrite H1, H2, H3, H4, Hf. repeat split; auto. }
  rewrite Hmeta. destruct (0 <=? meta) eqn:Hpos.
  - fold (metadataStruct (typeAt (typeIn (fnType fv)) meta)).
    destruct (typeKind (metadataStruct (typeAt (typeIn (fnType fv)) meta))) eqn:Hs;
      try discriminate.
    intros Hparse. apply Hfinal; [|intros _; reflexivity].
    apply (parseFields_binders registeredFunctionMap I builtinBinder)
      with (fields := typeFields (metadataStruct (typeAt (typeIn (fnType fv)) meta)))
           (info := info0); [| |exact H0|exact Hparse].
    + intros k rf Hr v field i (Hf & Hsl & Hb).
      destruct (builtin_factory_facts k rf Hr v field i) as (Hf' & Hi' & Hfn).
      split.
      * repeat split; [congruence| |rewrite Hi'; exact Hb].
        rewrite (builtin_keepsSlots k rf Hr). exact Hsl.
      * intros fn Hsnd. destruct (Hfn _ Hsnd) as (fn' & [= <-] & Hbb). exact Hbb.
    + intros i name fn (Hf & Hsl & Hb) Hfn. repeat split; auto.
      simpl. apply Forall_app. split; [exact Hb|]. constructor; [exact Hfn|constructor].
  - intros [= <-]. apply Hfinal; [exact H0|].
    apply Z.leb_gt in Hpos. lia.
Qed.
(* ===================================================================== *)
(** * Further properties of the dispatcher *)
(* ===================================================================== *)

Lemma fieldByIndex_no_error index : forall d e, fieldByIndex d index <> Fail e.
Proof.
  induction index as [|x rest IH]; intros d e; simpl; [discriminate|].
  destruct d; try discriminate; try apply IH.
  destruct d; try discriminate. apply IH.
Qed.

Lemma FieldByName_no_error t inputValue name e :
  FieldByName t inputValue name <> Fail e.
Proof.
  unfold FieldByName. destruct (typeKind t); try discriminate.
  destruct (typeFieldByName t name) as [[index f]|]; [|discriminate].
  destruct (fieldByIndex inputValue index) eqn:E; try discriminate.
  exfalso. exact (fieldByIndex_no_error _ _ _ E).
Qed.

Lemma parseSliceItems_fail name item texts : forall err,
  parseSliceItems name item texts = Fail err -> isRequestError err.
Proof.
  induction texts as [|text rest IH]; intros err; simpl; [discriminate|].
  destruct (parseInto text item (zeroValue item)) as [d|e].
  - destruct (parseSliceItems name item rest) as [ds|e'|why]; try discriminate.
    intros [= <-]. apply IH. reflexivity.
  - intros [= <-]. right. right. right. eauto.
Qed.

(** A built-in binder fails only with an error of the request. *)
Lemma builtinBinder_fail fn ar v req metadataValue err :
  builtinBinder fn -> fn ar v req metadataValue = Fail err -> isRequestError err.
Proof.
  intros Hb. destruct Hb.
  - unfold bodyBinder, setValue. intros H. split_hyp H; try discriminate;
      injection H as <-; left; eauto.
  - unfold docBinder, setStringIfCanSet. intros H. split_hyp H; discriminate.
  - unfold headerBinder, addrInterface. intros H. split_hyp H; try discriminate.
    injection H as <-. right. left. eauto.
  - unfold httpmethodBinder, setStringIfCanSet. intros H. split_hyp H; discriminate.
  - unfold httppathBinder, setStringIfCanSet. intros H. split_hyp H; discriminate.
  - unfold httprequestBinder, setIfCanSet, setValue. intros H.
    split_hyp H; discriminate.
  - unfold notesBinder, setStringIfCanSet. intros H. split_hyp H; discriminate.
  - unfold pathBinder, addrInterface. intros H. split_hyp H; try discriminate.
    injection H as <-. right. right. left. eauto.
  - unfold producesBinder, setIfCanSet, setValue. intros H. split_hyp H; discriminate.
  - unfold queryBinder. destruct (firstPresent req names) as [name found].
    assert (Hone : forall text, parseQueryValue name text v = Fail err ->
                                isRequestError err).
    { intros text. unfold parseQueryValue, setValue, addrInterface. intros H.
      split_hyp H; try discriminate; injection H as <-; right; right; right; eauto. }
    assert (Hall : forall texts, parseQueryValues name texts v = Fail err ->
                                 isRequestError err).
    { intros texts. unfold parseQueryValues.
      destruct (negb (CanSet v)); [discriminate|].
      destruct (parseSliceItems name _ texts) eqn:E; try discriminate.
      intros [= <-]. exact (parseSliceItems_fail _ _ _ _ E). }
    destruct (valueKind v); try apply Hall;
      (destruct found as [|x xs];
       [destruct (tagLookup (fieldTag field) "default");
        [apply Hone | discriminate]
       | apply Hone]).
  - unfold restfulrequestBinder, setIfCanSet, setValue. intros H.
    split_hyp H; discriminate.
Qed.

Lemma bindFields_fail info req t fields : forall inputValue events events' err,
  Forall (fun x => builtinBinder (Function x)) fields ->
  bindFields info req t fields inputValue events = (events', Fail err) ->
  isRequestError err.
Proof.
  induction fields as [|f rest IH]; intros inputValue events events' err Hb; simpl;
    [discriminate|].
  inversion Hb as [|? ? Hf Hrest]; subst.
  destruct (FieldByName t inputValue (Name f)) as [[index fieldValue]|e|why] eqn:E;
    [| exfalso; exact (FieldByName_no_error _ _ _ _ E) | discriminate].
  destruct (Function f (atRequest info) fieldValue req inputValue) as [d|e|why] eqn:F;
    [| |discriminate].
  - apply IH. exact Hrest.
  - intros [= _ <-]. exact (builtinBinder_fail _ _ _ _ _ _ Hf F).
Qed.

(** The binding loop records binders only. *)
Lemma bindFields_events info req t fields : forall inputValue events,
  existsb isCalled events = false ->
  existsb isCalled (fst (bindFields info req t fields inputValue events)) = false.
Proof.
  induction fields as [|f rest IH]; intros inputValue events Hev; simpl; [exact Hev|].
  destruct (FieldByName t inputValue (Name f)) as [[index fieldValue]|e|why];
    try exact Hev.
  assert (Hev' : existsb isCalled (events ++ [Bound (Name f)]) = false)
    by (rewrite existsb_app, Hev; reflexivity).
  destruct (Function f (atRequest info) fieldValue req inputValue) as [d|e|why];
    [apply IH; exact Hev' | exact Hev' | exact Hev'].
Qed.

Lemma prepareArguments_events info req :
  existsb isCalled (fst (prepareArguments info req)) = false.
Proof.
  unfold prepareArguments. destruct (0 <=? InMetadataPosition info); [|reflexivity].
  cbv zeta. destruct (typeKind _); try reflexivity.
  pose proof (bindFields_events info req
                (typeAt (typeIn (fnType (FunctionValue info))) (InMetadataPosition info))
                (InputFields info)
                (zeroValue (typeAt (typeIn (fnType (FunctionValue info)))
                              (InMetadataPosition info)))
                [] eq_refl) as H.
  destruct (bindFields _ _ _ _ _ _) as [events [iv|e|why]]; exact H.
Qed.

(** X6: on a route that analysis
    with the built-in registry returned, a request whose binding fails is
    answered with exactly one status-400 body, that of the request error the
    failing binder returned, whatever error handler is installed; the handler
    of the route is not called. *)
Theorem builtin_binding_failure_is_a_bad_request
    (f : option FuncValue) (info : RestfulFunctionInfo)
    (errorHandler : option ErrorHandler) (req : Request)
    (events : list Event) (err : GoError) :
  ParseRestfulFunction registeredFunctionMap f = Done info ->
  prepareArguments info req = (events, Fail err) ->
  isRequestError err
  /\ dispatch info errorHandler req
     = mkDispatch [WriteHeaderAndEntity StatusBadRequest (requestErrorEntity err)]
         events (Done tt)
  /\ existsb isCalled events = false.
Proof.
  intros Hparse Hprep.
  destruct (ParseRestfulFunction_done f info Hparse)
    as (fv & mt & -> & Hfv & Hk & Hin & Hout & Hstruct & Hb).
  assert (Herr : isRequestError err).
  { revert Hprep. unfold prepareArguments.
    destruct (0 <=? InMetadataPosition info) eqn:Hpos; [|discriminate].
    cbv zeta. apply Z.leb_le in Hpos. specialize (Hstruct Hpos).
    rewrite Hfv. unfold metadataStruct in Hstruct. rewrite Hstruct.
    destruct (bindFields _ _ _ _ _ _) as [events' [iv|e|why]] eqn:E; try discriminate.
    intros [= _ <-]. exact (bindFields_fail _ _ _ _ _ _ _ _ Hb E). }
  split; [exact Herr|]. split.
  - unfold dispatch, restfulFunctionWrapper, functionWithError. rewrite Hprep.
    simpl returned. cbv iota. simpl response. simpl trace.
    pose proof (renderError_request_error err [] Herr) as Hr.
    unfold renderError in Hr.
    destruct (asErrorWriter err) as [w|]; rewrite Hr; reflexivity.
  - pose proof (prepareArguments_events info req) as H. rewrite Hprep in H. exact H.
Qed.

Lemma renderResults_unfold info errorHandler methodResults resp :
  length methodResults = length (typeOut (fnType (FunctionValue info))) ->
  renderResults info errorHandler methodResults resp
  = match handlerError info methodResults with
    | Some e => (resp, Fail (handled errorHandler e))
    | None =>
        if 0 <=? OutResponsePosition info then
          match nth (Z.to_nat (OutResponsePosition info)) methodResults RNil with
          | RNil => ((resp ++ [WriteHeaderAndEntity StatusOK EntNil])%list, Done tt)
          | RWriter _ Write => (Write resp, Done tt)
          | RValue output =>
              ((resp ++ [WriteHeaderAndEntity StatusOK (EntValue output)])%list, Done tt)
          | RError e =>
              ((resp ++ [WriteHeaderAndEntity StatusOK
                           (EntValue (VOpaque (errorTypeName e)))])%list, Done tt)
          end
        else ((resp ++ [WriteHeaderAndEntity StatusOK EntNil])%list, Done tt)
    end.
Proof.
  intros Hlen. unfold renderResults, handlerError, handled.
  rewrite Hlen, Nat.eqb_refl. reflexivity.
Qed.

(** X7: when binding succeeds and the handler returns no error, a result
    that is nil or a plain value (not a [Writer]), or the absence of a
    response slot, makes the dispatcher write exactly one entity with status
    200: the value, or nil when there is none.  The handler has been called
    once, after the binders, and the route function returns normally. *)
Theorem plain_result_is_written_once_with_status_200
    (info : RestfulFunctionInfo) (errorHandler : option ErrorHandler) (req : Request)
    (events : list Event) (methodArguments : list (option GoValue))
    (arguments : list GoValue) (entity : Entity) :
  prepareArguments info req = (events, Done methodArguments) ->
  callArguments methodArguments = Some arguments ->
  let methodResults := fnCall (FunctionValue info) arguments in
  length methodResults = length (typeOut (fnType (FunctionValue info))) ->
  handlerError info methodResults = None ->
  (if 0 <=? OutResponsePosition info
   then plainEntity (nth (Z.to_nat (OutResponsePosition info)) methodResults RNil)
   else Some EntNil) = Some entity ->
  dispatch info errorHandler req
  = mkDispatch [WriteHeaderAndEntity StatusOK entity]
      (events ++ [Called arguments])%list (Done tt).
Proof.
  intros Hprep Hcall methodResults Hlen Herr Hent.
  unfold dispatch, restfulFunctionWrapper, functionWithError.
  rewrite Hprep, Hcall. fold methodResults.
  rewrite (renderResults_unfold _ _ _ _ Hlen), Herr.
  destruct (0 <=? OutResponsePosition info).
  - destruct (nth _ methodResults RNil); simpl in Hent; try discriminate;
      injection Hent as <-; reflexivity.
  - injection Hent as <-. reflexivity.
Qed.

(** X8: when binding succeeds and the handler returns a non-nil error, the
    function of the route returns that error, or the error the installed
    error handler gives for it when that is not nil, and leaves the response
    untouched, even if the handler also returned a value; the route function
    then writes that error and nothing else. *)
Theorem handler_error_goes_through_the_error_handler
    (info : RestfulFunctionInfo) (errorHandler : option ErrorHandler) (req : Request)
    (resp : Response) (events : list Event) (methodArguments : list (option GoValue))
    (arguments : list GoValue) (e : GoError) :
  prepareArguments info req = (events, Done methodArguments) ->
  callArguments methodArguments = Some arguments ->
  let methodResults := fnCall (FunctionValue info) arguments in
  length methodResults = length (typeOut (fnType (FunctionValue info))) ->
  handlerError info methodResults = Some e ->
  functionWithError info errorHandler req resp
  = mkDispatch resp (events ++ [Called arguments])%list
      (Fail (handled errorHandler e))
  /\ dispatch info errorHandler req
     = mkDispatch (renderError (handled errorHandler e) [])
         (events ++ [Called arguments])%list (Done tt).
Proof.
  intros Hprep Hcall methodResults Hlen Herr.
  assert (Hrun : functionWithError info errorHandler req resp
                 = mkDispatch resp (events ++ [Called arguments])%list
                     (Fail (handled errorHandler e))).
  { unfold functionWithError. rewrite Hprep, Hcall. fold methodResults.
    rewrite (renderResults_unfold _ _ _ _ Hlen), Herr. reflexivity. }
  split; [exact Hrun|].
  unfold dispatch, restfulFunctionWrapper.
  assert (Hrun0 : functionWithError info errorHandler req []
                  = mkDispatch [] (events ++ [Called arguments])%list
                      (Fail (handled errorHandler e))).
  { unfold functionWithError. rewrite Hprep, Hcall. fold methodResults.
    rewrite (renderResults_unfold _ _ _ _ Hlen), Herr. reflexivity. }
  rewrite Hrun0. simpl. unfold renderError.
  destruct (asErrorWriter (handled errorHandler e)); reflexivity.
Qed.

(** The signatures the first loop of the analyser accepts: at most a
    context and a metadata parameter, in either order. *)
Lemma classifyIn_shapes ins ctx meta mt :
  classifyIn 0 ins (-1) (-1) None = Ok (ctx, meta, mt) ->
  (ins = [] /\ ctx = -1 /\ meta = -1)
  \/ (exists a, ins = [a] /\ ctx = 0 /\ meta = -1)
  \/ (exists a, ins = [a] /\ ctx = -1 /\ meta = 0)
  \/ (exists a b, ins = [a; b] /\ ctx = 0 /\ meta = 1)
  \/ (exists a b, ins = [a; b] /\ ctx = 1 /\ meta = 0).
Proof.
  destruct ins as [|a [|b [|c rest]]]; simpl.
  - intros [= <- <- <-]. auto.
  - destruct (isContext (typeMethods a)); intros [= <- <- <-]; eauto 10.
  - destruct (isContext (typeMethods a)), (isContext (typeMethods b));
      simpl; try discriminate; intros [= <- <- <-]; eauto 10.
  - destruct (isContext (typeMethods a)), (isContext (typeMethods b)),
      (isContext (typeMethods c)); simpl; discriminate.
Qed.

(** X9: on a route that analysis with the built-in registry returned,
    whenever binding succeeds the handler is called, exactly once and after
    the binders, with one argument per parameter of its signature, the
    context standing at the position recorded for it: the call never finds
    an argument missing. *)
Theorem analysed_route_calls_the_handler_with_every_argument
    (fv : FuncValue) (info : RestfulFunctionInfo)
    (errorHandler : option ErrorHandler) (req : Request)
    (events : list Event) (methodArguments : list (option GoValue)) :
  ParseRestfulFunction registeredFunctionMap (Some fv) = Done info ->
  prepareArguments info req = (events, Done methodArguments) ->
  exists arguments,
    callArguments methodArguments = Some arguments
    /\ length arguments = length (typeIn (fnType fv))
    /\ (0 <= InContextPosition info ->
        nth (Z.to_nat (InContextPosition info)) arguments VNil = VOpaque "ctx")
    /\ trace (dispatch info errorHandler req) = (events ++ [Called arguments])%list.
Proof.
  intros Hparse Hprep.
  destruct (ParseRestfulFunction_done _ info Hparse)
    as (fv' & mt & [= <-] & Hfv & Hk & Hin & Hout & Hstruct & Hb).
  assert (Hargs : exists arguments,
             callArguments methodArguments = Some arguments
             /\ length arguments = length (typeIn (fnType fv))
             /\ (0 <= InContextPosition info ->
                 nth (Z.to_nat (InContextPosition info)) arguments VNil = VOpaque "ctx")).
  { revert Hprep. unfold prepareArguments. rewrite Hfv. cbv zeta.
    fold (metadataStruct (typeAt (typeIn (fnType fv)) (InMetadataPosition info))).
    apply classifyIn_shapes in Hin.
    destruct (0 <=? InMetadataPosition info) eqn:Hpos.
    - apply Z.leb_le in Hpos. rewrite (Hstruct Hpos).
      destruct (bindFields _ _ _ _ _ _) as [ev [iv|e|why]]; try discriminate.
      intros [= _ <-].
      destruct Hin as [(Hi & Hc & Hm)|[(a & Hi & Hc & Hm)|[(a & Hi & Hc & Hm)
                      |[(a & b & Hi & Hc & Hm)|(a & b & Hi & Hc & Hm)]]]];
        rewrite Hi, Hc, Hm in *; try lia.
      + exists [iv]. repeat split. lia.
      + exists [VOpaque "ctx"; iv]. repeat split.
      + exists [iv; VOpaque "ctx"]. repeat split.
    - apply Z.leb_gt in Hpos. intros [= _ <-].
      destruct Hin as [(Hi & Hc & Hm)|[(a & Hi & Hc & Hm)|[(a & Hi & Hc & Hm)
                      |[(a & b & Hi & Hc & Hm)|(a & b & Hi & Hc & Hm)]]]];
        rewrite Hi, Hc, Hm in *; try lia.
      + exists []. repeat split. lia.
      + exists [VOpaque "ctx"]. repeat split. }
  destruct Hargs as (arguments & Hcall & Hlen & Hctx).
  exists arguments. repeat split; try assumption.
  unfold dispatch, restfulFunctionWrapper, functionWithError.
  rewrite Hprep, Hcall.
  destruct (renderResults _ _ _ _) as [resp' [[]|e|why]]; simpl; try reflexivity.
  destruct (asErrorWriter e); reflexivity.
Qed.

(** X10: analysis accepts a metadata parameter that is a pointer to a
    struct, but the function of the route allocates a value of the
    parameter's own type, a nil pointer, and looks the bound fields up on it:
    as soon as the route has one bound field, the lookup of the first one
    panics in package [reflect], before any binder runs and without the
    handler being called. *)
Theorem pointer_metadata_with_a_bound_field_panics
    (info : RestfulFunctionInfo) (errorHandler : option ErrorHandler)
    (req : Request) (resp : Response) (first : InputField) (rest : list InputField) :
  0 <= InMetadataPosition info ->
  let t := typeAt (typeIn (fnType (FunctionValue info))) (InMetadataPosition info) in
  typeKind t = KPointer ->
  typeKind (elemType t) = KStruct ->
  InputFields info = first :: rest ->
  functionWithError info errorHandler req resp
  = mkDispatch resp []
      (Panic "reflect: call of reflect.Value.FieldByName on ptr Value").
Proof.
  intros Hpos t Hptr Hstruct Hfields.
  unfold functionWithError, prepareArguments.
  replace (0 <=? InMetadataPosition info) with true
    by (symmetry; apply Z.leb_le; exact Hpos).
  cbv zeta. fold t. rewrite Hptr. cbv iota. rewrite Hstruct. cbv iota.
  rewrite Hfields. simpl bindFields. unfold FieldByName. rewrite Hptr. reflexivity.
Qed.
(* ===================================================================== *)
(** * Further properties of the built-in directives and of the walker *)
(* ===================================================================== *)

Lemma lookup_builtin k (rf : RegisterFunction) :
  In (k, Some rf) initSteps -> registeredFunctionMap !! k = Some (Some rf).
Proof.
  rewrite registeredFunctionMap_unfold. unfold initSteps. simpl.
  intros H. repeat (destruct H as [[= <- <-]|H]); [..|contradiction];
    repeat (rewrite lookup_insert_ne by discriminate); apply lookup_insert_eq.
Qed.

(** The body factory accepts a bare [body] tag on any field. *)
Lemma bodyFactory_bare field info :
  bodyFactory EmptyString field info
  = (let ft := fieldType field in
     let info1 :=
       setConsumes []
         (setBodyExample
            match typeKind ft with
            | KInterface => None
            | _ => Some (ft, zeroValue ft)
            end info) in
     if isTypeString ft urlValuesTypes then setConsumes [formURLEncoded] info1
     else if isTypeString ft multipartFormTypes then setConsumes [multipartFormData] info1
     else info1,
     Ok (Some (bodyBinder false field))).
Proof.
  unfold bodyFactory, urlValuesTypes, multipartFormTypes, formURLEncoded,
    multipartFormData.
  cbn [String.eqb]. cbv zeta.
  destruct (isTypeString (fieldType field) ["url.Values"; "*url.Values"]) eqn:Hu.
  - reflexivity.
  - destruct (isTypeString (fieldType field) ["multipart.Form"; "*multipart.Form"]) eqn:Hm.
    + simpl. reflexivity.
    + reflexivity.
Qed.

Lemma form_types_disjoint t :
  isTypeString t urlValuesTypes = true -> isTypeString t multipartFormTypes = false.
Proof.
  unfold isTypeString, containsString, urlValuesTypes, multipartFormTypes. simpl.
  rewrite !orb_false_r.
  intros H. apply orb_true_iff in H as [H|H]; apply String.eqb_eq in H; rewrite H;
    reflexivity.
Qed.

(** X11: when the body factory accepts a field, the content types it leaves
    on the route agree with the type of the field: the form-urlencoded type
    is among them only for a [url.Values] field (or a pointer to one), the
    multipart type only for a [multipart.Form] field (or a pointer to one),
    so never both; and for a field of one of these types the list is not
    empty, the matching content type being supplied when the tag names
    none. *)
Theorem body_content_types_agree_with_the_field_type
    (apiTagValue : string) (field : StructField) (info : RestfulFunctionInfo)
    (r : option InputFieldFunction) :
  snd (bodyFactory apiTagValue field info) = Ok r ->
  let info' := fst (bodyFactory apiTagValue field info) in
  let ft := fieldType field in
  (containsString (Consumes info') formURLEncoded = true ->
     isTypeString ft urlValuesTypes = true)
  /\ (containsString (Consumes info') multipartFormData = true ->
      isTypeString ft multipartFormTypes = true)
  /\ (containsString (Consumes info') formURLEncoded
      && containsString (Consumes info') multipartFormData = false)
  /\ ((isTypeString ft urlValuesTypes || isTypeString ft multipartFormTypes) = true ->
      Consumes info' <> []).
Proof.
  intros Hok info' ft.
  assert (Hagree :
    (containsString (Consumes info') formURLEncoded = true ->
       isTypeString ft urlValuesTypes = true)
    /\ (containsString (Consumes info') multipartFormData = true ->
        isTypeString ft multipartFormTypes = true)
    /\ ((isTypeString ft urlValuesTypes || isTypeString ft multipartFormTypes) = true ->
        Consumes info' <> [])).
  { revert Hok. subst info' ft. unfold bodyFactory.
    fold urlValuesTypes multipartFormTypes formURLEncoded multipartFormData.
    destruct (if String.eqb apiTagValue EmptyString then _ else _)
      as [[consumes allowEmpty]|err]; [|discriminate].
    cbv zeta.
    set (info1 := if allowEmpty then info else _).
    assert (H2 : Consumes (setConsumes consumes info1) = consumes) by reflexivity.
    destruct (isTypeString (fieldType field) urlValuesTypes) eqn:Hu.
    - rewrite (form_types_disjoint _ Hu).
      simpl negb. rewrite andb_false_r, andb_true_r.
      rewrite H2. destruct consumes as [|c cs].
      + simpl. intros _. repeat split; auto; intros; congruence.
      + rewrite H2.
        destruct (containsString (c :: cs) multipartFormData) eqn:Hm; [discriminate|].
        simpl fst. rewrite H2. intros _. repeat split; auto; intros; congruence.
    - destruct (isTypeString (fieldType field) multipartFormTypes) eqn:Hm.
      + simpl negb. rewrite andb_false_r, andb_true_r.
        rewrite H2. destruct consumes as [|c cs].
        * simpl. intros _. repeat split; auto; intros; congruence.
        * rewrite H2.
          destruct (containsString (c :: cs) formURLEncoded) eqn:Hf; [discriminate|].
          simpl fst. rewrite H2. intros _. repeat split; auto; intros; congruence.
      + simpl negb. rewrite !andb_true_r. rewrite H2.
        destruct (containsString consumes formURLEncoded) eqn:Hf; [discriminate|].
        destruct (containsString consumes multipartFormData) eqn:Hmd; [discriminate|].
        simpl fst. rewrite H2, Hf, Hmd. intros _. repeat split; simpl; intros; congruence. }
  destruct Hagree as (Hform & Hmulti & Hdefault).
  repeat split; try assumption.
  destruct (containsString (Consumes info') formURLEncoded) eqn:Hf; [|reflexivity].
  destruct (containsString (Consumes info') multipartFormData) eqn:Hm; [|reflexivity].
  rewrite (form_types_disjoint _ (Hform eq_refl)) in Hmulti.
  specialize (Hmulti eq_refl). discriminate.
Qed.

(** The loop over the parts of a [body] tag sets [allowEmpty] exactly when
    one of the parts is the option [empty]. *)
Lemma bodyTagParts_allowEmpty tagParts : forall consumes allowEmpty consumes' allowEmpty',
  bodyTagParts tagParts consumes allowEmpty = Ok (consumes', allowEmpty') ->
  allowEmpty' = (allowEmpty || existsb isEmptyOption tagParts)%bool.
Proof.
  induction tagParts as [|tagPart rest IH]; intros consumes allowEmpty consumes' allowEmpty';
    simpl.
  - intros [= _ <-]. rewrite orb_false_r. reflexivity.
  - unfold isEmptyOption at 1.
    destruct (SplitN2 ":" tagPart) as [tagPartKey after]. simpl fst.
    destruct (String.eqb tagPartKey "consumes") eqn:Hc.
    + apply String.eqb_eq in Hc. subst tagPartKey. simpl orb. apply IH.
    + destruct (String.eqb tagPartKey "empty") eqn:He; [|discriminate].
      destruct (negb _); [discriminate|].
      intros H. apply IH in H. rewrite H. simpl. rewrite orb_true_r. reflexivity.
Qed.

Lemma bodyFactory_ok apiTagValue field info r :
  snd (bodyFactory apiTagValue field info) = Ok r ->
  let allowEmpty := existsb isEmptyOption (Split ";" apiTagValue) in
  r = Some (bodyBinder allowEmpty field)
  /\ BodyExample (fst (bodyFactory apiTagValue field info))
     = if allowEmpty then BodyExample info
       else match typeKind (fieldType field) with
            | KInterface => None
            | _ => Some (fieldType field, zeroValue (fieldType field))
            end.
Proof.
  unfold bodyFactory.
  destruct (if String.eqb apiTagValue EmptyString then _ else _)
    as [[consumes allowEmpty]|err] eqn:Hparse; [|discriminate].
  assert (Hallow : allowEmpty = existsb isEmptyOption (Split ";" apiTagValue)).
  { destruct (String.eqb apiTagValue EmptyString) eqn:He.
    - apply String.eqb_eq in He. subst apiTagValue. injection Hparse as _ <-.
      reflexivity.
    - apply bodyTagParts_allowEmpty in Hparse. exact Hparse. }
  rewrite <- Hallow. clear Hallow Hparse. cbv zeta.
  destruct allowEmpty; split_branches; simpl; intros H; try discriminate;
    injection H as <-; split; reflexivity.
Qed.

(** X12: the option [empty] in the value of a [body] tag turns the binder
    off: with it, the binder the factory returns gives the field back as it
    found it on every request, reading nothing, and the factory records no
    body example; without it, the binder is the reading one and the body
    example is the zero value of the field's type (nil for an interface). *)
Theorem body_option_empty_turns_the_binder_off
    (apiTagValue : string) (field : StructField) (info : RestfulFunctionInfo)
    (fn : InputFieldFunction) :
  snd (bodyFactory apiTagValue field info) = Ok (Some fn) ->
  if existsb isEmptyOption (Split ";" apiTagValue)
  then (forall ar v req metadataValue, fn ar v req metadataValue = Done (valueData v))
       /\ BodyExample (fst (bodyFactory apiTagValue field info)) = BodyExample info
  else fn = bodyBinder false field
       /\ BodyExample (fst (bodyFactory apiTagValue field info))
          = match typeKind (fieldType field) with
            | KInterface => None
            | _ => Some (fieldType field, zeroValue (fieldType field))
            end.
Proof.
  intros Hok. destruct (bodyFactory_ok _ _ _ _ Hok) as [Hfn Hex].
  injection Hfn as ->.
  destruct (existsb isEmptyOption (Split ";" apiTagValue)).
  - split; [|exact Hex]. reflexivity.
  - split; [reflexivity|exact Hex].
Qed.

(** The walker on a field whose [api] tag is a bare key. *)
Lemma handleField_bare_key (registry : Registry) info name tag ftype k
    (rf : RegisterFunction) :
  registry !! k = Some (Some rf) ->
  hasByte ":" k = false -> k <> "-" -> k <> EmptyString ->
  tagGet tag "api" = k ->
  handleField registry info (mkStructField name false tag ftype)
  = recordBinder name (rf EmptyString (mkStructField name false tag ftype) info).
Proof.
  intros Hr Hk Hdash Hne Htag. rewrite handleField_plain. cbv zeta. rewrite Htag.
  replace (String.eqb k EmptyString) with false
    by (symmetry; apply String.eqb_neq; exact Hne).
  assert (Hsplit : SplitN2 ":" k = (k, None)).
  { clear -Hk. induction k as [|c k IH]; simpl; [reflexivity|].
    simpl in Hk. apply orb_false_iff in Hk as [Hc Hk]. rewrite Hc, (IH Hk).
    reflexivity. }
  rewrite Hsplit.
  replace (String.eqb k "-") with false
    by (symmetry; apply String.eqb_neq; exact Hdash).
  match goal with
  | |- match ?x with _ => _ end = _ =>
      replace x with (Some (Some rf)) by (symmetry; exact Hr)
  end.
  reflexivity.
Qed.

(** X13: the built-in directives check the presence of their value.  A
    field tagged with [header], [httpmethod], [httppath], [path], [produces]
    or [query] and no value (the bare key, or the key and a colon) is an
    error of the walker, and so is a field tagged with [doc], [httprequest],
    [notes] or [restfulrequest] and any value; the info is left as it was. *)
Theorem builtin_directives_check_their_value
    (key name : string) (tag : list (string * string)) (ftype : GoType)
    (info : RestfulFunctionInfo) :
  (In key directivesWithValue ->
   tagGet tag "api" = key \/ tagGet tag "api" = key ++ ":" ->
   exists e,
     handleField registeredFunctionMap info (mkStructField name false tag ftype)
     = (info, Fail e))
  /\ (In key directivesWithoutValue ->
      forall value, value <> EmptyString ->
        tagGet tag "api" = key ++ ":" ++ value ->
        exists e,
          handleField registeredFunctionMap info (mkStructField name false tag ftype)
          = (info, Fail e)).
Proof.
  split.
  - intros Hkey Htag. unfold directivesWithValue in Hkey. simpl in Hkey.
    repeat (destruct Hkey as [<-|Hkey]); [..|contradiction];
      (destruct Htag as [Htag|Htag];
       [ match type of Htag with
         | _ = ?k =>
             erewrite (handleField_bare_key _ _ _ _ _ k);
             [| apply lookup_builtin; in_steps | reflexivity | discriminate
              | discriminate | exact Htag ]
         end
       | match type of Htag with
         | _ = (?k ++ _)%string =>
             erewrite (handleField_invokes_registered _ _ _ _ _ k EmptyString);
             [| apply lookup_builtin; in_steps | reflexivity | discriminate
              | exact Htag ]
         end ]);
      simpl; eexists; reflexivity.
  - intros Hkey value Hvalue Htag. unfold directivesWithoutValue in Hkey. simpl in Hkey.
    assert (Hnonempty : negb (String.eqb value EmptyString) = true).
    { apply negb_true_iff, String.eqb_neq. exact Hvalue. }
    repeat (destruct Hkey as [<-|Hkey]); [..|contradiction];
      match type of Htag with
      | _ = (?k ++ _)%string =>
          erewrite (handleField_invokes_registered _ _ _ _ _ k value);
          [| apply lookup_builtin; in_steps | reflexivity | discriminate
           | exact Htag ]
      end.
    + unfold docFactory. rewrite Hnonempty. simpl. eexists; reflexivity.
    + unfold httprequestFactory. rewrite Hnonempty. simpl. eexists; reflexivity.
    + unfold notesFactory. rewrite Hnonempty. simpl. eexists; reflexivity.
    + unfold restfulrequestFactory. rewrite Hnonempty. simpl. eexists; reflexivity.
Qed.

Lemma handleField_ignored (registry : Registry) info f :
  isIgnoredField f = true -> handleField registry info f = (info, Done tt).
Proof.
  destruct f as [name anonymous tag ftype]. unfold isIgnoredField.
  cbn [fieldAnonymous fieldTag].
  destruct anonymous; [discriminate|]. cbn [negb andb]. intros H.
  rewrite handleField_plain. cbv zeta.
  destruct (String.eqb (tagGet tag "api") EmptyString); [reflexivity|].
  cbn [orb] in H. destruct (SplitN2 ":" (tagGet tag "api")) as [apiTagKey after].
  cbn [fst] in H. rewrite H. reflexivity.
Qed.

(** X14: fields without [api] tag and fields whose tag key is [-] do not
    matter to the walk: removing them from the struct changes neither the
    info built nor the outcome, for the walker's loop and for the loop of
    the analyser, whatever the registry. *)
Theorem ignored_fields_do_not_matter
    (registry : Registry) (info : RestfulFunctionInfo) (fields : list StructField) :
  handleFields registry info fields
  = handleFields registry info (List.filter (fun f => negb (isIgnoredField f)) fields)
  /\ parseFields registry info fields
     = parseFields registry info (List.filter (fun f => negb (isIgnoredField f)) fields).
Proof.
  split; revert info; induction fields as [|f rest IH]; intros info;
    try reflexivity; cbn [List.filter];
    (destruct (isIgnoredField f) eqn:Hf; cbn [negb];
     [ cbn [handleFields parseFields]; rewrite (handleField_ignored registry info f Hf);
       apply IH
     | cbn [handleFields parseFields];
       destruct (handleField registry info f) as [info' [[]|err|why]];
       try reflexivity; apply IH ]).
Qed.

(** With the built-in registry, a walk of a field that succeeds records one
    binder for each directive field it meets, in order. *)
Lemma handleField_binder_names : forall field info,
  snd (handleField registeredFunctionMap info field) = Done tt ->
  List.map Name (InputFields (fst (handleField registeredFunctionMap info field)))
  = (List.map Name (InputFields info)
     ++ List.map fieldName (directiveFields field))%list.
Proof.
  intros field.
  induction field as [name anonymous tag s k m e fields i o IH]
    using StructField_nested_ind.
  intros info. destruct anonymous.
  - cbn [handleField directiveFields].
    destruct k; try discriminate.
    revert info. induction IH as [|f rest Hf _ IHrest]; intros info.
    + intros _. simpl. rewrite app_nil_r. reflexivity.
    + specialize (Hf info).
      destruct (handleField registeredFunctionMap info f) as [info' [[]|err|why]];
        simpl in *; try discriminate.
      intros Hrest. rewrite (IHrest info' Hrest), (Hf eq_refl).
      rewrite List.map_app, app_assoc. reflexivity.
  - rewrite handleField_plain. cbn [directiveFields]. unfold isIgnoredField.
    cbn [fieldAnonymous fieldTag negb andb]. cbv zeta.
    destruct (String.eqb (tagGet tag "api") EmptyString).
    { intros _. simpl. rewrite app_nil_r. reflexivity. }
    cbn [orb]. destruct (SplitN2 ":" (tagGet tag "api")) as [apiTagKey after].
    cbn [fst]. destruct (String.eqb apiTagKey "-").
    { intros _. simpl. rewrite app_nil_r. reflexivity. }
    destruct (registeredFunctionMap !! apiTagKey) as [[rf|]|] eqn:Hr; try discriminate.
    destruct (builtin_factory_facts _ _ Hr
                (match after with Some x => x | None => EmptyString end)
                (mkStructField name false tag (mkType s k m e fields i o)) info)
      as (_ & Hfields & Hfn).
    destruct (rf _ _ info) as [info' [r|err]]; simpl in *; [|discriminate].
    destruct (Hfn r eq_refl) as (fn & -> & _). simpl. intros _.
    rewrite List.map_app, Hfields. reflexivity.
Qed.

Lemma parseFields_binder_names fields : forall info info',
  parseFields registeredFunctionMap info fields = Done info' ->
  List.map Name (InputFields info')
  = (List.map Name (InputFields info)
     ++ List.map fieldName (flat_map directiveFields fields))%list.
Proof.
  induction fields as [|f rest IH]; intros info info'; simpl.
  - intros [= <-]. rewrite app_nil_r. reflexivity.
  - pose proof (handleField_binder_names f info) as Hf.
    destruct (handleField registeredFunctionMap info f) as [info1 [[]|err|why]];
      simpl in *; try discriminate.
    intros H. rewrite (IH _ _ H), (Hf eq_refl), List.map_app, app_assoc. reflexivity.
Qed.

(** X15: on a route that analysis with the built-in registry returned, the
    fields that are bound on a request are exactly the fields of the
    metadata struct that carry a directive, each once and in the order of
    declaration, the fields of an embedded struct standing where the struct
    is embedded; a function without metadata parameter has none. *)
Theorem bound_fields_are_the_directive_fields_in_order
    (fv : FuncValue) (info : RestfulFunctionInfo) :
  ParseRestfulFunction registeredFunctionMap (Some fv) = Done info ->
  List.map Name (InputFields info)
  = if 0 <=? InMetadataPosition info
    then List.map fieldName
           (flat_map directiveFields
              (typeFields (metadataStruct
                             (typeAt (typeIn (fnType fv)) (InMetadataPosition info)))))
    else [].
Proof.
  intros Hparse.
  destruct (ParseRestfulFunction_done _ info Hparse)
    as (fv' & mt & [= <-] & Hfv & Hk & Hin & Hout & Hstruct & Hb).
  revert Hparse. unfold ParseRestfulFunction. rewrite Hk, Hin, Hout. cbv zeta.
  set (info0 := if 0 <=? OutResponsePosition _ then _ else _).
  assert (H0 : InputFields info0 = []).
  { unfold info0. destruct (0 <=? OutResponsePosition _); reflexivity. }
  assert (Hmeta : InMetadataPosition info0 = InMetadataPosition info).
  { unfold info0. destruct (0 <=? OutResponsePosition _); reflexivity. }
  rewrite Hmeta. destruct (0 <=? InMetadataPosition info) eqn:Hpos.
  - fold (metadataStruct (typeAt (typeIn (fnType fv)) (InMetadataPosition info))).
    rewrite (Hstruct (proj1 (Z.leb_le _ _) Hpos)).
    intros Hparse. apply parseFields_binder_names in Hparse.
    rewrite Hparse, H0. reflexivity.
  - intros [= Hinfo]. rewrite <- Hinfo at 1. rewrite H0. reflexivity.
Qed.
(* ===================================================================== *)
(** * Route paths *)
(* ===================================================================== *)

Lemma string_app_nil_r (s : string) : s ++ EmptyString = s.
Proof.
  induction s as [|c s IH]; [reflexivity|].
  change (String c s ++ EmptyString) with (String c (s ++ EmptyString)).
  rewrite IH. reflexivity.
Qed.

Lemma string_app_assoc (a b c : string) : (a ++ b) ++ c = a ++ (b ++ c).
Proof.
  induction a as [|x a IH]; [reflexivity|].
  change ((String x a ++ b) ++ c) with (String x ((a ++ b) ++ c)).
  rewrite IH. reflexivity.
Qed.

Lemma TrimRight_app c a b :
  TrimRight c (a ++ b)
  = match TrimRight c b with
    | EmptyString => TrimRight c a
    | r => a ++ r
    end.
Proof.
  induction a as [|x a IH].
  - change (EmptyString ++ b) with b. destruct (TrimRight c b); reflexivity.
  - change (String x a ++ b) with (String x (a ++ b)). cbn [TrimRight].
    rewrite IH. destruct (TrimRight c b) as [|y r]; [reflexivity|].
    destruct a; reflexivity.
Qed.

Lemma TrimLeft_app c a b :
  TrimLeft c (a ++ b)
  = match TrimLeft c a with
    | EmptyString => TrimLeft c b
    | l => l ++ b
    end.
Proof.
  induction a as [|x a IH]; [reflexivity|].
  change (String x a ++ b) with (String x (a ++ b)). cbn [TrimLeft].
  destruct (Ascii.eqb x c); [exact IH | reflexivity].
Qed.

Lemma TrimLeft_idem c s : TrimLeft c (TrimLeft c s) = TrimLeft c s.
Proof.
  induction s as [|x s IH]; simpl; [reflexivity|].
  destruct (Ascii.eqb x c) eqn:E; [exact IH|]. simpl. rewrite E. reflexivity.
Qed.

Lemma TrimRight_idem c s : TrimRight c (TrimRight c s) = TrimRight c s.
Proof.
  induction s as [|x s IH]; simpl; [reflexivity|].
  destruct (TrimRight c s) as [|y r] eqn:E.
  - destruct (Ascii.eqb x c) eqn:Ex; simpl; [reflexivity|]. rewrite Ex. reflexivity.
  - simpl in *. rewrite IH. reflexivity.
Qed.

(** Trimming the one end and then the other, in either order. *)
Lemma TrimLeft_TrimRight c s :
  TrimLeft c (TrimRight c s) = TrimRight c (TrimLeft c s).
Proof.
  induction s as [|x s IH]; simpl; [reflexivity|].
  destruct (Ascii.eqb x c) eqn:Ex.
  - destruct (TrimRight c s) as [|y r] eqn:E.
    + rewrite <- IH. reflexivity.
    + simpl. rewrite Ex. rewrite <- IH. reflexivity.
  - simpl. destruct (TrimRight c s) as [|y r] eqn:E; simpl; rewrite Ex; reflexivity.
Qed.

Lemma HasSuffix_TrimRight c s : HasSuffix (TrimRight c s) c = false.
Proof.
  induction s as [|x s IH]; simpl; [reflexivity|].
  destruct (TrimRight c s) as [|y r] eqn:E.
  - destruct (Ascii.eqb x c) eqn:Ex; simpl; [reflexivity | exact Ex].
  - simpl in *. exact IH.
Qed.

Lemma HasSuffix_TrimLeft c s : HasSuffix s c = false -> HasSuffix (TrimLeft c s) c = false.
Proof.
  induction s as [|x s IH]; [reflexivity|].
  intros H. cbn [TrimLeft]. destruct (Ascii.eqb x c) eqn:Ex; [|exact H].
  apply IH. destruct s; [reflexivity | exact H].
Qed.

Lemma HasSuffix_Trim c s : HasSuffix (Trim c s) c = false.
Proof. apply HasSuffix_TrimLeft, HasSuffix_TrimRight. Qed.

Lemma Trim_idem c s : Trim c (Trim c s) = Trim c s.
Proof.
  unfold Trim. rewrite (TrimLeft_TrimRight c (TrimLeft c (TrimRight c s))).
  rewrite TrimLeft_idem, <- TrimLeft_TrimRight, TrimRight_idem. reflexivity.
Qed.

Lemma Trim_slash_l c s : Trim c (String c s) = Trim c s.
Proof.
  unfold Trim. change (String c s) with (String c EmptyString ++ s).
  rewrite TrimRight_app. destruct (TrimRight c s) as [|y r].
  - cbn [TrimRight]. rewrite Ascii.eqb_refl. reflexivity.
  - change (String c EmptyString ++ String y r) with (String c (String y r)).
    cbn [TrimLeft]. rewrite Ascii.eqb_refl. reflexivity.
Qed.

Lemma Trim_slash_r c s : Trim c (s ++ String c EmptyString) = Trim c s.
Proof.
  unfold Trim. rewrite TrimRight_app. cbn [TrimRight]. rewrite Ascii.eqb_refl.
  reflexivity.
Qed.

Lemma joinSegments_two a b :
  joinSegments [a; b]
  = match a, b with
    | EmptyString, _ => b
    | _, EmptyString => a
    | _, _ => a ++ "/" ++ b
    end.
Proof. destruct a, b; reflexivity. Qed.

Lemma routePath_join path httpPath :
  routePath path httpPath
  = "/" ++ joinSegments [Trim "/" path; Trim "/" httpPath].
Proof.
  unfold routePath. rewrite joinSegments_two.
  pose proof (HasSuffix_Trim "/" path) as Hp.
  destruct (Trim "/" httpPath) as [|hc hr].
  - cbn [String.eqb negb]. destruct (Trim "/" path); reflexivity.
  - cbn [String.eqb negb]. destruct (Trim "/" path) as [|pc pr].
    + reflexivity.
    + change (HasSuffix ("/" ++ String pc pr) "/") with (HasSuffix (String pc pr) "/").
      rewrite Hp. cbn [negb]. rewrite !string_app_assoc. reflexivity.
Qed.

(** X16: the path of a route is a slash followed by the slash-join of what
    is left of the registration path and of the declared path once the
    slashes at their ends are trimmed, an empty part being left out: it
    starts with one slash, has exactly one slash between the two parts, and
    ends in a slash only when it is the bare slash.  Slashes added at either
    end of either input change nothing. *)
Theorem route_path_is_the_join_of_the_trimmed_parts (path httpPath : string) :
  routePath path httpPath
  = "/" ++ joinSegments [Trim "/" path; Trim "/" httpPath]
  /\ (routePath path httpPath = "/" \/ HasSuffix (routePath path httpPath) "/" = false)
  /\ routePath ("/" ++ path) httpPath = routePath path httpPath
  /\ routePath (path ++ "/") httpPath = routePath path httpPath
  /\ routePath path ("/" ++ httpPath) = routePath path httpPath
  /\ routePath path (httpPath ++ "/") = routePath path httpPath.
Proof.
  split; [apply routePath_join|]. split.
  - rewrite routePath_join, joinSegments_two.
    pose proof (HasSuffix_Trim "/" path) as Hp.
    pose proof (HasSuffix_Trim "/" httpPath) as Hh.
    destruct (Trim "/" path) as [|pc pr], (Trim "/" httpPath) as [|hc hr].
    + left. reflexivity.
    + right. exact Hh.
    + right. exact Hp.
    + right. change ("/" ++ String pc pr ++ "/" ++ String hc hr)
        with (String "/" (String pc pr ++ "/" ++ String hc hr)).
      assert (Hsuf : forall a b, b <> EmptyString -> HasSuffix (a ++ b) "/" = HasSuffix b "/").
      { intros a b Hb. induction a as [|x a IH]; [reflexivity|].
        change (String x a ++ b) with (String x (a ++ b)).
        destruct (a ++ b) as [|y r] eqn:E.
        - destruct a; [|discriminate]. simpl in E. contradiction.
        - exact IH. }
      assert (Hfull : HasSuffix (String pc pr ++ "/" ++ String hc hr) "/" = false).
      { rewrite Hsuf by discriminate. exact Hh. }
      destruct (String pc pr ++ "/" ++ String hc hr) as [|y r] eqn:E;
        [discriminate | exact Hfull].
  - rewrite !routePath_join.
    change ("/" ++ path) with (String "/" path).
    change ("/" ++ httpPath) with (String "/" httpPath).
    change (path ++ "/") with (path ++ String "/" EmptyString).
    change (httpPath ++ "/") with (httpPath ++ String "/" EmptyString).
    rewrite !Trim_slash_l, !Trim_slash_r. repeat split; reflexivity.
Qed.

Lemma Trim_nestedPath path tagPartValue :
  Trim "/" (nestedPath path tagPartValue)
  = joinSegments [Trim "/" path; Trim "/" tagPartValue].
Proof.
  unfold nestedPath. rewrite joinSegments_two. unfold Trim at 1.
  rewrite TrimRight_app.
  change ("/" ++ TrimLeft "/" tagPartValue)
    with (String "/" EmptyString ++ TrimLeft "/" tagPartValue).
  rewrite TrimRight_app. rewrite <- TrimLeft_TrimRight. fold (Trim "/" tagPartValue).
  pose proof (TrimLeft_idem "/" (TrimRight "/" tagPartValue)) as Hv.
  fold (Trim "/" tagPartValue) in Hv.
  destruct (Trim "/" tagPartValue) as [|vc vr] eqn:Ev.
  - cbn [TrimRight]. rewrite Ascii.eqb_refl. rewrite TrimRight_idem.
    fold (Trim "/" path). destruct (Trim "/" path); reflexivity.
  - change (String "/" EmptyString ++ String vc vr) with (String "/" (String vc vr)).
    cbv iota. rewrite TrimLeft_app. fold (Trim "/" path).
    destruct (Trim "/" path) as [|pc pr].
    + cbn [TrimLeft]. rewrite Ascii.eqb_refl. exact Hv.
    + reflexivity.
Qed.

Lemma joinSegments_nested a b c :
  joinSegments [joinSegments [a; b]; c] = joinSegments [a; b; c].
Proof.
  destruct a as [|x a], b as [|y b], c as [|z c]; try reflexivity.
  - cbn. rewrite string_app_assoc. reflexivity.
Qed.

(** X17: the value of a field tagged [httppath:v] is registered below the
    registration path extended by [v], with exactly one slash between them
    whatever slashes the two have at their ends; so the routes of the nested
    value have as path the slash-join of the trimmed registration path, the
    trimmed [v] and the trimmed path their metadata declares. *)
Theorem nested_route_path_is_the_join_of_three_parts
    (path tagPartValue httpPath : string) :
  Trim "/" (nestedPath path tagPartValue)
  = joinSegments [Trim "/" path; Trim "/" tagPartValue]
  /\ routePath (nestedPath path tagPartValue) httpPath
     = "/" ++ joinSegments [Trim "/" path; Trim "/" tagPartValue; Trim "/" httpPath].
Proof.
  split; [apply Trim_nestedPath|].
  rewrite routePath_join, Trim_nestedPath, joinSegments_nested. reflexivity.
Qed.
(* ===================================================================== *)
(** * Attributes, sessions and registration *)
(* ===================================================================== *)

(** The loop [for key, value := range source { target[key] = value }] ends
    with the entries of [source] laid over [target], in whatever order the
    entries of [source] are met. *)
Lemma rangeInsert_any_order (source : gmap string GoValue) order :
  order ≡ₚ map_to_list source ->
  forall target, rangeInsert order target = source ∪ target.
Proof.
  intros Hperm.
  assert (Hnodup : NoDup order.*1).
  { rewrite Hperm. apply NoDup_fst_map_to_list. }
  assert (Hsource : source = list_to_map order).
  { rewrite <- (list_to_map_to_list source) at 1.
    symmetry. apply list_to_map_proper; assumption. }
  rewrite Hsource. clear Hsource Hperm source.
  induction order as [|[k v] rest IH]; intros target; simpl.
  - rewrite (left_id_L ∅ (∪)). reflexivity.
  - inversion Hnodup as [|? ? Hk Hrest]; subst.
    unfold rangeInsert in *. simpl. rewrite (IH Hrest).
    rewrite <- insert_union_l. rewrite <- insert_union_r; [reflexivity|].
    apply not_elem_of_list_to_map_1. exact Hk.
Qed.

(** X18: the attribute filter sets every entry of the attribute map on the
    request, an entry of the map replacing an attribute the request already
    has under the same key and the other attributes of the request
    staying, and then runs the rest of the chain, once, on the request so
    changed; the order in which the map is ranged over makes no
    difference. *)
Theorem filterSetAttributes_sets_every_attribute_in_any_order
    {A : Type} (attributes requestAttributes : gmap string GoValue)
    (order : list (string * GoValue)) (chain : gmap string GoValue -> A) :
  order ≡ₚ map_to_list attributes ->
  filterSetAttributes order requestAttributes chain
  = chain (attributes ∪ requestAttributes)
  /\ (forall key value, attributes !! key = Some value ->
        (attributes ∪ requestAttributes) !! key = Some value)
  /\ (forall key, attributes !! key = None ->
        (attributes ∪ requestAttributes) !! key = requestAttributes !! key).
Proof.
  intros Hperm. unfold filterSetAttributes.
  rewrite (rangeInsert_any_order attributes order Hperm). split; [reflexivity|].
  split.
  - intros key value Hk. apply lookup_union_Some_l. exact Hk.
  - intros key Hk. apply lookup_union_r. exact Hk.
Qed.

Lemma rangeInsert_copy (m : gmap string GoValue) :
  rangeInsert (map_to_list m) ∅ = m.
Proof.
  rewrite (rangeInsert_any_order m (map_to_list m)) by reflexivity.
  apply (right_id_L ∅ (∪)).
Qed.

(** X19: a session is an independent copy.  [r.Session()] returns a new
    wrapper of the same web service that has the path, the [Do] functions,
    the content types, the context actions and the attribute entries of [r]
    as they are at the call, and leaves [r] as it was.  Afterwards, setting
    attributes, content types, [Do] functions or context actions on the
    session changes neither [r] nor the attributes of [r], and setting
    attributes on [r] changes neither the session nor its attributes. *)
Theorem session_is_an_independent_copy (r : Loc) (w : World) (wr : RestfulWrapper) :
  wellFormed w ->
  wrappers w !! r = Some wr ->
  exists s a w',
    RestfulWrapper_Session r w = (w', Done s)
    /\ s <> r
    /\ wrappers w' !! r = Some wr
    /\ wrappers w' !! s = Some (sessionOf wr a)
    /\ attributesOf w' (Some a) = attributesOf w (rwAttributes wr)
    /\ attributesOf w' (rwAttributes wr) = attributesOf w (rwAttributes wr)
    /\ webServices w' = webServices w
    /\ (forall attributes,
          let w'' := fst (RestfulWrapper_Attributes s attributes w') in
          wrappers w'' !! r = Some wr
          /\ attributesOf w'' (rwAttributes wr) = attributesOf w (rwAttributes wr))
    /\ (forall contentTypes doFunctions contextActions,
          wrappers (fst (RestfulWrapper_Consumes s contentTypes w')) !! r = Some wr
          /\ wrappers (fst (RestfulWrapper_Produces s contentTypes w')) !! r = Some wr
          /\ wrappers (fst (RestfulWrapper_Do s doFunctions w')) !! r = Some wr
          /\ wrappers (fst (RestfulWrapper_ContextAction s contextActions w')) !! r
             = Some wr)
    /\ (forall attributes,
          let w'' := fst (RestfulWrapper_Attributes r attributes w') in
          wrappers w'' !! s = Some (sessionOf wr a)
          /\ attributesOf w'' (Some a) = attributesOf w (rwAttributes wr)).
Proof.
  intros [Hwr Hmaps] Hr.
  destruct (Hwr r wr Hr) as [Hlt Hattr].
  exists (S (nextLoc w)), (nextLoc w).
  unfold RestfulWrapper_Session. rewrite Hr. eexists. split; [reflexivity|].
  assert (Hsr : S (nextLoc w) <> r) by lia.
  assert (Hfresh : forall a0, rwAttributes wr = Some a0 -> a0 <> nextLoc w).
  { intros a0 Ha0. specialize (Hattr a0 Ha0). lia. }
  set (a := nextLoc w) in *. set (s := S a) in *.
  set (copied := rangeInsert (map_to_list (attributesOf w (rwAttributes wr))) ∅).
  assert (Hcopied : copied = attributesOf w (rwAttributes wr))
    by apply rangeInsert_copy.
  set (w' := mkWorld _ _ _ _).
  assert (Hr' : wrappers w' !! r = Some wr).
  { simpl. rewrite lookup_insert_ne by exact Hsr. exact Hr. }
  assert (Hs' : wrappers w' !! s = Some (sessionOf wr a)).
  { simpl. rewrite lookup_insert_eq. reflexivity. }
  assert (Ha' : attributesOf w' (Some a) = attributesOf w (rwAttributes wr)).
  { simpl. rewrite lookup_insert_eq. exact Hcopied. }
  assert (Hold : attributesOf w' (rwAttributes wr) = attributesOf w (rwAttributes wr)).
  { destruct (rwAttributes wr) as [a0|] eqn:Ea; [|reflexivity].
    simpl. rewrite lookup_insert_ne by (intros E; exact (Hfresh a0 eq_refl (eq_sym E))).
    reflexivity. }
  split; [exact Hsr|]. split; [exact Hr'|]. split; [exact Hs'|].
  split; [exact Ha'|]. split; [exact Hold|]. split; [reflexivity|].
  split; [|split].
  - intros attributes. unfold RestfulWrapper_Attributes. rewrite Hs'.
    cbn [rwAttributes sessionOf fst wrappers]. split; [exact Hr'|].
    destruct (rwAttributes wr) as [a0|] eqn:Ea; [|reflexivity].
    cbn [attributesOf attributeMaps].
    rewrite lookup_insert_ne by (intros E; exact (Hfresh a0 eq_refl (eq_sym E))).
    exact Hold.
  - intros contentTypes doFunctions contextActions.
    unfold RestfulWrapper_Consumes, RestfulWrapper_Produces, RestfulWrapper_Do,
      RestfulWrapper_ContextAction, setWrapper.
    rewrite Hs'. cbn [fst wrappers].
    rewrite !lookup_insert_ne by exact Hsr. auto.
  - intros attributes. unfold RestfulWrapper_Attributes. rewrite Hr'.
    destruct (rwAttributes wr) as [a0|] eqn:Ea.
    + cbn [fst wrappers attributesOf attributeMaps]. split; [exact Hs'|].
      rewrite lookup_insert_ne by (exact (Hfresh a0 eq_refl)).
      exact Ha'.
    + cbn [fst wrappers attributesOf attributeMaps nextLoc].
      split.
      * rewrite lookup_insert_ne by (intros E; apply Hsr; symmetry; exact E).
        exact Hs'.
      * rewrite !lookup_insert_ne by (subst s a; simpl; lia).
        exact Ha'.
Qed.
(* ===================================================================== *)
(** * Registration of the methods of a value *)
(* ===================================================================== *)

(** Induction on a value through the values of its fields. *)
Lemma Registrable_nested_ind (Q : Registrable -> Prop) :
  (forall t methods k fields,
      Forall (fun p => Q (snd p)) fields -> Q (mkRegistrable t methods k fields)) ->
  forall f, Q f.
Proof.
  intros H. fix IH 1. intros [t methods k fields]. apply H.
  induction fields as [|[field fieldInterface] rest IHrest]; constructor.
  - apply IH.
  - exact IHrest.
Qed.

Lemma routesAdded_refl s w service :
  webServices w !! s = Some service -> routesAdded s w w [].
Proof.
  intros Hs. repeat split; try reflexivity. exists service. split; [exact Hs|].
  rewrite Hs, app_nil_r. destruct service. reflexivity.
Qed.

Lemma routesAdded_trans s w1 w2 w3 a b :
  routesAdded s w1 w2 a -> routesAdded s w2 w3 b -> routesAdded s w1 w3 (a ++ b).
Proof.
  intros (Hw & Ha & Hn & Ho & service & Hs & Hs')
         (Hw' & Ha' & Hn' & Ho' & service' & Hs2 & Hs2').
  repeat split; try congruence.
  - intros s' Hne. rewrite (Ho' s' Hne). apply Ho. exact Hne.
  - exists service. split; [exact Hs|].
    rewrite Hs2'. rewrite Hs' in Hs2. injection Hs2 as <-. simpl.
    rewrite app_assoc. reflexivity.
Qed.

(** One turn of the loop over the methods: the method is analysed, and then
    its route is added; when the method cannot be analysed, the loop panics
    with the name of the method and the error, and nothing is added. *)
Lemma registerMethod_spec registry r path name method w wr service :
  wrappers w !! r = Some wr ->
  webServices w !! rwWs wr = Some service ->
  match ParseRestfulFunction registry (Some method) with
  | Done info =>
      exists w',
        registerMethod registry r path name method w = (w', Done tt)
        /\ routesAdded (rwWs wr) w w' [routeFor wr r path info]
  | Fail err =>
      registerMethod registry r path name method w
      = (w, Panic ("could not parse function: " ++ name ++ ": " ++ errorText err))
  | Panic why => registerMethod registry r path name method w = (w, Panic why)
  end.
Proof.
  intros Hr Hs. unfold registerMethod.
  destruct (ParseRestfulFunction registry (Some method)) as [info|err|why];
    try reflexivity.
  rewrite Hr. unfold RestfulWrapper_Method. rewrite Hr. cbv zeta.
  unfold RestfulRouteWrapper_RouteBuilder, RestfulRouteWrapper_Path.
  cbn [rrWs rrMethod rrPath rrFunctionWithError rrDoFunctions rrConsumes rrProduces].
  rewrite Hr. unfold addRoute. rewrite Hs. eexists. split; [reflexivity|].
  repeat split; try reflexivity.
  - intros s' Hne. simpl. rewrite lookup_insert_ne by (intros E; apply Hne; symmetry; exact E).
    reflexivity.
  - exists service. split; [exact Hs|]. simpl. rewrite lookup_insert_eq.
    unfold routeFor, wrappedFunction. cbn [app].
    destruct (rwConsumes wr), (rwProduces wr); reflexivity.
Qed.

Lemma registersPlanned_done registry r wr :
  registersPlanned registry r wr (fun w => (w, Done tt)) [].
Proof.
  intros w service Hr Hs. exists w, (Done tt), [].
  split; [reflexivity|]. split; [exact (routesAdded_refl _ _ _ Hs)|].
  split; [intros _; constructor | discriminate].
Qed.

Lemma registersPlanned_seq registry r wr run1 run2 p1 p2 :
  registersPlanned registry r wr run1 p1 ->
  registersPlanned registry r wr run2 p2 ->
  registersPlanned registry r wr
    (fun w => match run1 w with
              | (w, Done _) => run2 w
              | other => other
              end)
    (p1 ++ p2).
Proof.
  intros H1 H2 w service Hr Hs.
  destruct (H1 w service Hr Hs) as (w1 & o1 & a1 & E1 & A1 & D1 & F1).
  rewrite E1. destruct o1 as [[]|e|why].
  - destruct A1 as (Hw & Ha & Hn & Ho & service0 & Hs0 & Hs1).
    assert (Hr1 : wrappers w1 !! r = Some wr) by (rewrite Hw; exact Hr).
    destruct (H2 w1 _ Hr1 Hs1) as (w2 & o2 & a2 & E2 & A2 & D2 & F2).
    exists w2, o2, (a1 ++ a2)%list. split; [exact E2|]. split.
    + eapply routesAdded_trans; [|exact A2].
      repeat split; try assumption. exists service0. auto.
    + split; [|exact F2]. intros Hdone. apply Forall2_app; auto.
  - exfalso. exact (F1 e eq_refl).
  - exists w1, (Panic why), a1. split; [reflexivity|]. split; [exact A1|].
    split; discriminate.
Qed.

Lemma registerMethod_planned registry r wr path name method :
  registersPlanned registry r wr (registerMethod registry r path name method)
    [(path, name, method)].
Proof.
  intros w service Hr Hs.
  pose proof (registerMethod_spec registry r path name method w wr service Hr Hs) as H.
  destruct (ParseRestfulFunction registry (Some method)) as [info|err|why] eqn:E.
  - destruct H as (w' & Hrun & Hadd). exists w', (Done tt), [routeFor wr r path info].
    split; [exact Hrun|]. split; [exact Hadd|]. split; [|discriminate].
    intros _. constructor; [|constructor]. exists info. split; [exact E|reflexivity].
  - eexists w, _, []. split; [exact H|]. split; [exact (routesAdded_refl _ _ _ Hs)|].
    split; discriminate.
  - eexists w, _, []. split; [exact H|]. split; [exact (routesAdded_refl _ _ _ Hs)|].
    split; discriminate.
Qed.

Lemma registerMethods_planned registry r wr path methods :
  registersPlanned registry r wr (registerMethods registry r path methods)
    (List.map (fun m => (path, fst m, snd m)) methods).
Proof.
  induction methods as [|[name method] rest IH].
  - apply registersPlanned_done.
  - apply (registersPlanned_seq registry r wr _ _ [(path, name, method)] _
             (registerMethod_planned registry r wr path name method) IH).
Qed.

Lemma registerTagParts_planned registry r wr register planned path tagParts :
  (forall p, registersPlanned registry r wr (register p) (planned p)) ->
  registersPlanned registry r wr (registerTagParts register path tagParts)
    (plannedTagParts planned path tagParts).
Proof.
  intros Hreg. induction tagParts as [|tagPart more IH].
  - apply registersPlanned_done.
  - cbn [registerTagParts plannedTagParts].
    destruct (SplitN2 ":" tagPart) as [tagPartKey after].
    destruct (String.eqb tagPartKey "httppath").
    + apply (registersPlanned_seq registry r wr _ _ _ _ (Hreg _) IH).
    + exact IH.
Qed.

Lemma registerFields_planned registry r wr {F} (register : F -> _) planned path fields :
  Forall (fun p => forall q,
            registersPlanned registry r wr (register (snd p) q) (planned (snd p) q))
    fields ->
  registersPlanned registry r wr (registerFields register path fields)
    (plannedFields planned path fields).
Proof.
  intros Hall. induction Hall as [|[field fieldInterface] rest Hf _ IH].
  - apply registersPlanned_done.
  - cbn [registerFields plannedFields]. cbv zeta.
    apply (registersPlanned_seq registry r wr
             (fun w => if String.eqb (tagGet (fieldTag field) "api") EmptyString
                       then (w, Done tt)
                       else registerTagParts (register fieldInterface) path
                              (Split ";" (tagGet (fieldTag field) "api")) w)
             _ _ _); [|exact IH].
    destruct (String.eqb (tagGet (fieldTag field) "api") EmptyString).
    + apply registersPlanned_done.
    + apply registerTagParts_planned. exact Hf.
Qed.

Lemma Register_planned registry r wr : forall f path,
  registersPlanned registry r wr (RestfulWrapper_Register registry r path f)
    (plannedRoutes path f).
Proof.
  intros f. induction f as [t methods k fields IH] using Registrable_nested_ind.
  intros path. cbn [RestfulWrapper_Register plannedRoutes].
  destruct k;
    try (intros w service Hr Hs;
         destruct (registerMethods_planned registry r wr path methods w service Hr Hs)
           as (w1 & o1 & a1 & E1 & A1 & D1 & F1);
         rewrite E1; destruct o1 as [[]|e|why];
         [ eexists w1, _, a1; split; [reflexivity|]; split; [exact A1|];
           split; discriminate
         | exfalso; exact (F1 e eq_refl)
         | eexists w1, _, a1; split; [reflexivity|]; split; [exact A1|];
           split; discriminate ]).
  apply (registersPlanned_seq registry r wr _ _ _ _
           (registerMethods_planned registry r wr path methods)).
  apply registerFields_planned. exact IH.
Qed.

(** X20: [Register] changes nothing in the store but the web service of the
    wrapper, to which it only adds routes, and this whether it returns or
    panics; it never returns an error.  When it returns normally, it has
    added exactly one route for each planned method, in order: the methods of
    the value registered below the path, then, field by field, those of the
    values of the fields tagged [httppath], registered below the extended
    path.  The route of a method has the HTTP method its metadata declares
    and the route path made of the registration path and the declared
    path. *)
Theorem Register_adds_one_route_per_method_in_order
    (registry : Registry) (r : Loc) (wr : RestfulWrapper) (path : string)
    (f : Registrable) (w : World) (service : RestfulWebService) :
  wrappers w !! r = Some wr ->
  webServices w !! rwWs wr = Some service ->
  exists w' o added,
    RestfulWrapper_Register registry r path f w = (w', o)
    /\ routesAdded (rwWs wr) w w' added
    /\ (o = Done tt ->
        Forall2 (registeredRoute registry wr r) (plannedRoutes path f) added)
    /\ (forall e, o <> Fail e).
Proof.
  intros Hr Hs. exact (Register_planned registry r wr f path w service Hr Hs).
Qed.

Lemma registerMethods_all_analysed registry r wr path methods : forall w service,
  wrappers w !! r = Some wr ->
  webServices w !! rwWs wr = Some service ->
  Forall (fun m => exists info,
            ParseRestfulFunction registry (Some (snd m)) = Done info) methods ->
  exists w' added,
    registerMethods registry r path methods w = (w', Done tt)
    /\ routesAdded (rwWs wr) w w' added
    /\ Forall2 (registeredRoute registry wr r)
         (List.map (fun m => (path, fst m, snd m)) methods) added.
Proof.
  induction methods as [|[name method] rest IH]; intros w service Hr Hs Hall.
  - exists w, []. split; [reflexivity|]. split; [exact (routesAdded_refl _ _ _ Hs)|].
    constructor.
  - inversion Hall as [|? ? [info Hinfo] Hrest]; subst. cbn [snd] in Hinfo.
    pose proof (registerMethod_spec registry r path name method w wr service Hr Hs) as H.
    rewrite Hinfo in H. destruct H as (w1 & Hrun & Hadd).
    cbn [registerMethods]. rewrite Hrun.
    pose proof Hadd as (Hw & Ha & Hn & Ho & service0 & Hs0 & Hs1).
    assert (Hr1 : wrappers w1 !! r = Some wr) by (rewrite Hw; exact Hr).
    destruct (IH w1 _ Hr1 Hs1 Hrest) as (w2 & added & Hrun2 & Hadd2 & Hall2).
    exists w2, ([routeFor wr r path info] ++ added)%list.
    split; [exact Hrun2|]. split; [exact (routesAdded_trans _ _ _ _ _ _ Hadd Hadd2)|].
    constructor; [|exact Hall2]. exists info. split; [exact Hinfo|reflexivity].
Qed.

Lemma registerMethods_app registry r path pre rest : forall w,
  registerMethods registry r path (pre ++ rest) w
  = match registerMethods registry r path pre w with
    | (w, Done _) => registerMethods registry r path rest w
    | other => other
    end.
Proof.
  induction pre as [|[name method] pre IH]; intros w; [reflexivity|].
  cbn [registerMethods app].
  destruct (registerMethod registry r path name method w) as [w1 [[]|e|why]];
    [apply IH | reflexivity | reflexivity].
Qed.

(** X21: when a method of the value cannot be analysed, [Register] panics
    with "could not parse function: ", the name of the method and the error
    of the analysis.  The routes of the methods before it have been added to
    the web service by then and stay; no route is added for that method, for
    a later one, or for a field of the value. *)
Theorem Register_panics_at_the_first_method_that_cannot_be_analysed
    (registry : Registry) (r : Loc) (wr : RestfulWrapper) (path : string)
    (t : string) (pre post : list (string * FuncValue)) (name : string)
    (method : FuncValue) (k : Kind) (fields : list (StructField * Registrable))
    (w : World) (service : RestfulWebService) (err : GoError) :
  wrappers w !! r = Some wr ->
  webServices w !! rwWs wr = Some service ->
  Forall (fun m => exists info,
            ParseRestfulFunction registry (Some (snd m)) = Done info) pre ->
  ParseRestfulFunction registry (Some method) = Fail err ->
  exists w' added,
    RestfulWrapper_Register registry r path
      (mkRegistrable t (pre ++ (name, method) :: post) k fields) w
    = (w', Panic ("could not parse function: " ++ name ++ ": " ++ errorText err))
    /\ routesAdded (rwWs wr) w w' added
    /\ Forall2 (registeredRoute registry wr r)
         (List.map (fun m => (path, fst m, snd m)) pre) added.
Proof.
  intros Hr Hs Hpre Hfail.
  destruct (registerMethods_all_analysed registry r wr path pre w service Hr Hs Hpre)
    as (w1 & added & Hrun & Hadd & Hall).
  exists w1, added. split; [|split; assumption].
  cbn [RestfulWrapper_Register]. rewrite registerMethods_app, Hrun.
  cbn [registerMethods].
  pose proof Hadd as (Hw & Ha & Hn & Ho & service0 & Hs0 & Hs1).
  assert (Hr1 : wrappers w1 !! r = Some wr) by (rewrite Hw; exact Hr).
  pose proof (registerMethod_spec registry r path name method w1 wr _ Hr1 Hs1) as H.
  rewrite Hfail in H. rewrite H. reflexivity.
Qed.
(* ===================================================================== *)
(** * What a route declares *)
(* ===================================================================== *)

Lemma builtin_keeps_response_example k (rf : RegisterFunction) :
  registeredFunctionMap !! k = Some (Some rf) ->
  forall v field info, ResponseExample (fst (rf v field info)) = ResponseExample info.
Proof.
  intros H v field info. apply registered_builtin in H.
  unfold initSteps in H. simpl in H.
  repeat (destruct H as [[= <- <-]|H]); [..|contradiction].
  - unfold bodyFactory.
    destruct (if String.eqb v EmptyString then _ else _) as [[consumes allowEmpty]|err];
      [|reflexivity].
    destruct allowEmpty; simpl; split_branches; reflexivity.
  - unfold docFactory, stringKindOr. split_branches; reflexivity.
  - unfold headerFactory. split_branches; reflexivity.
  - unfold httpmethodFactory, stringKindOr. split_branches; reflexivity.
  - unfold httppathFactory, stringKindOr. split_branches; reflexivity.
  - unfold httprequestFactory. split_branches; reflexivity.
  - unfold notesFactory, stringKindOr. split_branches; reflexivity.
  - unfold pathFactory. split_branches; reflexivity.
  - unfold producesFactory. split_branches; reflexivity.
  - unfold queryFactory. split_branches; reflexivity.
  - unfold restfulrequestFactory. split_branches; reflexivity.
Qed.

(** The response example of an analysed function: a pointer to the zero
    value of the type of its non-error result, nil when it has none. *)
Lemma ParseRestfulFunction_response_example fv info :
  ParseRestfulFunction registeredFunctionMap (Some fv) = Done info ->
  ResponseExample info
  = if 0 <=? OutResponsePosition info
    then let t := typeAt (typeOut (fnType fv)) (OutResponsePosition info) in
         Some (pointerTo t, VPtr (zeroValue t))
    else None.
Proof.
  unfold ParseRestfulFunction.
  destruct (typeKind (fnType fv)) eqn:Hk; try discriminate.
  destruct (classifyIn _ _ _ _ _) as [[[ctx meta] mt]|e] eqn:Hin; [|discriminate].
  destruct (classifyOut _ _ _ _) as [[err resp]|e] eqn:Hout; [|discriminate].
  cbv zeta.
  set (info0 := if 0 <=? OutResponsePosition _ then _ else _).
  pose (I := fun i : RestfulFunctionInfo =>
               slots i = (ctx, meta, err, resp)
               /\ ResponseExample i
                  = if 0 <=? resp
                    then Some (pointerTo (typeAt (typeOut (fnType fv)) resp),
                               VPtr (zeroValue (typeAt (typeOut (fnType fv)) resp)))
                    else None).
  assert (H0 : I info0).
  { unfold I, info0. cbn. destruct (0 <=? resp); split; reflexivity. }
  assert (Hfinal : forall i, I i ->
            ResponseExample i
            = if 0 <=? OutResponsePosition i
              then let t := typeAt (typeOut (fnType fv)) (OutResponsePosition i) in
                   Some (pointerTo t, VPtr (zeroValue t))
              else None).
  { intros i [Hs He]. unfold slots in Hs. injection Hs as _ _ _ Hresp.
    rewrite Hresp. exact He. }
  destruct (0 <=? InMetadataPosition info0).
  - fold (metadataStruct (typeAt (typeIn (fnType fv)) (InMetadataPosition info0))).
    destruct (typeKind (metadataStruct _)); try discriminate.
    intros Hparse. apply Hfinal.
    apply (parseFields_invariant registeredFunctionMap I) with (3 := H0) (4 := Hparse).
    + intros k rf Hr v field i [Hs He]. split.
      * rewrite (builtin_keepsSlots k rf Hr). exact Hs.
      * rewrite (builtin_keeps_response_example k rf Hr). exact He.
    + intros fields i Hi. exact Hi.
  - intros [= <-]. apply Hfinal. exact H0.
Qed.

Lemma returnsCalls_app (a b : RouteBuilder) :
  returnsCalls (a ++ b)%list = (returnsCalls a ++ returnsCalls b)%list.
Proof. apply flat_map_app. Qed.

Lemma returnsCalls_parameters {A} (calls : A -> list BuilderCall) parameters :
  (forall p, returnsCalls (calls p) = [badRequestReturn]) ->
  returnsCalls (flat_map calls parameters)
  = repeat badRequestReturn (length parameters).
Proof.
  intros H. induction parameters as [|p rest IH]; [reflexivity|].
  cbn [flat_map length repeat]. rewrite returnsCalls_app, H, IH. reflexivity.
Qed.

(** X22: the responses a route documents.  [UpdateRouteBuilder] documents a
    400 "Bad Request" once for each header, path and query parameter of the
    route and once more when the route reads a body, and, for an analysed
    function, a 200 "OK" exactly when the function has a result that is not
    an error, its model being a pointer to the zero value of the type of that
    result; it documents no other response. *)
Theorem documented_responses_follow_the_parameters_and_the_result
    (fv : FuncValue) (info : RestfulFunctionInfo) (routeBuilder : RouteBuilder) :
  ParseRestfulFunction registeredFunctionMap (Some fv) = Done info ->
  returnsCalls (UpdateRouteBuilder info routeBuilder)
  = (returnsCalls routeBuilder
     ++ repeat badRequestReturn
          (length (HeaderParameters info) + length (PathParameters info)
           + length (QueryParameters info)
           + match BodyExample info with Some _ => 1 | None => 0 end)
     ++ if 0 <=? OutResponsePosition info
        then let t := typeAt (typeOut (fnType fv)) (OutResponsePosition info) in
             [(StatusOK, "OK", Some (pointerTo t, VPtr (zeroValue t)))]
        else [])%list.
Proof.
  intros Hparse. unfold UpdateRouteBuilder.
  rewrite (ParseRestfulFunction_response_example fv info Hparse).
  rewrite !returnsCalls_app.
  rewrite (returnsCalls_parameters headerParameterCalls) by reflexivity.
  rewrite (returnsCalls_parameters pathParameterCalls) by reflexivity.
  rewrite (returnsCalls_parameters queryParameterCalls) by reflexivity.
  f_equal. rewrite !repeat_app, <- !app_assoc. f_equal. f_equal. f_equal.
  destruct (Consumes info), (Produces info), (BodyExample info),
    (0 <=? OutResponsePosition info); reflexivity.
Qed.

Lemma contentTypeCalls_parameters {A} (calls : A -> list BuilderCall) parameters :
  (forall p, consumesCalls (calls p) = [] /\ producesCalls (calls p) = []) ->
  consumesCalls (flat_map calls parameters) = []
  /\ producesCalls (flat_map calls parameters) = [].
Proof.
  intros H. induction parameters as [|p rest [IHc IHp]]; [split; reflexivity|].
  cbn [flat_map]. unfold consumesCalls, producesCalls in *.
  rewrite !flat_map_app. destruct (H p) as [-> ->]. rewrite IHc, IHp.
  split; reflexivity.
Qed.

Lemma contentTypeCalls_UpdateRouteBuilder info (routeBuilder : RouteBuilder) :
  consumesCalls (UpdateRouteBuilder info routeBuilder)
  = (consumesCalls routeBuilder ++ unlessEmpty (Consumes info))%list
  /\ producesCalls (UpdateRouteBuilder info routeBuilder)
     = (producesCalls routeBuilder ++ unlessEmpty (Produces info))%list.
Proof.
  unfold UpdateRouteBuilder.
  destruct (contentTypeCalls_parameters headerParameterCalls (HeaderParameters info))
    as [Hc1 Hp1]; [intros p; split; reflexivity|].
  destruct (contentTypeCalls_parameters pathParameterCalls (PathParameters info))
    as [Hc2 Hp2]; [intros p; split; reflexivity|].
  destruct (contentTypeCalls_parameters queryParameterCalls (QueryParameters info))
    as [Hc3 Hp3]; [intros p; split; reflexivity|].
  unfold consumesCalls, producesCalls in *. rewrite !flat_map_app.
  rewrite Hc1, Hc2, Hc3, Hp1, Hp2, Hp3.
  destruct (Consumes info), (Produces info), (BodyExample info), (ResponseExample info);
    split; cbn; rewrite ?app_nil_r; reflexivity.
Qed.

(** X23: the content types a route declares.  A route wrapper passes its
    own content types to the route builder, or those of its wrapper when it
    has none, or none at all; [UpdateRouteBuilder] then declares those of the
    [body] directive when there are any, so that they come last.  On a route
    that [Register] builds, the content types of the wrapper are declared
    first and those of the [body] directive after them. *)
Theorem route_declares_the_content_types_of_the_directive_last
    (rr : RestfulRouteWrapper) (w : World) (wr : RestfulWrapper)
    (info : RestfulFunctionInfo) (r : Loc) (path : string) :
  wrappers w !! rrWs rr = Some wr ->
  (exists routeBuilder,
     RestfulRouteWrapper_RouteBuilder rr w = Done routeBuilder
     /\ consumesCalls (UpdateRouteBuilder info routeBuilder)
        = (unlessEmpty (firstUnlessEmpty (rrConsumes rr) (rwConsumes wr))
           ++ unlessEmpty (Consumes info))%list
     /\ producesCalls (UpdateRouteBuilder info routeBuilder)
        = (unlessEmpty (firstUnlessEmpty (rrProduces rr) (rwProduces wr))
           ++ unlessEmpty (Produces info))%list)
  /\ consumesCalls (routeFor wr r path info)
     = (unlessEmpty (rwConsumes wr) ++ unlessEmpty (Consumes info))%list
  /\ producesCalls (routeFor wr r path info)
     = (unlessEmpty (rwProduces wr) ++ unlessEmpty (Produces info))%list.
Proof.
  intros Hr. split.
  - unfold RestfulRouteWrapper_RouteBuilder. rewrite Hr. eexists. split; [reflexivity|].
    destruct (contentTypeCalls_UpdateRouteBuilder info
                ([CallMethod (rrMethod rr); CallPath (rrPath rr);
                  CallTo (wrappedFunction (rrFunctionWithError rr));
                  CallFilterSetAttributes (rwAttributes wr);
                  CallDo (rrDoFunctions rr)]
                 ++ match rrConsumes rr, rwConsumes wr with
                    | _ :: _, _ => [CallConsumes (rrConsumes rr)]
                    | [], _ :: _ => [CallConsumes (rwConsumes wr)]
                    | [], [] => []
                    end
                 ++ match rrProduces rr, rwProduces wr with
                    | _ :: _, _ => [CallProduces (rrProduces rr)]
                    | [], _ :: _ => [CallProduces (rwProduces wr)]
                    | [], [] => []
                    end)%list) as [Hc Hp].
    rewrite Hc, Hp.
    destruct (rrConsumes rr), (rwConsumes wr), (rrProduces rr), (rwProduces wr);
      split; reflexivity.
  - unfold routeFor. cbv zeta.
    match goal with
    | |- context [UpdateRouteBuilder ?i ?b] =>
        destruct (contentTypeCalls_UpdateRouteBuilder i b) as [Hc Hp]
    end.
    rewrite Hc, Hp.
    destruct (rwConsumes wr), (rwProduces wr); split; reflexivity.
Qed.
(* ===================================================================== *)
(** * The metadata of a route as a function of its directives *)
(* ===================================================================== *)

(** What a built-in factory that succeeds does to the declared metadata of
    the route: the directive with the key [k] overwrites the method, the
    path, the documentation or the notes, or adds to the produced content
    types, the path parameters or the header parameters. *)
Lemma builtin_factory_metadata k (rf : RegisterFunction) :
  registeredFunctionMap !! k = Some (Some rf) ->
  forall v field info r,
    snd (rf v field info) = Ok r ->
    let info' := fst (rf v field info) in
    HTTPMethod info' = (if String.eqb k "httpmethod" then v else HTTPMethod info)
    /\ HTTPPath info' = (if String.eqb k "httppath" then v else HTTPPath info)
    /\ Doc info' = (if String.eqb k "doc" then fieldDescription field else Doc info)
    /\ Notes info' = (if String.eqb k "notes" then fieldDescription field else Notes info)
    /\ Produces info'
       = (Produces info ++ if String.eqb k "produces" then [v] else [])%list
    /\ PathParameters info'
       = (PathParameters info
          ++ if String.eqb k "path"
             then [mkPathParameter (fieldName field) v (fieldDescription field)]
             else [])%list
    /\ HeaderParameters info'
       = (HeaderParameters info
          ++ if String.eqb k "header"
             then [mkHeaderParameter (fieldName field) v (fieldDescription field) false]
             else [])%list.
Proof.
  intros H v field info r. apply registered_builtin in H.
  unfold initSteps in H. simpl in H. unfold fieldDescription.
  repeat (destruct H as [[= <- <-]|H]); [..|contradiction]; eval_literal_eqb.
  - unfold bodyFactory.
    destruct (if String.eqb v EmptyString then _ else _) as [[consumes allowEmpty]|err];
      [|discriminate].
    destruct allowEmpty; simpl; split_branches; simpl; intros H; try discriminate;
      rewrite ?app_nil_r; repeat split; reflexivity.
  - unfold docFactory, stringKindOr. split_branches; simpl; intros H; try discriminate;
      rewrite ?app_nil_r; repeat split; reflexivity.
  - unfold headerFactory. split_branches; simpl; intros H; try discriminate;
      rewrite ?app_nil_r; repeat split; reflexivity.
  - unfold httpmethodFactory, stringKindOr. split_branches; simpl; intros H;
      try discriminate; rewrite ?app_nil_r; repeat split; reflexivity.
  - unfold httppathFactory, stringKindOr. split_branches; simpl; intros H;
      try discriminate; rewrite ?app_nil_r; repeat split; reflexivity.
  - unfold httprequestFactory. split_branches; simpl; intros H; try discriminate;
      rewrite ?app_nil_r; repeat split; reflexivity.
  - unfold notesFactory, stringKindOr. split_branches; simpl; intros H;
      try discriminate; rewrite ?app_nil_r; repeat split; reflexivity.
  - unfold pathFactory. split_branches; simpl; intros H; try discriminate;
      rewrite ?app_nil_r; repeat split; reflexivity.
  - unfold producesFactory. split_branches; simpl; intros H; try discriminate;
      rewrite ?app_nil_r; repeat split; reflexivity.
  - unfold queryFactory. split_branches; simpl; intros H; try discriminate;
      rewrite ?app_nil_r; repeat split; reflexivity.
  - unfold restfulrequestFactory. split_branches; simpl; intros H; try discriminate;
      rewrite ?app_nil_r; repeat split; reflexivity.
Qed.

Lemma handleField_declared : forall field info,
  snd (handleField registeredFunctionMap info field) = Done tt ->
  declared (fst (handleField registeredFunctionMap info field))
  = fold_left declare (directiveFields field) (declared info).
Proof.
  intros field.
  induction field as [name anonymous tag s k m e fields i o IH]
    using StructField_nested_ind.
  intros info. destruct anonymous.
  - cbn [handleField directiveFields].
    destruct k; try discriminate.
    revert info. induction IH as [|f rest Hf _ IHrest]; intros info.
    + intros _. reflexivity.
    + specialize (Hf info).
      destruct (handleField registeredFunctionMap info f) as [info' [[]|err|why]];
        simpl in *; try discriminate.
      intros Hrest. rewrite (IHrest info' Hrest), (Hf eq_refl).
      rewrite fold_left_app. reflexivity.
  - rewrite handleField_plain. cbn [directiveFields]. unfold isIgnoredField.
    cbn [fieldAnonymous fieldTag negb andb]. cbv zeta.
    destruct (String.eqb (tagGet tag "api") EmptyString); [reflexivity|].
    cbn [orb].
    set (field := mkStructField name false tag (mkType s k m e fields i o)).
    assert (Hkey : directiveKey field = fst (SplitN2 ":" (tagGet tag "api")))
      by reflexivity.
    assert (Hvalue : directiveValue field
                     = match snd (SplitN2 ":" (tagGet tag "api")) with
                       | Some x => x
                       | None => EmptyString
                       end) by reflexivity.
    destruct (SplitN2 ":" (tagGet tag "api")) as [apiTagKey after].
    cbn [fst snd] in *. destruct (String.eqb apiTagKey "-"); [reflexivity|].
    destruct (registeredFunctionMap !! apiTagKey) as [[rf|]|] eqn:Hr; try discriminate.
    pose proof (builtin_factory_metadata _ _ Hr
                  (match after with Some x => x | None => EmptyString end)
                  field info) as Hmeta.
    destruct (rf _ field info) as [info' [r|err]]; simpl in *; [|discriminate].
    intros _. destruct (Hmeta r eq_refl) as (H1 & H2 & H3 & H4 & H5 & H6 & H7).
    unfold declared, declare. rewrite Hkey, Hvalue.
    destruct r as [fn|]; cbn [fst setInputFields HTTPMethod HTTPPath Doc Notes Produces
                                 PathParameters HeaderParameters];
      rewrite H1, H2, H3, H4, H5, H6, H7; unfold pathParameterOf, headerParameterOf;
      rewrite Hvalue; reflexivity.
Qed.

Lemma parseFields_declared fields : forall info info',
  parseFields registeredFunctionMap info fields = Done info' ->
  declared info' = fold_left declare (flat_map directiveFields fields) (declared info).
Proof.
  induction fields as [|f rest IH]; intros info info'; simpl.
  - intros [= <-]. reflexivity.
  - pose proof (handleField_declared f info) as Hf.
    destruct (handleField registeredFunctionMap info f) as [info1 [[]|err|why]];
      simpl in *; try discriminate.
    intros H. rewrite (IH _ _ H), (Hf eq_refl), fold_left_app. reflexivity.
Qed.

(** The components of the declared metadata after a sequence of
    directives. *)
Lemma declare_fold fields : forall method path doc notes produces pathParameters
    headerParameters,
  fold_left declare fields
    (method, path, doc, notes, produces, pathParameters, headerParameters)
  = (lastOf "httpmethod" directiveValue fields method,
     lastOf "httppath" directiveValue fields path,
     lastOf "doc" fieldDescription fields doc,
     lastOf "notes" fieldDescription fields notes,
     (produces ++ List.map directiveValue (directivesWith "produces" fields))%list,
     (pathParameters ++ List.map pathParameterOf (directivesWith "path" fields))%list,
     (headerParameters
      ++ List.map headerParameterOf (directivesWith "header" fields))%list).
Proof.
  induction fields as [|f rest IH]; intros; cbn [fold_left].
  - unfold lastOf, directivesWith. simpl. rewrite !app_nil_r. reflexivity.
  - unfold declare at 2. rewrite IH. unfold lastOf, directivesWith.
    cbn [fold_left List.filter].
    destruct (String.eqb (directiveKey f) "produces"),
      (String.eqb (directiveKey f) "path"), (String.eqb (directiveKey f) "header");
      cbn [List.map]; rewrite <- ?app_assoc, ?app_nil_r; reflexivity.
Qed.

(** X24: the declared metadata of a route is a function of the directive
    fields of its metadata struct, taken in the order of the walk.  The HTTP
    method and the path are the values of the last [httpmethod] and the last
    [httppath] directive; the documentation and the notes are the
    [description] tags of the last [doc] and the last [notes] directive; each
    of them is empty when there is no such directive.  The produced content
    types, the path parameters and the header parameters are one per
    [produces], [path] and [header] directive, in order; a header parameter
    is never declared as allowing several values. *)
Theorem route_metadata_follows_the_directives_in_order
    (fv : FuncValue) (info : RestfulFunctionInfo) :
  ParseRestfulFunction registeredFunctionMap (Some fv) = Done info ->
  let fields :=
    if 0 <=? InMetadataPosition info
    then flat_map directiveFields
           (typeFields (metadataStruct
                          (typeAt (typeIn (fnType fv)) (InMetadataPosition info))))
    else [] in
  HTTPMethod info = lastOf "httpmethod" directiveValue fields EmptyString
  /\ HTTPPath info = lastOf "httppath" directiveValue fields EmptyString
  /\ Doc info = lastOf "doc" fieldDescription fields EmptyString
  /\ Notes info = lastOf "notes" fieldDescription fields EmptyString
  /\ Produces info = List.map directiveValue (directivesWith "produces" fields)
  /\ PathParameters info = List.map pathParameterOf (directivesWith "path" fields)
  /\ HeaderParameters info = List.map headerParameterOf (directivesWith "header" fields).
Proof.
  intros Hparse fields.
  assert (Hdeclared :
    declared info
    = fold_left declare fields
        (EmptyString, EmptyString, EmptyString, EmptyString, [], [], [])).
  { subst fields.
    destruct (ParseRestfulFunction_done _ info Hparse)
      as (fv' & mt & [= <-] & Hfv & Hk & Hin & Hout & Hstruct & Hb).
    revert Hparse. unfold ParseRestfulFunction. rewrite Hk, Hin, Hout. cbv zeta.
    set (info0 := if 0 <=? OutResponsePosition _ then _ else _).
    assert (H0 : declared info0
                 = (EmptyString, EmptyString, EmptyString, EmptyString, [], [], [])).
    { unfold info0. destruct (0 <=? OutResponsePosition _); reflexivity. }
    assert (Hmeta : InMetadataPosition info0 = InMetadataPosition info).
    { unfold info0. destruct (0 <=? OutResponsePosition _); reflexivity. }
    rewrite Hmeta. destruct (0 <=? InMetadataPosition info) eqn:Hpos.
    - fold (metadataStruct (typeAt (typeIn (fnType fv)) (InMetadataPosition info))).
      rewrite (Hstruct (proj1 (Z.leb_le _ _) Hpos)).
      intros Hparse. apply parseFields_declared in Hparse.
      rewrite Hparse, H0. reflexivity.
    - intros [= Hinfo]. rewrite <- Hinfo. exact H0. }
  rewrite declare_fold in Hdeclared. unfold declared in Hdeclared.
  injection Hdeclared as H1 H2 H3 H4 H5 H6 H7.
  repeat split; assumption.
Qed.
(* ===================================================================== *)
(** * Further properties of the path, header and query binders *)
(* ===================================================================== *)

(** X25: on a settable field without [ParameterParser] whose kind is not a
    float kind, the path binder and the header binder store the value that
    the text of the request denotes at the kind of the field, and return
    their parameter error, naming the parameter, exactly when the text
    denotes no value of that kind (no text denotes a value of a kind that is
    not boolean, integer or string). *)
Theorem path_and_header_values_are_bound_when_they_denote
    (v : Value) (name : string) (ar : InfoAtRequest) (req : Request)
    (metadataValue : GoValue) :
  IntSize P = 32 \/ IntSize P = 64 ->
  CanSet v = true ->
  parameterParser (typeMethods (valueType v)) = None ->
  isFloatKind (typeKind (valueType v)) = false ->
  match denotes (typeKind (valueType v)) (reqPathParameter req name) with
  | Some d => pathBinder name ar v req metadataValue = Done d
  | None =>
      exists err,
        pathBinder name ar v req metadataValue
        = Fail (NewAPIPathParameterError name err)
  end
  /\ match denotes (typeKind (valueType v)) (reqHeaderParameter req name) with
     | Some d => headerBinder name ar v req metadataValue = Done d
     | None =>
         exists err,
           headerBinder name ar v req metadataValue
           = Fail (NewAPIHeaderParameterError name err)
     end.
Proof.
  intros HP Hset Hp Hfl. unfold pathBinder, headerBinder.
  rewrite addrInterface_settable by exact Hset. split.
  - pose proof (parse_denotes (valueType v) (valueData v) (reqPathParameter req name)
                  HP Hp Hfl) as H.
    destruct (denotes _ _) as [d|]; [rewrite H; reflexivity|].
    destruct (parseStringToSingleValue _ _) as [d|err]; [discriminate|]. eauto.
  - pose proof (parse_denotes (valueType v) (valueData v) (reqHeaderParameter req name)
                  HP Hp Hfl) as H.
    destruct (denotes _ _) as [d|]; [rewrite H; reflexivity|].
    destruct (parseStringToSingleValue _ _) as [d|err]; [discriminate|]. eauto.
Qed.

Lemma parseSliceItems_length name item texts : forall ds,
  parseSliceItems name item texts = Done ds -> length ds = length texts.
Proof.
  induction texts as [|text rest IH]; intros ds; simpl.
  - intros [= <-]. reflexivity.
  - destruct (parseInto text item (zeroValue item)) as [d|e]; [|discriminate].
    destruct (parseSliceItems name item rest) as [ds'|e|why]; try discriminate.
    intros [= <-]. simpl. rewrite (IH ds' eq_refl). reflexivity.
Qed.

Lemma parseSliceItems_no_panic name item texts why :
  parseSliceItems name item texts <> Panic why.
Proof.
  induction texts as [|text rest IH]; simpl; [discriminate|].
  destruct (parseInto text item (zeroValue item)) as [d|e]; [|discriminate].
  destruct (parseSliceItems name item rest) as [ds'|e|why']; try discriminate.
  exact IH.
Qed.

Lemma parseSliceItems_fail_name name item texts : forall err,
  parseSliceItems name item texts = Fail err ->
  exists inner, err = NewAPIQueryParameterError name inner.
Proof.
  induction texts as [|text rest IH]; intros err; simpl; [discriminate|].
  destruct (parseInto text item (zeroValue item)) as [d|e].
  - destruct (parseSliceItems name item rest) as [ds|e'|why]; try discriminate.
    intros [= <-]. apply IH. reflexivity.
  - intros [= <-]. eauto.
Qed.

(** X26: on a settable slice field the query binder always stores a new
    slice, with one element for each text it goes on with, in order: the
    values of the first name that has any, else the default of the field,
    else nothing, in which case the field becomes the empty slice whatever it
    held.  It fails only with the query parameter error for the name it took
    the values from, and it does not panic. *)
Theorem query_slice_field_gets_one_element_per_value
    (names : list string) (field : StructField) (v : Value)
    (ar : InfoAtRequest) (req : Request) (metadataValue : GoValue) :
  CanSet v = true ->
  valueKind v = KSlice ->
  let name := fst (firstPresent req names) in
  let texts :=
    match snd (firstPresent req names), tagLookup (fieldTag field) "default" with
    | [], Some defaultValue => [defaultValue]
    | found, _ => found
    end in
  match queryBinder names field ar v req metadataValue with
  | Done d => exists ds, d = VSlice ds /\ length ds = length texts
  | Fail err => exists inner, err = NewAPIQueryParameterError name inner
  | Panic _ => False
  end
  /\ (texts = [] -> queryBinder names field ar v req metadataValue = Done (VSlice [])).
Proof.
  intros Hset Hk name texts. subst name texts. unfold queryBinder.
  destruct (firstPresent req names) as [name found]. cbn [fst snd]. rewrite Hk.
  unfold parseQueryValues. rewrite Hset. cbn [negb].
  assert (Hall : forall texts,
            match
              match parseSliceItems name (elemType (valueType v)) texts with
              | Done ds => Done (VSlice ds)
              | Fail e => Fail e
              | Panic why => Panic why
              end
            with
            | Done d => exists ds, d = VSlice ds /\ length ds = length texts
            | Fail err => exists inner, err = NewAPIQueryParameterError name inner
            | Panic _ => False
            end).
  { intros texts.
    destruct (parseSliceItems name _ texts) as [ds|e|why] eqn:E.
    - exists ds. split; [reflexivity|]. exact (parseSliceItems_length _ _ _ _ E).
    - exact (parseSliceItems_fail_name _ _ _ _ E).
    - exact (parseSliceItems_no_panic _ _ _ _ E). }
  destruct found as [|text rest];
    [destruct (tagLookup (fieldTag field) "default") as [defaultValue|]|];
    (split; [apply Hall | intros H; try discriminate H; reflexivity]).
Qed.

End Engine.

(* ===================================================================== *)
(** * The statements at sample inputs *)
(* ===================================================================== *)


(** [func(string) {}] has at most one parameter and result of each sort, and
    analysis fails on it: its parameter is not a struct. *)
Lemma ParseRestfulFunction_rejects_string_parameter :
  typeKind (fnType stringParameterFunction) = KFunc
  /\ atMostOneOfEach (fnType stringParameterFunction)
  /\ ParseRestfulFunction samplePlatform (registeredFunctionMap samplePlatform)
       (Some stringParameterFunction)
     = Fail (errorf "unexpected input type: string").
Proof.
  split; [reflexivity|]. split.
  - unfold atMostOneOfEach, countIf. simpl. lia.
  - reflexivity.
Qed.

(** [func(ctx context.Context, meta IDMetadata) (string, error)] is analysed
    with the context at 0, the metadata at 1, the response at 0 and the
    error at 1; a function of two contexts fails analysis. *)
Lemma ParseRestfulFunction_slots_witness :
  let f := handlerOf idMetadata [RValue (VString "ok"); RNil] in
  keepsSlots (registeredFunctionMap samplePlatform)
  /\ typeKind (fnType f) = KFunc
  /\ atMostOneOfEach (fnType f)
  /\ metadataAccepted samplePlatform (registeredFunctionMap samplePlatform) f
  /\ (exists info,
        ParseRestfulFunction samplePlatform (registeredFunctionMap samplePlatform) (Some f)
        = Done info
        /\ slots info = (0, 1, 1, 0))
  /\ twoOfSomeSort (fnType twoContextsFunction)
  /\ exists e,
       ParseRestfulFunction samplePlatform (registeredFunctionMap samplePlatform)
         (Some twoContextsFunction) = Fail e.
Proof.
  intros f.
  assert (Hkeep := builtin_keepsSlots samplePlatform).
  assert (Hone : atMostOneOfEach (fnType f))
    by (unfold atMostOneOfEach, countIf; simpl; lia).
  assert (Hacc : metadataAccepted samplePlatform (registeredFunctionMap samplePlatform) f).
  { unfold metadataAccepted. simpl. split; [reflexivity|]. eexists. reflexivity. }
  assert (Htwo : twoOfSomeSort (fnType twoContextsFunction))
    by (left; unfold countIf; simpl; lia).
  split; [exact Hkeep|]. split; [reflexivity|]. split; [exact Hone|].
  split; [exact Hacc|]. split; [|split; [exact Htwo|]].
  - exact (proj2 (ParseRestfulFunction_slots samplePlatform _ f Hkeep) eq_refl Hone Hacc).
  - exact (proj1 (ParseRestfulFunction_slots samplePlatform _ twoContextsFunction Hkeep)
             Htwo).
Defined.

(** [query:key1,oldKey] with default "7" on an [int] field: 5 from [key1]
    when both names are present, 6 from [oldKey] alone, 7 by default. *)
Lemma query_binder_first_name_then_alias_then_default_witness :
  let binder := queryBinder samplePlatform ["key1"; "oldKey"] aliasedQueryField in
  let ar := mkInfoAtRequest EmptyString EmptyString [] in
  snd (queryFactory samplePlatform "key1,oldKey" aliasedQueryField
         (newInfo stringParameterFunction)) = Ok (Some binder)
  /\ binder ar intFieldValue (queryRequest ["5"] ["6"]) VNil = Done (VInt 5)
  /\ binder ar intFieldValue (queryRequest [] ["6"; "8"]) VNil = Done (VInt 6)
  /\ binder ar intFieldValue (queryRequest [] []) VNil = Done (VInt 7).
Proof.
  intros binder ar.
  assert (Hf : snd (queryFactory samplePlatform "key1,oldKey" aliasedQueryField
                      (newInfo stringParameterFunction)) = Ok (Some binder))
    by reflexivity.
  split; [exact Hf|].
  split; [|split].
  - exact (proj1 (proj1 (query_binder_first_name_then_alias_then_default samplePlatform
                    aliasedQueryField _ binder ar intFieldValue
                    (queryRequest ["5"] ["6"]) VNil Hf)) "5" [] eq_refl).
  - exact (proj1 (proj2 (proj1 (query_binder_first_name_then_alias_then_default
                    samplePlatform aliasedQueryField _ binder ar intFieldValue
                    (queryRequest [] ["6"; "8"]) VNil Hf))) "6" ["8"] eq_refl eq_refl).
  - exact (proj2 (proj2 (proj1 (query_binder_first_name_then_alias_then_default
                    samplePlatform aliasedQueryField _ binder ar intFieldValue
                    (queryRequest [] []) VNil Hf))) "7" eq_refl eq_refl eq_refl).
Defined.

(** [query:limit] on an [int] field and a request without [limit]: no
    error, the field keeps its zero. *)
Lemma query_binder_missing_parameter_is_no_error_witness :
  let binder := queryBinder samplePlatform ["limit"] limitField in
  let ar := mkInfoAtRequest EmptyString EmptyString [] in
  let req := sampleRequest noText noValues noText in
  snd (queryFactory samplePlatform "limit" limitField (newInfo stringParameterFunction))
  = Ok (Some binder)
  /\ valueKind intFieldValue <> KSlice
  /\ (forall n, In n (List.map TrimSpace (Split "," "limit")) ->
        reqQueryParameters req n = [])
  /\ tagLookup (fieldTag limitField) "default" = None
  /\ binder ar intFieldValue req VNil = Done (VInt 0).
Proof.
  intros binder ar req.
  assert (Hf : snd (queryFactory samplePlatform "limit" limitField
                      (newInfo stringParameterFunction)) = Ok (Some binder))
    by reflexivity.
  assert (Hk : valueKind intFieldValue <> KSlice) by discriminate.
  assert (Hn : forall n, In n (List.map TrimSpace (Split "," "limit")) ->
                 reqQueryParameters req n = []) by (intros n _; reflexivity).
  split; [exact Hf|]. split; [exact Hk|]. split; [exact Hn|]. split; [reflexivity|].
  exact (proj1 (query_binder_missing_parameter_is_no_error samplePlatform "limit"
                  limitField _ binder ar intFieldValue req VNil Hf Hk Hn eq_refl)).
Defined.

(** Three binders, the second of which fails: the third does not run, the
    handler is not called, the error is written as the response. *)
Lemma binder_error_stops_binding_and_is_rendered_witness :
  let req := sampleRequest noText noValues noText in
  let err := errorf "no such tenant" in
  0 <= InMetadataPosition threeFieldsInfo
  /\ InputFields threeFieldsInfo
     = ([mkInputField "First" constantBinder]
        ++ mkInputField "Second" failingBinder
        :: [mkInputField "Third" constantBinder])%list
  /\ functionWithError threeFieldsInfo None req []
     = mkDispatch [] [Bound "First"; Bound "Second"] (Fail err)
  /\ existsb isCalled (trace (dispatch samplePlatform threeFieldsInfo None req)) = false
  /\ response (dispatch samplePlatform threeFieldsInfo None req)
     = [WriteHeaderAndEntity 500 (EntErrorOutput "*errors.errorString" "no such tenant")].
Proof.
  intros req err.
  assert (Hpos : 0 <= InMetadataPosition threeFieldsInfo) by (vm_compute; discriminate).
  split; [exact Hpos|]. split; [reflexivity|].
  destruct (binder_error_stops_binding_and_is_rendered samplePlatform threeFieldsInfo None req
              [mkInputField "First" constantBinder]
              [mkInputField "Third" constantBinder]
              (mkInputField "Second" failingBinder)
              [Bound "First"]
              (VStruct [VString "bound"; VString EmptyString; VString EmptyString])
              [1%nat] (mkValue true stringType (VString EmptyString) true) err
              Hpos eq_refl eq_refl eq_refl eq_refl) as (Hrun & Hcall & _ & Hresp).
  split; [exact Hrun|]. split; [exact Hcall|]. exact Hresp.
Defined.

(** A handler returns a value that implements [Writer] and also an error:
    the error is written, the value's [Write] is not used. *)
Lemma writer_result_with_error_renders_the_error :
  let info := redirectInfo (RError (errorf "denied")) in
  let req := sampleRequest noText noValues noText in
  nth (Z.to_nat (OutResponsePosition info))
    (fnCall (FunctionValue info) [VOpaque "ctx"; VStruct []]) RNil
  = RWriter (VOpaque "redirect") redirectWrite
  /\ dispatch samplePlatform info None req
     = mkDispatch
         [WriteHeaderAndEntity 500 (EntErrorOutput "*errors.errorString" "denied")]
         [Called [VOpaque "ctx"; VStruct []]] (Done tt)
  /\ response (dispatch samplePlatform info None req) <> redirectWrite [].
Proof.
  intros info req. split; [reflexivity|]. split; [reflexivity|]. discriminate.
Qed.

(** The same handler returning no error: the response is what [Write]
    wrote. *)
Lemma writer_result_renders_itself_witness :
  let info := redirectInfo RNil in
  let req := sampleRequest noText noValues noText in
  prepareArguments info req = ([], Done [Some (VOpaque "ctx"); Some (VStruct [])])
  /\ 0 <= OutResponsePosition info
  /\ dispatch samplePlatform info None req
     = mkDispatch [SetHeader "Location" "/elsewhere"; WriteHeaderAndEntity 302 EntNil]
         [Called [VOpaque "ctx"; VStruct []]] (Done tt).
Proof.
  intros info req.
  assert (Hpos : 0 <= OutResponsePosition info) by (vm_compute; discriminate).
  split; [reflexivity|]. split; [exact Hpos|].
  exact (writer_result_renders_itself samplePlatform info None req []
           [Some (VOpaque "ctx"); Some (VStruct [])] [VOpaque "ctx"; VStruct []]
           (VOpaque "redirect") redirectWrite
           eq_refl eq_refl eq_refl Hpos eq_refl
           (or_intror (fun e (H : RNil = RError e) =>
                         eq_ind RNil (fun r => match r with RNil => True | _ => False end)
                           I _ H))).
Defined.

(** A route with a header parameter declared before [path:id]: on a request
    whose path value is "bogus" and which lacks the header, the response
    names the header, not "id". *)
Lemma path_parse_failure_after_header_failure_reports_header :
  let info := analysed samplePlatform
                (handlerOf tokenThenIDMetadata [RValue (VString "ok"); RNil]) in
  List.map ppName (PathParameters info) = ["id"]
  /\ List.map Name (InputFields info) = ["Token"; "ID"]
  /\ dispatch samplePlatform info None bogusRequest
     = mkDispatch
         [WriteHeaderAndEntity 400
            (EntParameterErrorOutput "*restfulwrapper.APIHeaderParameterError"
               ("strconv.ParseInt: parsing " ++ dquote ++ dquote ++ ": invalid syntax")
               "X-Token")]
         [Bound "Token"] (Done tt).
Proof.
  intros info. split; [reflexivity|]. split; reflexivity.
Qed.

(** The route of [IDMetadata] on the request with path value "bogus". *)
Lemma path_parse_failure_is_bad_request_witness :
  let info := analysed samplePlatform
                (handlerOf idMetadata [RValue (VString "ok"); RNil]) in
  (IntSize samplePlatform = 32 \/ IntSize samplePlatform = 64)
  /\ 0 <= InMetadataPosition info
  /\ InputFields info
     = ([] ++ mkInputField "ID" (pathBinder samplePlatform "id") :: [])%list
  /\ denotes samplePlatform (typeKind (valueType intFieldValue))
       (reqPathParameter bogusRequest "id") = None
  /\ exists e,
       Func e = "ParseInt" /\ Num e = "bogus"
       /\ response (dispatch samplePlatform info None bogusRequest)
          = [WriteHeaderAndEntity 400
               (EntParameterErrorOutput "*restfulwrapper.APIPathParameterError"
                  (numErrorText samplePlatform e) "id")]
       /\ existsb isCalled (trace (dispatch samplePlatform info None bogusRequest)) = false.
Proof.
  intros info.
  assert (HP : IntSize samplePlatform = 32 \/ IntSize samplePlatform = 64)
    by (right; reflexivity).
  assert (Hpos : 0 <= InMetadataPosition info) by (vm_compute; discriminate).
  split; [exact HP|]. split; [exact Hpos|]. split; [reflexivity|]. split; [reflexivity|].
  destruct (path_parse_failure_is_bad_request samplePlatform info None bogusRequest
              [] [] "ID" [] (VStruct [VInt 0]) [0%nat] intFieldValue
              HP Hpos eq_refl eq_refl eq_refl eq_refl eq_refl eq_refl eq_refl eq_refl)
    as (e & Hfn & Hnum & Hresp & Hcall & _).
  exists e. split; [exact Hfn|]. split; [exact Hnum|]. split; [exact Hresp | exact Hcall].
Defined.

(** C8 at [struct { Value string `api:"query:a,a"` }]: the route is built,
    and its query parameters hold the external name "a" twice. *)
Theorem query_directive_repeated_name_is_registered_twice :
  exists info,
    ParseRestfulFunction samplePlatform (registeredFunctionMap samplePlatform)
      (Some (handlerOf repeatedAliasMetadata [RValue (VString "ok"); RNil]))
    = Done info
    /\ List.map qpName (QueryParameters info) = ["a"; "a"]
    /\ ~ NoDup (List.map qpName (QueryParameters info)).
Proof.
  eexists. split; [reflexivity|]. split; [reflexivity|].
  simpl. intros H. inversion H as [|x l Hin _]. apply Hin. left.
Qed.

(** "body" and "states" are distinct keys, yet [Register] with "body"
    panics once [init] has run. *)
Lemma Register_distinct_keys_may_panic :
  "body" <> "states"
  /\ Register "body" (Some (docFactory)) (registeredFunctionMap samplePlatform)
     = (registeredFunctionMap samplePlatform, Panic "tag already registered: body").
Proof.
  split; [discriminate|]. apply Register_present.
  rewrite registeredFunctionMap_unfold.
  repeat (rewrite lookup_insert_ne by discriminate).
  rewrite lookup_insert_eq. eauto.
Qed.

(** Two fresh keys on the empty registry. *)
Lemma Register_twice_panics_distinct_keys_succeed_witness :
  let m1 := fst (Register "states" (Some docFactory) (∅ : Registry)) in
  let m2 := fst (Register "cities" (Some notesFactory) m1) in
  "states" <> "cities"
  /\ (∅ : Registry) !! "states" = None
  /\ (∅ : Registry) !! "cities" = None
  /\ snd (Register "states" (Some docFactory) (∅ : Registry)) = Done tt
  /\ snd (Register "cities" (Some notesFactory) m1) = Done tt
  /\ m2 !! "states" = Some (Some docFactory)
  /\ m2 !! "cities" = Some (Some notesFactory)
  /\ Register "states" (Some notesFactory) m1
     = (m1, Panic "tag already registered: states").
Proof.
  intros m1 m2.
  assert (Hne : "states" <> "cities") by discriminate.
  assert (He1 : (∅ : Registry) !! "states" = None) by apply lookup_empty.
  assert (He2 : (∅ : Registry) !! "cities" = None) by apply lookup_empty.
  destruct (Register_twice_panics_distinct_keys_succeed ∅ "states" "cities"
              (Some docFactory) (Some notesFactory) Hne He1 He2)
    as (Hdup & H1 & H2 & H3 & H4 & _).
  split; [exact Hne|]. split; [exact He1|]. split; [exact He2|].
  split; [exact H1|]. split; [exact H2|]. split; [exact H3|]. split; [exact H4|].
  exact (Hdup ∅ "states" (Some notesFactory) (Some docFactory)).
Defined.

(* ===================================================================== *)
(** * The repository's tests, replayed on the embedding *)
(* ===================================================================== *)


Example test_not_a_function :
  parseWithBuiltins samplePlatform None = None
  /\ parseWithBuiltins samplePlatform (Some (mkFuncValue intType (fun _ => []))) = None.
Proof. split; reflexivity. Qed.

Example test_trivial :
  parseWithBuiltins samplePlatform (Some (mkFuncValue (funcType [] []) (fun _ => [])))
  = Some ((-1, -1, -1, -1), [], [], [], []).
Proof. reflexivity. Qed.

Example test_with_context_and_metadata_returns_response_and_error :
  parseWithBuiltins samplePlatform (Some (handlerOf emptyMetadata []))
  = Some ((0, 1, 1, 0), [], [], [], []).
Proof. reflexivity. Qed.

Example test_too_many :
  parseWithBuiltins samplePlatform
    (Some (mkFuncValue (funcType [contextType; contextType] []) (fun _ => []))) = None
  /\ parseWithBuiltins samplePlatform
       (Some (mkFuncValue (funcType [emptyMetadata; emptyMetadata] []) (fun _ => []))) = None
  /\ parseWithBuiltins samplePlatform
       (Some (mkFuncValue (funcType [] [stringType; stringType]) (fun _ => []))) = None
  /\ parseWithBuiltins samplePlatform
       (Some (mkFuncValue (funcType [] [errorType; errorType]) (fun _ => []))) = None.
Proof. repeat split; reflexivity. Qed.

Example test_unhandled_and_bogus_fields :
  parseWithBuiltins samplePlatform
    (Some (metadataFunction
             [mkStructField "NotUsedInt" false [] intType;
              mkStructField "NotUsedString" false [("api", "-")] stringType]))
  = Some ((-1, 0, -1, -1), [], [], [], [])
  /\ parseWithBuiltins samplePlatform
       (Some (metadataFunction [mkStructField "Bogus" false [("api", "bogus")] stringType]))
     = None.
Proof. split; reflexivity. Qed.

Example test_body :
  parseWithBuiltins samplePlatform
    (Some (metadataFunction [mkStructField "Body" false [("api", "body")] stringType]))
  = Some ((-1, 0, -1, -1), ["Body"], [], [], [])
  /\ parseWithBuiltins samplePlatform
       (Some (metadataFunction [mkStructField "Body" false [("api", "body:extra")] stringType]))
     = None
  /\ parseWithBuiltins samplePlatform
       (Some (metadataFunction [mkStructField "Body" false [("api", "body")] multipartForm]))
     = Some ((-1, 0, -1, -1), ["Body"], [], [], ["multipart/form-data"])
  /\ parseWithBuiltins samplePlatform
       (Some (metadataFunction
                [mkStructField "Body" false [("api", "body:consumes:multipart/form-data")]
                   stringType]))
     = None
  /\ parseWithBuiltins samplePlatform
       (Some (metadataFunction
                [mkStructField "Body" false [("api", "body")] (pointerTo urlValues)]))
     = Some ((-1, 0, -1, -1), ["Body"], [], [], ["application/x-www-form-urlencoded"])
  /\ parseWithBuiltins samplePlatform
       (Some (metadataFunction
                [mkStructField "Body" false
                   [("api", "body:consumes:application/x-www-form-urlencoded")] stringType]))
     = None.
Proof. repeat split; reflexivity. Qed.

Example test_httprequest :
  parseWithBuiltins samplePlatform
    (Some (metadataFunction
             [mkStructField "Request" false [("api", "httprequest")] httpRequestPointer]))
  = Some ((-1, 0, -1, -1), ["Request"], [], [], [])
  /\ parseWithBuiltins samplePlatform
       (Some (metadataFunction
                [mkStructField "Request" false [("api", "httprequest:extra")]
                   httpRequestPointer]))
     = None
  /\ parseWithBuiltins samplePlatform
       (Some (metadataFunction
                [mkStructField "Request" false [("api", "httprequest")] stringType]))
     = None.
Proof. repeat split; reflexivity. Qed.

Example test_path :
  parseWithBuiltins samplePlatform
    (Some (metadataFunction
             [mkStructField "Value1" false
                [("api", "path:key1"); ("description", "my description")] stringType]))
  = Some ((-1, 0, -1, -1), ["Value1"], [("Value1", "key1", "my description")], [], [])
  /\ parseWithBuiltins samplePlatform
       (Some (metadataFunction [mkStructField "Value1" false [("api", "path")] stringType]))
     = None
  /\ parseWithBuiltins samplePlatform
       (Some (metadataFunction
                [mkStructField "Value1" false [("api", "path:key1")] stringType;
                 mkStructField "Value2" false [("api", "path:key1")] stringType]))
     = None.
Proof. repeat split; reflexivity. Qed.

Example test_query :
  parseWithBuiltins samplePlatform
    (Some (metadataFunction
             [mkStructField "Value1" false
                [("api", "query:key1,oldKey"); ("description", "my description")]
                stringType]))
  = Some ((-1, 0, -1, -1), ["Value1"], [],
          [("Value1", "key1", "my description");
           ("Value1", "oldKey",
            "Deprecated; use " ++ dquote ++ "key1" ++ dquote ++ " instead.")],
          [])
  /\ parseWithBuiltins samplePlatform
       (Some (metadataFunction [mkStructField "Value1" false [("api", "query")] stringType]))
     = None
  /\ parseWithBuiltins samplePlatform
       (Some (metadataFunction
                [mkStructField "Value1" false [("api", "query:key1")] stringType;
                 mkStructField "Value2" false [("api", "query:key1")] stringType]))
     = None.
Proof. repeat split; reflexivity. Qed.

Example test_full_example :
  parseWithBuiltins samplePlatform (Some fullExampleFunction)
  = Some ((0, 1, 1, 0),
          ["PathValue1"; "PathValue2"; "QueryValue1"; "QueryValue2"; "Body"],
          [("PathValue1", "pathkey1", "my description");
           ("PathValue2", "pathkey2", "my description")],
          [("QueryValue1", "querykey1", "my description");
           ("QueryValue2", "querykey2", "my description")],
          []).
Proof. reflexivity. Qed.

(** Rows of TestParseStringValue. *)
Example test_parse_string_value :
  let parse s k := parseStringToSingleValue samplePlatform s
                     (pointerTarget (basicType k) (zeroValue (basicType k))) in
  isOk (parseStringToSingleValue samplePlatform EmptyString
          (Some (stringType, VString EmptyString))) = false
  /\ parse EmptyString KString = Ok (VString EmptyString)
  /\ parse "hello, world" KString = Ok (VString "hello, world")
  /\ isOk (parse EmptyString KBool) = false
  /\ parse "true" KBool = Ok (VBool true)
  /\ isOk (parse EmptyString KInt) = false
  /\ isOk (parse "hello, world" KInt) = false
  /\ isOk (parse "hello 9" KInt) = false
  /\ isOk (parse "9 world" KInt) = false
  /\ parse "0" KInt = Ok (VInt 0)
  /\ parse "1234" KInt = Ok (VInt 1234)
  /\ isOk (parse "1234.5" KInt) = false
  /\ parse "1234.5" KFloat64 = Ok (VFloat 4653144203864309760)
  /\ parse "1234" KUint = Ok (VUint 1234)
  /\ parse "123" KUint8 = Ok (VUint 123)
  /\ isOk (parse "1234" KUint8) = false
  /\ parse "1234" KUint16 = Ok (VUint 1234)
  /\ isOk (parse EmptyString KStruct) = false.
Proof. repeat split; reflexivity. Qed.

(** POST /api/v1/subapi/endpoint2/bogus with a JSON content type: 400, the
    path-parameter error of "id" with the text of [strconv.ParseInt]. *)
Example test_endpoint2_bad_path :
  response (dispatch samplePlatform
              (analysed samplePlatform
                 (handlerOf PostEndpoint2Metadata [RValue (VString "endpoint2"); RNil]))
              None bogusRequest)
  = [WriteHeaderAndEntity 400
       (EntParameterErrorOutput "*restfulwrapper.APIPathParameterError"
          ("strconv.ParseInt: parsing " ++ dquote ++ "bogus" ++ dquote ++ ": invalid syntax")
          "id")].
Proof. reflexivity. Qed.

(** POST /api/v1/subapi/endpoint2/1 without a body: 400, a body error
    without parameter. *)
Example test_endpoint2_without_body :
  response (dispatch samplePlatform
              (analysed samplePlatform
                 (handlerOf PostEndpoint2Metadata [RValue (VString "endpoint2"); RNil]))
              None
              (sampleRequest (fun _ => "1") noValues noText))
  = [WriteHeaderAndEntity 400 (EntErrorOutput "*restfulwrapper.APIBodyError" "EOF")].
Proof. reflexivity. Qed.

(** GET /api/v1/subapi/endpoint3: a chain of wrapped plain errors is a 500
    with the type of the outermost error and the full message. *)
Example test_endpoint3_wrapped_error :
  response (dispatch samplePlatform
              (analysed samplePlatform
                 (handlerOf GetEndpointMetadata
                    [RValue (VString EmptyString);
                     RError (wrapped samplePlatform (errorf "some error"))]))
              None (sampleRequest noText noValues noText))
  = [WriteHeaderAndEntity 500
       (EntErrorOutput "*fmt.wrapError" "wrap3: wrap2: wrap1: some error")].
Proof. reflexivity. Qed.

(** GET /api/v1/subapi/endpoint4: a wrapped [CustomError] writes itself. *)
Example test_endpoint4_custom_error :
  response (dispatch samplePlatform
              (analysed samplePlatform
                 (handlerOf GetEndpointMetadata
                    [RValue (VString EmptyString);
                     RError (wrapped samplePlatform customError)]))
              None (sampleRequest noText noValues noText))
  = [SetHeader "X-Custom-Error" "my custom value"; WriteBytes "custom WriteError"].
Proof. reflexivity. Qed.

(** TestRestfulWrapper: [WebService("/api")], then [Register] of the API
    below "/v1".  The routes the test then calls exist, with the methods it
    uses (endpoint 3 and endpoint 4 share the path of the sample metadata
    here). *)
Example test_register_routes :
  routesAfter 0
    (RestfulWrapper_Register samplePlatform (registeredFunctionMap samplePlatform)
       1 "/v1" (testAPI samplePlatform) apiWorld)
  = Some [("DELETE", "/v1/endpoint1"); ("GET", "/v1/endpoint1");
          ("GET", "/v1/subapi/endpoint3"); ("GET", "/v1/subapi/endpoint3");
          ("POST", "/v1/subapi/endpoint2/{id}")].
Proof. vm_compute. reflexivity. Qed.

(* ===================================================================== *)
(** * The further properties at sample inputs *)
(* ===================================================================== *)

(** An [int] that is no pointer, and a pointer to a struct without
    [ParameterParser]: no conversion for either. *)
Lemma parseStringToSingleValue_unsupported_target_witness :
  supportedTarget (Some (intType, VInt 0)) = false
  /\ supportedTarget (pointerTarget emptyMetadata (VStruct [])) = false
  /\ parseStringToSingleValue samplePlatform "1" (Some (intType, VInt 0))
     = Err (errorf "invalid target: needed pointer, got int")
  /\ parseStringToSingleValue samplePlatform "1" (pointerTarget emptyMetadata (VStruct []))
     = Err (errorf "could not parse to single value: unhandled kind: struct").
Proof.
  split; [reflexivity|]. split; [reflexivity|]. split.
  - exact (parseStringToSingleValue_unsupported_target samplePlatform "1"
             (Some (intType, VInt 0)) eq_refl).
  - exact (parseStringToSingleValue_unsupported_target samplePlatform "1"
             (pointerTarget emptyMetadata (VStruct [])) eq_refl).
Defined.

(** A [Tenant] field: the path binder stores what [ParseString] makes of
    "acme", and returns its parameter error for "other". *)
Lemma binders_delegate_to_custom_parser_witness :
  CanSet tenantFieldValue = true
  /\ parameterParser (typeMethods (valueType tenantFieldValue)) = Some tenantParseString
  /\ pathBinder samplePlatform "tenant" noInfoAtRequest tenantFieldValue
       (tenantRequest "acme") VNil
     = Done (VStruct [VString "acme"])
  /\ headerBinder samplePlatform "tenant" noInfoAtRequest tenantFieldValue
       (tenantRequest "other") VNil
     = Fail (NewAPIHeaderParameterError samplePlatform "tenant"
               (parseStringError samplePlatform (errorf "unknown tenant")))
  /\ queryBinder samplePlatform ["tenant"] limitField noInfoAtRequest tenantFieldValue
       (tenantRequest "acme") VNil
     = Done (VStruct [VString "acme"]).
Proof.
  split; [reflexivity|]. split; [reflexivity|].
  split; [|split].
  - exact (proj1 (binders_delegate_to_custom_parser samplePlatform tenantFieldValue
                    tenantParseString "tenant" limitField noInfoAtRequest
                    (tenantRequest "acme") VNil eq_refl eq_refl)).
  - exact (proj1 (proj2 (binders_delegate_to_custom_parser samplePlatform tenantFieldValue
                    tenantParseString "tenant" limitField noInfoAtRequest
                    (tenantRequest "other") VNil eq_refl eq_refl))).
  - refine (proj2 (proj2 (binders_delegate_to_custom_parser samplePlatform tenantFieldValue
                    tenantParseString "tenant" limitField noInfoAtRequest
                    (tenantRequest "acme") VNil eq_refl eq_refl)) _ _ "acme" [] eq_refl);
      discriminate.
Defined.

(** "300" on an 8-bit unsigned target and "-129" on an 8-bit signed one. *)
Lemma out_of_range_decimal_is_a_range_error_witness :
  (IntSize samplePlatform = 32 \/ IntSize samplePlatform = 64)
  /\ uintText "300" <> None
  /\ denotes samplePlatform KUint8 "300" = None
  /\ parseStringToSingleValue samplePlatform "300"
       (pointerTarget (basicType KUint8) (VUint 0))
     = Err (ENum (rangeError "ParseUint" "300"))
  /\ intText "-129" <> None
  /\ denotes samplePlatform KInt8 "-129" = None
  /\ parseStringToSingleValue samplePlatform "-129"
       (pointerTarget (basicType KInt8) (VInt 0))
     = Err (ENum (rangeError "ParseInt" "-129")).
Proof.
  assert (HP : IntSize samplePlatform = 32 \/ IntSize samplePlatform = 64)
    by (right; reflexivity).
  assert (Hu : uintText "300" <> None) by (vm_compute; discriminate).
  assert (Hi : intText "-129" <> None) by (vm_compute; discriminate).
  split; [exact HP|]. split; [exact Hu|]. split; [reflexivity|]. split; [|split; [exact Hi|split]].
  - exact (out_of_range_decimal_is_a_range_error samplePlatform (basicType KUint8) (VUint 0)
             "300" HP eq_refl eq_refl Hu eq_refl).
  - reflexivity.
  - exact (out_of_range_decimal_is_a_range_error samplePlatform (basicType KInt8) (VInt 0)
             "-129" HP eq_refl eq_refl Hi eq_refl).
Defined.

(** A request without header and path value: an error on an [int] field,
    the empty string on a [string] field. *)
Lemma absent_header_or_path_value_is_parsed_as_empty_witness :
  let req := sampleRequest noText noValues noText in
  CanSet intFieldValue = true
  /\ CanSet stringFieldValue = true
  /\ headerBinder samplePlatform "X-Token" noInfoAtRequest intFieldValue req VNil
     = Fail (NewAPIHeaderParameterError samplePlatform "X-Token"
               (ENum (syntaxError "ParseInt" EmptyString)))
  /\ pathBinder samplePlatform "id" noInfoAtRequest stringFieldValue req VNil
     = Done (VString EmptyString).
Proof.
  intros req. split; [reflexivity|]. split; [reflexivity|]. split.
  - exact (proj1 (proj1 (absent_header_or_path_value_is_parsed_as_empty samplePlatform
                           intFieldValue "X-Token" noInfoAtRequest req VNil
                           eq_refl eq_refl eq_refl eq_refl) eq_refl)).
  - exact (proj2 (proj2 (absent_header_or_path_value_is_parsed_as_empty samplePlatform
                           stringFieldValue "id" noInfoAtRequest req VNil
                           eq_refl eq_refl eq_refl eq_refl) eq_refl)).
Defined.

(** Endpoint 4 of the tests: the [CustomError] under three wrappers writes
    the response itself. *)
Lemma wrapped_error_is_written_by_its_cause_witness :
  let f := functionWithError (analysed samplePlatform (endpoint4 samplePlatform)) None in
  let req := sampleRequest noText noValues noText in
  let texts := ["wrap3: wrap2: wrap1: custom Error"; "wrap2: wrap1: custom Error";
                "wrap1: custom Error"] in
  returned (f req []) = Fail (wrapWith texts customError)
  /\ response (restfulFunctionWrapper samplePlatform f req [])
     = [SetHeader "X-Custom-Error" "my custom value"; WriteBytes "custom WriteError"].
Proof.
  intros f req texts.
  assert (H : returned (f req []) = Fail (wrapWith texts customError)) by reflexivity.
  split; [exact H|].
  rewrite (wrapped_error_is_written_by_its_cause samplePlatform f req [] texts customError H).
  reflexivity.
Defined.

(** The path value "bogus" for an [int] field: a 400 that names "id", and
    no call of the handler. *)
Lemma builtin_binding_failure_is_a_bad_request_witness :
  let info := analysed samplePlatform okHandler in
  let err := NewAPIPathParameterError samplePlatform "id"
               (ENum (syntaxError "ParseInt" "bogus")) in
  ParseRestfulFunction samplePlatform (registeredFunctionMap samplePlatform)
    (Some okHandler) = Done info
  /\ prepareArguments info bogusRequest = ([Bound "ID"], Fail err)
  /\ dispatch samplePlatform info None bogusRequest
     = mkDispatch
         [WriteHeaderAndEntity 400
            (EntParameterErrorOutput "*restfulwrapper.APIPathParameterError"
               ("strconv.ParseInt: parsing " ++ dquote ++ "bogus" ++ dquote
                ++ ": invalid syntax") "id")]
         [Bound "ID"] (Done tt).
Proof.
  intros info err.
  assert (H1 : ParseRestfulFunction samplePlatform (registeredFunctionMap samplePlatform)
                 (Some okHandler) = Done info) by reflexivity.
  assert (H2 : prepareArguments info bogusRequest = ([Bound "ID"], Fail err))
    by reflexivity.
  split; [exact H1|]. split; [exact H2|].
  exact (proj1 (proj2 (builtin_binding_failure_is_a_bad_request samplePlatform
                         (Some okHandler) info None bogusRequest [Bound "ID"] err H1 H2))).
Defined.

(** The path value "7": the handler is called and its answer is written
    once, with status 200. *)
Lemma plain_result_is_written_once_with_status_200_witness :
  let info := analysed samplePlatform okHandler in
  let arguments := [VOpaque "ctx"; VStruct [VInt 7]] in
  prepareArguments info sevenRequest = ([Bound "ID"], Done (List.map Some arguments))
  /\ dispatch samplePlatform info None sevenRequest
     = mkDispatch [WriteHeaderAndEntity 200 (EntValue (VString "ok"))]
         [Bound "ID"; Called arguments] (Done tt).
Proof.
  intros info arguments.
  assert (H : prepareArguments info sevenRequest
              = ([Bound "ID"], Done (List.map Some arguments))) by reflexivity.
  split; [exact H|].
  exact (plain_result_is_written_once_with_status_200 samplePlatform info None sevenRequest
           [Bound "ID"] (List.map Some arguments) arguments (EntValue (VString "ok"))
           H eq_refl eq_refl eq_refl eq_refl).
Defined.

(** A handler that fails with "boom" behind an error handler that answers
    404: the 404 is what is written. *)
Lemma handler_error_goes_through_the_error_handler_witness :
  let info := analysed samplePlatform boomHandler in
  let arguments := [VOpaque "ctx"; VStruct [VInt 7]] in
  prepareArguments info sevenRequest = ([Bound "ID"], Done (List.map Some arguments))
  /\ handlerError info (fnCall (FunctionValue info) arguments) = Some (errorf "boom")
  /\ returned (functionWithError info (Some notFoundHandler) sevenRequest [])
     = Fail (EAPIResponse (mkAPIResponseError "not here" (Some 404)))
  /\ response (dispatch samplePlatform info (Some notFoundHandler) sevenRequest)
     = [WriteHeaderAndEntity 404
          (EntErrorOutput "*restfulwrapper.APIResponseError" "not here")].
Proof.
  intros info arguments.
  assert (H : prepareArguments info sevenRequest
              = ([Bound "ID"], Done (List.map Some arguments))) by reflexivity.
  split; [exact H|]. split; [reflexivity|].
  destruct (handler_error_goes_through_the_error_handler samplePlatform info
              (Some notFoundHandler) sevenRequest [] [Bound "ID"] (List.map Some arguments)
              arguments (errorf "boom") H eq_refl eq_refl eq_refl) as [Hf Hd].
  split; [rewrite Hf; reflexivity | rewrite Hd; reflexivity].
Defined.

(** The handler on [IDMetadata] gets two arguments, the context first. *)
Lemma analysed_route_calls_the_handler_with_every_argument_witness :
  let info := analysed samplePlatform okHandler in
  ParseRestfulFunction samplePlatform (registeredFunctionMap samplePlatform)
    (Some okHandler) = Done info
  /\ exists arguments,
       length arguments = 2%nat
       /\ trace (dispatch samplePlatform info None sevenRequest)
          = [Bound "ID"; Called arguments].
Proof.
  intros info.
  assert (H1 : ParseRestfulFunction samplePlatform (registeredFunctionMap samplePlatform)
                 (Some okHandler) = Done info) by reflexivity.
  assert (H2 : prepareArguments info sevenRequest
               = ([Bound "ID"], Done [Some (VOpaque "ctx"); Some (VStruct [VInt 7])]))
    by reflexivity.
  split; [exact H1|].
  destruct (analysed_route_calls_the_handler_with_every_argument samplePlatform okHandler
              info None sevenRequest _ _ H1 H2) as (arguments & _ & Hlen & _ & Htrace).
  exists arguments. split; [exact Hlen | exact Htrace].
Defined.

(** Analysis accepts [*IDMetadata] as the metadata parameter; every request
    then panics before the first binder. *)
Lemma pointer_metadata_with_a_bound_field_panics_witness :
  let info := analysed samplePlatform pointerHandler in
  ParseRestfulFunction samplePlatform (registeredFunctionMap samplePlatform)
    (Some pointerHandler) = Done info
  /\ InputFields info = [mkInputField "ID" (pathBinder samplePlatform "id")]
  /\ functionWithError info None sevenRequest []
     = mkDispatch [] []
         (Panic "reflect: call of reflect.Value.FieldByName on ptr Value").
Proof.
  intros info.
  assert (Hf : InputFields info = [mkInputField "ID" (pathBinder samplePlatform "id")])
    by reflexivity.
  split; [reflexivity|]. split; [exact Hf|].
  refine (pointer_metadata_with_a_bound_field_panics info None sevenRequest [] _ []
            _ eq_refl eq_refl Hf).
  vm_compute. discriminate.
Defined.

(** A [multipart.Form] body field makes the route consume
    [multipart/form-data], and nothing else. *)
Lemma body_content_types_agree_with_the_field_type_witness :
  let made := bodyFactory samplePlatform EmptyString multipartBodyField
                (newInfo stringParameterFunction) in
  snd made = Ok (Some (bodyBinder samplePlatform false multipartBodyField))
  /\ Consumes (fst made) = ["multipart/form-data"]
  /\ isTypeString (fieldType multipartBodyField) multipartFormTypes = true
  /\ Consumes (fst made) <> [].
Proof.
  intros made.
  assert (H : snd made = Ok (Some (bodyBinder samplePlatform false multipartBodyField)))
    by reflexivity.
  split; [exact H|]. split; [reflexivity|].
  pose proof (body_content_types_agree_with_the_field_type samplePlatform EmptyString
                multipartBodyField (newInfo stringParameterFunction) _ H)
    as (_ & Hmulti & _ & Hsome).
  split; [exact (Hmulti eq_refl) | exact (Hsome eq_refl)].
Defined.

(** [api:"body:empty"]: the binder the factory returns leaves the field as
    it is, whatever the request. *)
Lemma body_option_empty_turns_the_binder_off_witness :
  let fn := bodyBinder samplePlatform true emptyBodyField in
  snd (bodyFactory samplePlatform "empty" emptyBodyField (newInfo stringParameterFunction))
  = Ok (Some fn)
  /\ forall ar v req metadataValue, fn ar v req metadataValue = Done (valueData v).
Proof.
  intros fn.
  assert (H : snd (bodyFactory samplePlatform "empty" emptyBodyField
                     (newInfo stringParameterFunction)) = Ok (Some fn)) by reflexivity.
  split; [exact H|].
  exact (proj1 (body_option_empty_turns_the_binder_off samplePlatform "empty" emptyBodyField
                  (newInfo stringParameterFunction) fn H)).
Defined.

(** [api:"path"] and [api:"doc:text"] are both refused. *)
Lemma builtin_directives_check_their_value_witness :
  let info := newInfo stringParameterFunction in
  (exists e,
     handleField samplePlatform (registeredFunctionMap samplePlatform) info
       (mkStructField "ID" false [("api", "path")] intType) = (info, Fail e))
  /\ (exists e,
        handleField samplePlatform (registeredFunctionMap samplePlatform) info
          (mkStructField "_" false [("api", "doc:text")] stringType) = (info, Fail e)).
Proof.
  intros info. split.
  - refine (proj1 (builtin_directives_check_their_value samplePlatform "path" "ID"
                     [("api", "path")] intType info) _ (or_introl eq_refl)).
    simpl. tauto.
  - refine (proj2 (builtin_directives_check_their_value samplePlatform "doc" "_"
                     [("api", "doc:text")] stringType info) _ "text" _ eq_refl).
    + simpl. tauto.
    + discriminate.
Defined.

(** Analysis of the handler on [ItemMetadata]: the two blank directive
    fields, the embedded one first, then [ID] and [Limit]; the fields
    without directive are not bound. *)
Lemma bound_fields_are_the_directive_fields_in_order_witness :
  exists info,
    ParseRestfulFunction samplePlatform (registeredFunctionMap samplePlatform)
      (Some itemHandler) = Done info
    /\ List.map Name (InputFields info) = ["_"; "_"; "ID"; "Limit"].
Proof.
  assert (Hobs : option_map (fun o => fst (fst (fst (fst o))))
                   (parseWithBuiltins samplePlatform (Some itemHandler))
                 = Some (0, 1, 1, 0)) by reflexivity.
  unfold parseWithBuiltins, observed in Hobs.
  destruct (ParseRestfulFunction samplePlatform (registeredFunctionMap samplePlatform)
              (Some itemHandler)) as [info|e|why] eqn:H; try discriminate Hobs.
  exists info. split; [reflexivity|].
  injection Hobs as _ Hmeta _ _.
  rewrite (bound_fields_are_the_directive_fields_in_order samplePlatform itemHandler info H).
  rewrite Hmeta. reflexivity.
Defined.

(** Two attributes set on a request that already has another tenant, the
    entries being met in the reverse order of the map. *)
Lemma filterSetAttributes_sets_every_attribute_in_any_order_witness :
  let requestAttributes : gmap string GoValue :=
    <["tenant" := VString "old"]> (<["trace" := VString "t1"]> ∅) in
  let order := reverse (map_to_list tenantAttributes) in
  order ≡ₚ map_to_list tenantAttributes
  /\ filterSetAttributes order requestAttributes
       (fun m => (m !! "tenant", m !! "role", m !! "trace"))
     = (Some (VString "acme"), Some (VString "admin"), Some (VString "t1")).
Proof.
  intros requestAttributes order.
  assert (H : order ≡ₚ map_to_list tenantAttributes) by apply reverse_Permutation.
  split; [exact H|].
  rewrite (proj1 (filterSetAttributes_sets_every_attribute_in_any_order tenantAttributes
                    requestAttributes order _ H)).
  vm_compute. reflexivity.
Defined.

Lemma tenantWorld_wellFormed : wellFormed tenantWorld.
Proof.
  split.
  - apply (map_Forall_lookup
             (fun r wr => (r < nextLoc tenantWorld)%nat
                          /\ forall a, rwAttributes wr = Some a ->
                                       (a < nextLoc tenantWorld)%nat)).
    apply map_Forall_to_list. vm_compute.
    constructor; [|constructor]. split; [repeat constructor|].
    intros a [= <-]. repeat constructor.
  - apply (map_Forall_lookup (fun a _ => (a < nextLoc tenantWorld)%nat)).
    apply map_Forall_to_list. vm_compute. repeat constructor.
Qed.

(** A session of the wrapper of "/api" that holds the tenant attributes: a
    new wrapper with the same attributes, and the wrapper as it was. *)
Lemma session_is_an_independent_copy_witness :
  wrappers tenantWorld !! 1%nat = Some tenantWrapper
  /\ exists s a w',
       RestfulWrapper_Session 1 tenantWorld = (w', Done s)
       /\ s <> 1%nat
       /\ wrappers w' !! 1%nat = Some tenantWrapper
       /\ wrappers w' !! s = Some (sessionOf tenantWrapper a)
       /\ attributesOf w' (Some a) = attributesOf tenantWorld (Some 2%nat).
Proof.
  assert (H : wrappers tenantWorld !! 1%nat = Some tenantWrapper)
    by (vm_compute; reflexivity).
  split; [exact H|].
  destruct (session_is_an_independent_copy 1 tenantWorld tenantWrapper
              tenantWorld_wellFormed H)
    as (s & a & w' & Hrun & Hne & Hr & Hs & Ha & _).
  exists s, a, w'. repeat split; assumption.
Defined.

(** What the witnesses below need of the analysis of the handler on
    [ItemMetadata]. *)
Lemma itemHandler_analysed :
  exists info,
    ParseRestfulFunction samplePlatform (registeredFunctionMap samplePlatform)
      (Some itemHandler) = Done info
    /\ InMetadataPosition info = 1
    /\ OutResponsePosition info = 0
    /\ length (HeaderParameters info) = 0%nat
    /\ length (PathParameters info) = 1%nat
    /\ length (QueryParameters info) = 1%nat
    /\ BodyExample info = None.
Proof.
  assert (Hobs : match ParseRestfulFunction samplePlatform
                         (registeredFunctionMap samplePlatform) (Some itemHandler) with
                 | Done info =>
                     Some (InMetadataPosition info, OutResponsePosition info,
                           length (HeaderParameters info), length (PathParameters info),
                           length (QueryParameters info), BodyExample info)
                 | _ => None
                 end = Some (1, 0, 0%nat, 1%nat, 1%nat, None))
    by (vm_compute; reflexivity).
  destruct (ParseRestfulFunction samplePlatform (registeredFunctionMap samplePlatform)
              (Some itemHandler)) as [info|e|why]; try discriminate Hobs.
  injection Hobs as H1 H2 H3 H4 H5 H6.
  exists info. repeat split; assumption.
Qed.

(** [Register] of a value with one method and a nested value with one
    method, on the wrapper of "/api": nothing changes but the routes of the
    web service. *)
Lemma Register_adds_one_route_per_method_in_order_witness :
  wrappers tenantWorld !! 1%nat = Some tenantWrapper
  /\ webServices tenantWorld !! 0%nat = Some (mkRestfulWebService "/api" [])
  /\ plannedRoutes "/v1" nestedAPI
     = [("/v1", "GetItem", itemHandler); ("/v1/subapi", "GetOther", okHandler)]
  /\ exists w' o added,
       RestfulWrapper_Register samplePlatform (registeredFunctionMap samplePlatform)
         1 "/v1" nestedAPI tenantWorld = (w', o)
       /\ routesAdded 0 tenantWorld w' added
       /\ (o = Done tt -> length added = 2%nat)
       /\ forall e, o <> Fail e.
Proof.
  assert (Hr : wrappers tenantWorld !! 1%nat = Some tenantWrapper)
    by (vm_compute; reflexivity).
  assert (Hs : webServices tenantWorld !! rwWs tenantWrapper
               = Some (mkRestfulWebService "/api" []))
    by (vm_compute; reflexivity).
  split; [exact Hr|]. split; [exact Hs|]. split; [reflexivity|].
  destruct (Register_adds_one_route_per_method_in_order samplePlatform
              (registeredFunctionMap samplePlatform) 1 tenantWrapper "/v1" nestedAPI
              tenantWorld _ Hr Hs) as (w' & o & added & Hrun & Hadded & Hdone & Hfail).
  exists w', o, added. split; [exact Hrun|]. split; [exact Hadded|].
  split; [|exact Hfail].
  intros Ho. symmetry. exact (Forall2_length _ _ _ (Hdone Ho)).
Defined.

(** The second method of the value cannot be analysed: [Register] panics
    with its name, the route of the first method having been added. *)
Lemma Register_panics_at_the_first_method_that_cannot_be_analysed_witness :
  exists w' added,
    RestfulWrapper_Register samplePlatform (registeredFunctionMap samplePlatform)
      1 "/v1" brokenAPI tenantWorld
    = (w', Panic "could not parse function: Broken: unexpected input type: string")
    /\ routesAdded 0 tenantWorld w' added
    /\ length added = 1%nat.
Proof.
  assert (Hr : wrappers tenantWorld !! 1%nat = Some tenantWrapper)
    by (vm_compute; reflexivity).
  assert (Hs : webServices tenantWorld !! rwWs tenantWrapper
               = Some (mkRestfulWebService "/api" []))
    by (vm_compute; reflexivity).
  assert (Hpre : Forall (fun m : string * FuncValue =>
                           exists info,
                             ParseRestfulFunction samplePlatform
                               (registeredFunctionMap samplePlatform) (Some (snd m))
                             = Done info)
                   [("GetItem", itemHandler)]).
  { constructor; [|constructor].
    destruct itemHandler_analysed as (info & H & _). exists info. exact H. }
  destruct (Register_panics_at_the_first_method_that_cannot_be_analysed samplePlatform
              (registeredFunctionMap samplePlatform) 1 tenantWrapper "/v1" "*API"
              [("GetItem", itemHandler)] [("Other", okHandler)] "Broken"
              stringParameterFunction KStruct [] tenantWorld _
              (errorf "unexpected input type: string") Hr Hs Hpre eq_refl)
    as (w' & added & Hrun & Hadded & Hroutes).
  exists w', added. split; [exact Hrun|]. split; [exact Hadded|].
  symmetry. exact (Forall2_length _ _ _ Hroutes).
Defined.

(** The route of the handler on [ItemMetadata] documents a 400 for its path
    parameter, a 400 for its query parameter, and a 200 with a string. *)
Lemma documented_responses_follow_the_parameters_and_the_result_witness :
  exists info,
    ParseRestfulFunction samplePlatform (registeredFunctionMap samplePlatform)
      (Some itemHandler) = Done info
    /\ returnsCalls (UpdateRouteBuilder info [])
       = [badRequestReturn; badRequestReturn;
          (StatusOK, "OK", Some (pointerTo stringType, VPtr (VString EmptyString)))].
Proof.
  destruct itemHandler_analysed as (info & H & _ & Hout & Hh & Hp & Hq & Hb).
  exists info. split; [exact H|].
  rewrite (documented_responses_follow_the_parameters_and_the_result samplePlatform
             itemHandler info [] H).
  rewrite Hout, Hh, Hp, Hq, Hb. reflexivity.
Defined.

(** A wrapper that consumes JSON and a [multipart.Form] body field: the
    route is told to consume JSON first, [multipart/form-data] last. *)
Lemma route_declares_the_content_types_of_the_directive_last_witness :
  wrappers jsonWorld !! rrWs uploadRoute = Some jsonWrapper
  /\ Consumes (uploadInfo samplePlatform) = ["multipart/form-data"]
  /\ consumesCalls (routeFor samplePlatform jsonWrapper 1 "/v1" (uploadInfo samplePlatform))
     = [["application/json"]; ["multipart/form-data"]].
Proof.
  assert (H : wrappers jsonWorld !! rrWs uploadRoute = Some jsonWrapper)
    by (vm_compute; reflexivity).
  split; [exact H|]. split; [reflexivity|].
  rewrite (proj1 (proj2 (route_declares_the_content_types_of_the_directive_last
                           samplePlatform uploadRoute jsonWorld jsonWrapper
                           (uploadInfo samplePlatform) 1 "/v1" H))).
  reflexivity.
Defined.

(** The declared metadata of the handler on [ItemMetadata]. *)
Lemma route_metadata_follows_the_directives_in_order_witness :
  exists info,
    ParseRestfulFunction samplePlatform (registeredFunctionMap samplePlatform)
      (Some itemHandler) = Done info
    /\ HTTPMethod info = "GET"
    /\ HTTPPath info = "/items/{id}"
    /\ PathParameters info = [mkPathParameter "ID" "id" "The item."]
    /\ HeaderParameters info = [].
Proof.
  destruct itemHandler_analysed as (info & H & Hmeta & _).
  exists info. split; [exact H|].
  pose proof (route_metadata_follows_the_directives_in_order samplePlatform itemHandler
                info H) as E.
  cbv zeta in E. rewrite Hmeta in E.
  destruct E as (Hmethod & Hpath & _ & _ & _ & Hparams & Hheaders).
  rewrite Hmethod, Hpath, Hparams, Hheaders. repeat split; reflexivity.
Defined.

(** The path value "7" is stored in an [int] field; "bogus" is the path
    parameter error of "id". *)
Lemma path_and_header_values_are_bound_when_they_denote_witness :
  (IntSize samplePlatform = 32 \/ IntSize samplePlatform = 64)
  /\ CanSet intFieldValue = true
  /\ pathBinder samplePlatform "id" noInfoAtRequest intFieldValue sevenRequest VNil
     = Done (VInt 7)
  /\ exists err,
       pathBinder samplePlatform "id" noInfoAtRequest intFieldValue bogusRequest VNil
       = Fail (NewAPIPathParameterError samplePlatform "id" err).
Proof.
  assert (HP : IntSize samplePlatform = 32 \/ IntSize samplePlatform = 64)
    by (right; reflexivity).
  split; [exact HP|]. split; [reflexivity|]. split.
  - exact (proj1 (path_and_header_values_are_bound_when_they_denote samplePlatform
                    intFieldValue "id" noInfoAtRequest sevenRequest VNil
                    HP eq_refl eq_refl eq_refl)).
  - exact (proj1 (path_and_header_values_are_bound_when_they_denote samplePlatform
                    intFieldValue "id" noInfoAtRequest bogusRequest VNil
                    HP eq_refl eq_refl eq_refl)).
Defined.

(** A [[]int] field that holds one element: three values give a slice of
    three elements, no value gives the empty slice. *)
Lemma query_slice_field_gets_one_element_per_value_witness :
  CanSet intsFieldValue = true
  /\ valueKind intsFieldValue = KSlice
  /\ match queryBinder samplePlatform ["tag"] tagsField noInfoAtRequest intsFieldValue
             tagsRequest VNil with
     | Done d => exists ds, d = VSlice ds /\ length ds = 3%nat
     | Fail err => exists inner, err = NewAPIQueryParameterError samplePlatform "tag" inner
     | Panic _ => False
     end
  /\ queryBinder samplePlatform ["tag"] tagsField noInfoAtRequest intsFieldValue
       (sampleRequest noText noValues noText) VNil
     = Done (VSlice []).
Proof.
  split; [reflexivity|]. split; [reflexivity|]. split.
  - exact (proj1 (query_slice_field_gets_one_element_per_value samplePlatform ["tag"]
                    tagsField intsFieldValue noInfoAtRequest tagsRequest VNil
                    eq_refl eq_refl)).
  - exact (proj2 (query_slice_field_gets_one_element_per_value samplePlatform ["tag"]
                    tagsField intsFieldValue noInfoAtRequest
                    (sampleRequest noText noValues noText) VNil eq_refl eq_refl) eq_refl).
Defined.
